(** * Runner lifecycle controller: a shallow embedding and its properties

    The development follows the Python sources file by file:
    - [Py]            the few Python built-ins the code relies on
                      (str methods, [int()], insertion-ordered dicts, exceptions);
    - [Cfg]           config.py;
    - [AWSManager]    aws_manager.py (the EC2 requests are recorded in a call log);
    - [RunnerManager] runner_manager.py (notification path);
    - [JobPoller]     job_poller.py (polling path);
    - [WebhookServer] webhook_server.py, and [Main] the monitoring routes of main.py.

    Replies of the remote services (GitHub, EC2), the clock and the random
    suffixes are inputs of each operation; every request that reaches a
    remote service is appended to the [calls] log of the state.  The
    wrappers around the remote services are taken by their declared results
    ([Optional[str]], [bool], lists): the GitHub wrappers catch every
    exception, the AWS wrappers every ClientError.  An exception of another
    kind that escapes [terminate_instance] is modelled where the caller has
    an [except] branch of its own for it, in the two cleanup routines. *)

From Stdlib Require Import ZArith List String Ascii Bool Lia.
From Stdlib Require Import DecimalString Sorting.Sorted.
Import ListNotations.

Open Scope string_scope.
Open Scope list_scope.
Open Scope Z_scope.

(* ================================================================== *)
(** ** Python built-ins used by the sources *)

Module Py.

(** Exceptions the modelled code can raise. *)
Inductive exn :=
| ValueError | IndexError | AttributeError | TypeError | KeyError
| OverflowError
| BotoCoreError.      (* botocore's errors that are no ClientError *)

(** A computation that returns or raises. *)
Inductive result (A : Type) : Type :=
| Ret (a : A)
| Raise (e : exn).
Arguments Ret {A} a.
Arguments Raise {A} e.

Definition bind {A B} (m : result A) (k : A -> result B) : result B :=
  match m with
  | Ret a => k a
  | Raise e => Raise e
  end.

Definition returns {A} (m : result A) : Prop := exists a, m = Ret a.

(** A JSON value found in a label list: a string, or anything else, kept
    through its [str()] rendering (all the code ever asks of it). *)
Inductive pyval :=
| PyStr (s : string)
| PyOther (repr : string).

Definition str (v : pyval) : string :=
  match v with PyStr s => s | PyOther r => r end.

(** [s.startswith(p)] *)
Definition startswith (s p : string) : bool := String.prefix p s.

(** [sub in s] *)
Fixpoint contains (sub s : string) : bool :=
  String.prefix sub s ||
  match s with
  | EmptyString => false
  | String _ s' => contains sub s'
  end.

(** [s.split(sep)] for a one-character separator: always a non-empty list. *)
Fixpoint split (sep : ascii) (s : string) : list string :=
  match s with
  | EmptyString => [EmptyString]
  | String c s' =>
      if Ascii.eqb c sep then EmptyString :: split sep s'
      else match split sep s' with
           | [] => [String c EmptyString]
           | w :: ws => String c w :: ws
           end
  end.

(** [s.split(sep, 1)]: cut at the first separator only. *)
Fixpoint split1 (sep : ascii) (s : string) : list string :=
  match s with
  | EmptyString => [EmptyString]
  | String c s' =>
      if Ascii.eqb c sep then [EmptyString; s']
      else match split1 sep s' with
           | [] => [String c EmptyString]
           | w :: ws => String c w :: ws
           end
  end.

(** [l[i]], raising IndexError out of range. *)
Definition index {A} (l : list A) (i : nat) : result A :=
  match nth_error l i with
  | Some a => Ret a
  | None => Raise IndexError
  end.

Fixpoint drop (n : nat) (s : string) : string :=
  match n, s with
  | O, _ => s
  | S n', String _ s' => drop n' s'
  | S _, EmptyString => EmptyString
  end.

(** [s.replace(old, new)] for a non-empty [old]: left to right, without
    overlap; the fuel is the length of [s]. *)
Fixpoint replace_fuel (fuel : nat) (old new s : string) : string :=
  match fuel with
  | O => s
  | S fuel' =>
      match s with
      | EmptyString => EmptyString
      | String c s' =>
          if String.prefix old s
          then (new ++ replace_fuel fuel' old new (drop (String.length old) s))%string
          else String c (replace_fuel fuel' old new s')
      end
  end.

Definition replace (old new s : string) : string :=
  replace_fuel (String.length s) old new s.

(** [s[:n]] *)
Definition take (n : nat) (s : string) : string := String.substring 0 n s.

(** [str(z)] of an integer: decimal, with a leading minus sign. *)
Definition str_of_int (z : Z) : string := NilZero.string_of_int (Z.to_int z).

(** *** [int(s)] on ASCII text

    White space around the literal is skipped (the characters C's [isspace]
    knows: tab to carriage return, and the space), one sign is allowed, then
    decimal digits, single underscores allowed between digits; a literal of
    more than 4300 digits is refused (the interpreter's default limit).
    Anything else is a ValueError.  On text with other than ASCII characters
    CPython accepts further digits and white space: [int] is exact on ASCII
    text only, and what is proved from its raising says so. *)

Definition is_space (c : ascii) : bool :=
  let n := nat_of_ascii c in
  ((9 <=? n) && (n <=? 13) || (n =? 32))%nat.

Definition is_digit (c : ascii) : bool :=
  let n := nat_of_ascii c in ((48 <=? n) && (n <=? 57))%nat.

Definition digit_val (c : ascii) : Z := Z.of_nat (nat_of_ascii c) - 48.

Fixpoint skip_space (s : string) : string :=
  match s with
  | String c s' => if is_space c then skip_space s' else s
  | EmptyString => EmptyString
  end.

Fixpoint rev_string (acc s : string) : string :=
  match s with
  | EmptyString => acc
  | String c s' => rev_string (String c acc) s'
  end.

(** The literal without the white space around it. *)
Definition trim (s : string) : string :=
  rev_string "" (skip_space (rev_string "" (skip_space s))).

Fixpoint int_digits (after_digit : bool) (acc : Z) (s : string) : option Z :=
  match s with
  | EmptyString => if after_digit then Some acc else None
  | String c s' =>
      if is_digit c then int_digits true (10 * acc + digit_val c) s'
      else if Ascii.eqb c "_" && after_digit then int_digits false acc s'
      else None
  end.

Fixpoint count_digits (s : string) : Z :=
  match s with
  | EmptyString => 0
  | String c s' => (if is_digit c then 1 else 0) + count_digits s'
  end.

(** [sys.get_int_max_str_digits()], as the interpreter starts. *)
Definition int_max_str_digits : Z := 4300.

Definition int (s : string) : result Z :=
  let body := trim s in
  let parsed :=
    match body with
    | String "-" r => option_map Z.opp (int_digits false 0 r)
    | String "+" r => int_digits false 0 r
    | _ => int_digits false 0 body
    end in
  match parsed with
  | Some z =>
      if count_digits body <=? int_max_str_digits then Ret z else Raise ValueError
  | None => Raise ValueError
  end.

(** *** [sorted(d.items())] for a dict with integer keys

    Pairs are ordered by key (the keys of a dict are distinct, so the
    second component never decides). *)

Fixpoint insert_sorted {V} (p : Z * V) (l : list (Z * V)) : list (Z * V) :=
  match l with
  | [] => [p]
  | q :: l' => if fst p <=? fst q then p :: l else q :: insert_sorted p l'
  end.

Definition sorted {V} (items : list (Z * V)) : list (Z * V) :=
  fold_right insert_sorted [] items.

(** *** Insertion-ordered dictionaries with string keys

    Iteration order is insertion order; assigning an existing key keeps its
    place.  Both handlers that scan [active_runners] depend on that order. *)

Definition dict (V : Type) := list (string * V).

Fixpoint dict_get {V} (d : dict V) (k : string) : option V :=
  match d with
  | [] => None
  | (k', v) :: d' => if String.eqb k k' then Some v else dict_get d' k
  end.


Fixpoint dict_set {V} (d : dict V) (k : string) (v : V) : dict V :=
  match d with
  | [] => [(k, v)]
  | (k', v') :: d' =>
      if String.eqb k k' then (k, v) :: d' else (k', v') :: dict_set d' k v
  end.

(** [del d[k]]: keys are unique in a dict, so dropping every entry under
    [k] drops the one there is. *)
Definition dict_del {V} (d : dict V) (k : string) : dict V :=
  filter (fun kv => negb (String.eqb k (fst kv))) d.

(** [hmac.compare_digest(a, b)] on two [str]: equality, and a TypeError
    when either holds a non-ASCII character. *)
Definition is_ascii (s : string) : bool :=
  forallb (fun c => (nat_of_ascii c <? 128)%nat) (list_ascii_of_string s).

Definition compare_digest (a b : string) : result bool :=
  if is_ascii a && is_ascii b then Ret (String.eqb a b) else Raise TypeError.

(** Truthiness of an [Optional[str]]: [None] and the empty string are false. *)
Definition truthy (o : option string) : bool :=
  match o with
  | Some s => negb (String.eqb s "")
  | None => false
  end.

(** *** [datetime] and [timedelta]

    A [datetime] counts the microseconds since [datetime.min], a
    [timedelta] counts microseconds; so do the time stamps [created_at] of
    the records. *)

(** A [timedelta] holds at most 999999999 days, either way. *)
Definition timedelta_in_range (seconds : Z) : bool :=
  (-999999999 <=? seconds / 86400) && (seconds / 86400 <=? 999999999).

(** [timedelta(seconds=n)] for an [int]: OverflowError out of range. *)
Definition timedelta_seconds (n : Z) : result Z :=
  if timedelta_in_range n then Ret (1000000 * n) else Raise OverflowError.


(** The days from [datetime.min] to [datetime.max] are those of the years
    1 to 9999. *)
Definition datetime_in_range (t : Z) : bool :=
  (0 <=? t) && (t <? 3652059 * 86400 * 1000000).

(** [t - d] for a [datetime] and a [timedelta]: OverflowError when the
    result is no [datetime]. *)
Definition datetime_sub (t d : Z) : result Z :=
  if datetime_in_range (t - d) then Ret (t - d) else Raise OverflowError.



End Py.

Notation "x <- m ;; k" := (Py.bind m (fun x => k))
  (at level 61, m at next level, right associativity).

Import Py.

(* ================================================================== *)
(** ** config.py *)

Module Cfg.

(** The fields of [class Config] that the modelled code reads. *)
Record Config := {
  github_token : string;
  github_org : string;
  default_instance_type : string;
  default_ami_id : string;
  runner_labels : list string;
  runner_idle_timeout : Z
}.

(** The declared defaults of [class Config]. *)
Definition defaults (token org : string) : Config := {|
  github_token := token;
  github_org := org;
  default_instance_type := "t3.medium";
  default_ami_id := "ami-0c02fb55956c7d316";
  runner_labels := ["self-hosted"; "linux"; "x64"];
  runner_idle_timeout := 300
|}.

(** Reading [config.github_webhook_secret].  [class Config] declares no
    such field and [from_env] sets none, so on an instance of the class the
    attribute read raises AttributeError. *)
Definition github_webhook_secret (c : Config) : result string :=
  Raise AttributeError.




End Cfg.

(* ================================================================== *)
(** ** Requests sent to the remote services *)

Inductive Call :=
| EC2_RequestSpotInstances (runner_name instance_type ami_id max_price : string)
| EC2_TerminateInstances (instance_id : string)
| EC2_DescribeInstances
| GH_RegistrationToken (owner repo : string)
| GH_RemoveToken (owner repo : string)
| GH_ListRunners (owner repo : string)
| GH_RemoveRunner (owner repo : string) (runner_id : Z)
| GH_OrgRegistrationToken (org : string)
| GH_ListScaleSets (org : string)
| GH_CreateScaleSet (org name : string)
| GH_DeleteScaleSet (org scale_set_id : string).

Definition is_terminate (c : Call) : bool :=
  match c with EC2_TerminateInstances _ => true | _ => false end.

Definition is_terminate_of (i : string) (c : Call) : bool :=
  match c with EC2_TerminateInstances j => String.eqb i j | _ => false end.

Definition is_delete_scale_set (c : Call) : bool :=
  match c with GH_DeleteScaleSet _ _ => true | _ => false end.

Definition count_calls (p : Call -> bool) (l : list Call) : nat :=
  List.length (filter p l).

(* ================================================================== *)
(** ** aws_manager.py *)

Module AWSManager.

(** One entry of [list_runner_instances()]. *)
Record Instance := {
  inst_id : string;
  inst_runner_name : option string;
  launch_time : Z
}.

(** [terminate_instance]: one TerminateInstances request; [True] when EC2
    accepts it, [False] when the client reports an error. *)
Definition terminate_instance (ec2_accepts : string -> bool)
    (instance_id : string) (calls : list Call) : bool * list Call :=
  (ec2_accepts instance_id, calls ++ [EC2_TerminateInstances instance_id]).

(** What the EC2 client does with a TerminateInstances request, as a caller
    of [terminate_instance] sees it: the wrapper returns ([True], or [False]
    after a ClientError), or an exception that is no ClientError escapes it
    (botocore raises such when the endpoint cannot be reached or the request
    cannot be signed). *)
Inductive Termination :=
| Answered (accepted : bool)
| Escapes (e : exn).

(** [terminate_instance] before such a client: the request is sent either
    way. *)
Definition terminate_instance_raising (ec2 : string -> Termination)
    (instance_id : string) (calls : list Call) : result bool * list Call :=
  match ec2 instance_id with
  | Answered accepted =>
      let '(ok, calls') := terminate_instance (fun _ => accepted) instance_id calls in
      (Ret ok, calls')
  | Escapes e => (Raise e, calls ++ [EC2_TerminateInstances instance_id])
  end.

(** What EC2 answers during one run of [cleanup_old_instances]. *)
Record SweepEnv := {
  listed : list Instance;          (* list_runner_instances() *)
  current_time : Z;                (* time.time(), in seconds *)
  ec2_accepts : string -> bool     (* does terminate_instances succeed *)
}.

(** The loop of [cleanup_old_instances].  The source compares
    [(current_time - launch_time) / 3600 > max_age_hours]; the division by
    the positive constant is cleared here. *)
Fixpoint sweep (env : SweepEnv) (max_age_hours : Z) (instances : list Instance)
    (cleaned_count : Z) (calls : list Call) : Z * list Call :=
  match instances with
  | [] => (cleaned_count, calls)
  | instance :: rest =>
      if 3600 * max_age_hours <? current_time env - launch_time instance then
        let '(ok, calls') :=
          terminate_instance (ec2_accepts env) (inst_id instance) calls in
        sweep env max_age_hours rest
              (if ok then cleaned_count + 1 else cleaned_count) calls'
      else sweep env max_age_hours rest cleaned_count calls
  end.

Definition cleanup_old_instances (env : SweepEnv) (max_age_hours : Z)
    (calls : list Call) : Z * list Call :=
  sweep env max_age_hours (listed env) 0 (calls ++ [EC2_DescribeInstances]).

(** One instance of a DescribeInstances reservation, as
    [list_runner_instances] reads it. *)
Record Described := {
  InstanceId : string;
  Tags : list (string * string);        (* (Key, Value), possibly none *)
  LaunchTime : Z
}.

(** The tags [_tag_instance] puts on an instance. *)
Definition runner_tags (runner_name : string) : list (string * string) :=
  [ ("Name", ("github-runner-" ++ runner_name)%string);
    ("Type", "github-actions-runner");
    ("RunnerName", runner_name);
    ("ManagedBy", "github-runner-manager") ].

(** The inner loop over the tags: the value of the first [RunnerName]. *)
Fixpoint runner_name_of_tags (tags : list (string * string)) : option string :=
  match tags with
  | [] => None
  | (key, value) :: rest =>
      if String.eqb key "RunnerName" then Some value else runner_name_of_tags rest
  end.

(** [list_runner_instances], given what DescribeInstances answers: the
    reservations, or a ClientError ([None]). *)
Definition list_runner_instances (response : option (list (list Described)))
    : list Instance :=
  match response with
  | None => []
  | Some reservations =>
      flat_map
        (fun reservation =>
           map (fun instance =>
                  {| inst_id := InstanceId instance;
                     inst_runner_name := runner_name_of_tags (Tags instance);
                     launch_time := LaunchTime instance |})
               reservation)
        reservations
  end.

(** What DescribeSpotInstanceRequests answers: the request's [State] and
    its [InstanceId] when the key is there, or a ClientError. *)
Inductive SpotReply :=
| SpotRequest (State : string) (InstanceId : option string)
| SpotClientError.

(** The loop of [_wait_for_spot_fulfillment].  Each turn takes from the
    trace the [time.time()] read by the loop test (in seconds) and the answer
    to the request made if the test passes.  The result is the returned
    [Optional[str]] with the number of requests made, or [None] when the
    trace ends before the loop does. *)
Fixpoint wait_loop (start_time timeout : Z) (trace : list (Z * SpotReply))
    (requests : Z) : option (option string * Z) :=
  match trace with
  | [] => None
  | (now, reply) :: rest =>
      if now - start_time <? timeout then
        match reply with
        | SpotClientError => Some (None, requests + 1)
        | SpotRequest state instance_id =>
            match String.eqb state "active", instance_id with
            | true, Some id => Some (Some id, requests + 1)
            | _, _ =>
                if String.eqb state "cancelled" || String.eqb state "failed"
                then Some (None, requests + 1)
                else wait_loop start_time timeout rest (requests + 1)
            end
        end
      else Some (None, requests)
  end.

Definition _wait_for_spot_fulfillment (start_time timeout : Z)
    (trace : list (Z * SpotReply)) : option (option string * Z) :=
  wait_loop start_time timeout trace 0.

End AWSManager.

(* ================================================================== *)
(** ** github_client.py *)

Module GitHubClient.

(** [parse_repository_from_url]: owner and repository of a repository URL,
    or [(None, None)]. *)
Definition parse_repository_from_url (repo_url : string)
    : option string * option string :=
  if startswith repo_url "https://github.com/" then
    match split "/" (replace "https://github.com/" "" repo_url) with
    | p0 :: p1 :: _ => (Some p0, Some p1)
    | _ => (None, None)
    end
  else if contains "/" repo_url then
    match split "/" repo_url with
    | p0 :: p1 :: _ => (Some p0, Some p1)
    | _ => (None, None)
    end
  else (None, None).

End GitHubClient.

(* ================================================================== *)
(** ** runner_manager.py *)

Module RunnerManager.

(** The [config] dict built by [parse_runs_on_config]: four keys are always
    present, ['run_id'] and ['memory'] only once a label has set them. *)
Record RunnerConfig := {
  instance_type : string;
  ami_id : string;
  labels : list string;
  max_price : string;
  run_id : option string;
  memory : option string
}.

Definition set_instance_type (c : RunnerConfig) (v : string) : RunnerConfig :=
  {| instance_type := v; ami_id := ami_id c; labels := labels c;
     max_price := max_price c; run_id := run_id c; memory := memory c |}.
Definition set_ami_id (c : RunnerConfig) (v : string) : RunnerConfig :=
  {| instance_type := instance_type c; ami_id := v; labels := labels c;
     max_price := max_price c; run_id := run_id c; memory := memory c |}.
Definition set_labels (c : RunnerConfig) (v : list string) : RunnerConfig :=
  {| instance_type := instance_type c; ami_id := ami_id c; labels := v;
     max_price := max_price c; run_id := run_id c; memory := memory c |}.
Definition set_max_price (c : RunnerConfig) (v : string) : RunnerConfig :=
  {| instance_type := instance_type c; ami_id := ami_id c; labels := labels c;
     max_price := v; run_id := run_id c; memory := memory c |}.
Definition set_run_id (c : RunnerConfig) (v : string) : RunnerConfig :=
  {| instance_type := instance_type c; ami_id := ami_id c; labels := labels c;
     max_price := max_price c; run_id := Some v; memory := memory c |}.
Definition set_memory (c : RunnerConfig) (v : string) : RunnerConfig :=
  {| instance_type := instance_type c; ami_id := ami_id c; labels := labels c;
     max_price := max_price c; run_id := run_id c; memory := Some v |}.

(** The literal [cpu_map], in source order. *)
Definition cpu_map : list (Z * string) :=
  [ (1, "t3.micro"); (2, "t3.medium"); (4, "t3.xlarge"); (8, "t3.2xlarge");
    (16, "m5.4xlarge"); (32, "m5.8xlarge"); (64, "m5.16xlarge") ].

(** [for cpu, instance_type in items: if cpu >= cpu_count: return instance_type] *)
Fixpoint first_fit (cpu_count : Z) (items : list (Z * string)) : option string :=
  match items with
  | [] => None
  | (cpu, instance_type) :: rest =>
      if cpu_count <=? cpu then Some instance_type else first_fit cpu_count rest
  end.

Definition _cpu_to_instance_type (cpu_count : Z) : string :=
  match first_fit cpu_count (sorted cpu_map) with
  | Some instance_type => instance_type
  | None => "m5.16xlarge"
  end.

(** The initial [config] dict of [parse_runs_on_config]. *)
Definition default_config (self : Cfg.Config) : RunnerConfig := {|
  instance_type := Cfg.default_instance_type self;
  ami_id := Cfg.default_ami_id self;
  labels := Cfg.runner_labels self;
  max_price := "0.10";
  run_id := None;
  memory := None
|}.

(** One turn of the loop of [parse_runs_on_config]. *)
Definition parse_item (config : RunnerConfig) (item : pyval) : result RunnerConfig :=
  match item with
  | PyOther _ => Ret config
  | PyStr item =>
      if startswith item "runs-on=" then
        run_id <- index (split "=" item) 1 ;;
        Ret (set_run_id config run_id)
      else if startswith item "instanceType=" then
        instance_type <- index (split "=" item) 1 ;;
        Ret (set_instance_type config instance_type)
      else if contains "=" item then
        match split1 "=" item with
        | [key; value] =>
            if String.eqb key "family" then Ret (set_instance_type config value)
            else if String.eqb key "cpu" then
              cpu_count <- int value ;;
              Ret (set_instance_type config (_cpu_to_instance_type cpu_count))
            else if String.eqb key "memory" || String.eqb key "ram" then
              Ret (set_memory config value)
            else if String.eqb key "image" then Ret (set_ami_id config value)
            else if String.eqb key "maxPrice" then Ret (set_max_price config value)
            else if String.eqb key "labels" then
              Ret (set_labels config (split "," value))
            else Ret config
        | _ => Raise ValueError
        end
      else Ret config
  end.

Fixpoint parse_items (config : RunnerConfig) (runs_on : list pyval)
    : result RunnerConfig :=
  match runs_on with
  | [] => Ret config
  | item :: rest =>
      config' <- parse_item config item ;;
      parse_items config' rest
  end.

Definition parse_runs_on_config (self : Cfg.Config) (runs_on : list pyval)
    : result RunnerConfig :=
  parse_items (default_config self) runs_on.

(** A value of [active_runners]. *)
Record RunnerInfo := {
  instance_id : string;
  owner : string;
  repo : string;
  created_at : Z;
  status : string;
  config : RunnerConfig
}.

(** The manager's mutable state, and the requests sent so far. *)
Record State := {
  active_runners : dict RunnerInfo;
  calls : list Call
}.

(** The fields of a [workflow_job] notification that the handlers read. *)
Record Payload := {
  job_id : Z;                  (* payload['workflow_job']['id'] *)
  job_labels : list pyval;     (* payload['workflow_job']['labels'] *)
  repo_html_url : string       (* payload['repository']['html_url'] *)
}.

(** What the outside world answers during one provisioning attempt. *)
Record CreateEnv := {
  uuid4_hex : string;               (* uuid.uuid4().hex *)
  reg_token : option string;        (* get_runner_registration_token *)
  spot_instance : option string;    (* aws.create_spot_instance *)
  now : Z                           (* datetime.now() *)
}.

Definition create_runner (env : CreateEnv) (self : Cfg.Config)
    (runner_name owner repo : string) (runner_config : RunnerConfig)
    (st : State) : bool * State :=
  let calls1 := calls st ++ [GH_RegistrationToken owner repo] in
  if negb (truthy (reg_token env)) then
    (false, {| active_runners := active_runners st; calls := calls1 |})
  else
    let calls2 := calls1 ++ [EC2_RequestSpotInstances runner_name
                               (instance_type runner_config)
                               (ami_id runner_config)
                               (max_price runner_config)] in
    match spot_instance env with
    | Some instance_id =>
        if String.eqb instance_id "" then
          (false, {| active_runners := active_runners st; calls := calls2 |})
        else
          (true,
           {| active_runners :=
                dict_set (active_runners st) runner_name
                  {| instance_id := instance_id;
                     owner := owner;
                     repo := repo;
                     created_at := now env;
                     status := "starting";
                     config := runner_config |};
              calls := calls2 |})
    | None => (false, {| active_runners := active_runners st; calls := calls2 |})
    end.

(** [f"runner-{job_id}-{uuid.uuid4().hex[:8]}"] *)
Definition runner_name_of (job_id : Z) (uuid4_hex : string) : string :=
  ("runner-" ++ str_of_int job_id ++ "-" ++ take 8 uuid4_hex)%string.

Definition handle_workflow_job_queued (env : CreateEnv) (self : Cfg.Config)
    (payload : Payload) (st : State) : bool * State :=
  let runs_on := job_labels payload in
  if negb (existsb (fun label => contains "runs-on=" (str label)) runs_on) then
    (false, st)
  else
    match GitHubClient.parse_repository_from_url (repo_html_url payload) with
    | (Some owner, Some repo) =>
        if String.eqb owner "" || String.eqb repo "" then (false, st)
        else
          match parse_runs_on_config self runs_on with
          | Raise _ => (false, st)       (* except Exception: return False *)
          | Ret runner_config =>
              let runner_name := runner_name_of (job_id payload) (uuid4_hex env) in
              create_runner env self runner_name owner repo runner_config st
          end
    | _ => (false, st)
    end.

(** One item of the list [list_runners] returns: a runner, with its name
    and its id when the key is there, or an item whose ['name'] cannot be
    read. *)
Inductive RunnerEntry :=
| Runner (name : string) (id : option Z)
| NotARunner.

(** What the outside world answers during one cleanup. *)
Record CleanupEnv := {
  remove_token : option string;            (* get_runner_remove_token *)
  listed_runners : option (list RunnerEntry);
      (* list_runners; None: a value that cannot be iterated *)
  ec2_terminates : string -> AWSManager.Termination
      (* what aws.terminate_instance does *)
}.

(** [for runner in runners: if runner['name'] == runner_name: ... break]:
    the id of the first runner of that name, [None] without one, or the
    exception of an item that cannot be read. *)
Fixpoint find_listed (runner_name : string) (runners : list RunnerEntry)
    : result (option Z) :=
  match runners with
  | [] => Ret None
  | NotARunner :: _ => Raise KeyError
  | Runner name id :: rest =>
      if String.eqb name runner_name then
        match id with
        | Some runner_id => Ret (Some runner_id)
        | None => Raise KeyError
        end
      else find_listed runner_name rest
  end.

(** The GitHub part of [cleanup_runner]: the requests it sends, and whether
    it ends in an exception. *)
Definition deregister (env : CleanupEnv) (owner repo runner_name : string)
    : result unit * list Call :=
  if truthy (remove_token env) then
    match listed_runners env with
    | Some runners =>
        match find_listed runner_name runners with
        | Ret (Some runner_id) =>
            (Ret tt, [GH_RemoveToken owner repo; GH_ListRunners owner repo;
                      GH_RemoveRunner owner repo runner_id])
        | Ret None => (Ret tt, [GH_RemoveToken owner repo; GH_ListRunners owner repo])
        | Raise e => (Raise e, [GH_RemoveToken owner repo; GH_ListRunners owner repo])
        end
    | None => (Raise TypeError, [GH_RemoveToken owner repo; GH_ListRunners owner repo])
    end
  else (Ret tt, [GH_RemoveToken owner repo]).

(** [cleanup_runner].  An exception in the GitHub part or one that escapes
    [terminate_instance] is caught by the [except] branch: [False], and the
    record stays. *)
Definition cleanup_runner (env : CleanupEnv) (runner_name : string) (st : State)
    : bool * State :=
  match dict_get (active_runners st) runner_name with
  | None => (false, st)
  | Some runner_info =>
      match deregister env (owner runner_info) (repo runner_info) runner_name with
      | (Raise _, sent) =>
          (false, {| active_runners := active_runners st;
                     calls := calls st ++ sent |})
      | (Ret _, sent) =>
          match AWSManager.terminate_instance_raising (ec2_terminates env)
                  (instance_id runner_info) (calls st ++ sent) with
          | (Raise _, calls3) =>
              (false, {| active_runners := active_runners st; calls := calls3 |})
          | (Ret _, calls3) =>
              (true, {| active_runners := dict_del (active_runners st) runner_name;
                        calls := calls3 |})
          end
      end
  end.

(** The scan of [handle_workflow_job_completed]: the first tracked name
    that contains [f"runner-{job_id}"]. *)
Definition find_runner_for_job (job_id : Z) (runners : dict RunnerInfo)
    : option string :=
  option_map fst
    (find (fun kv => contains ("runner-" ++ str_of_int job_id)%string (fst kv))
          runners).

Definition handle_workflow_job_completed (env : CleanupEnv) (payload : Payload)
    (st : State) : bool * State :=
  match find_runner_for_job (job_id payload) (active_runners st) with
  | Some runner_name =>
      let '(_, st') := cleanup_runner env runner_name st in
      (true, st')
  | None => (false, st)
  end.

(** The collecting loop of [_cleanup_old_runners]: the names of the
    records created before the cutoff, in dict order. *)
Definition runners_older_than (cutoff_time : Z) (runners : dict RunnerInfo)
    : list string :=
  map fst (filter (fun kv => created_at (snd kv) <? cutoff_time) runners).

(** [for runner_name in runners_to_cleanup: self.cleanup_runner(runner_name)],
    with the answers the outside world gives while each name is cleaned. *)
Fixpoint cleanup_each (envs : string -> CleanupEnv) (names : list string)
    (st : State) : State :=
  match names with
  | [] => st
  | runner_name :: rest =>
      cleanup_each envs rest (snd (cleanup_runner (envs runner_name) runner_name st))
  end.

(** [_cleanup_old_runners]: the cutoff is computed outside any [try], so
    an OverflowError of the date arithmetic leaves the function. *)
Definition _cleanup_old_runners (envs : string -> CleanupEnv) (self : Cfg.Config)
    (now : Z) (st : State) : result State :=
  idle <- timedelta_seconds (Cfg.runner_idle_timeout self) ;;
  cutoff_time <- datetime_sub now idle ;;
  Ret (cleanup_each envs (runners_older_than cutoff_time (active_runners st)) st).



End RunnerManager.

(* ================================================================== *)
(** ** job_poller.py *)

Module JobPoller.

(** The [config] dict built by [_parse_runner_config]. *)
Record RunnerConfig := {
  instance_type : string;
  ami_id : string;
  labels : list string;
  max_price : string;
  work_folder : string;
  memory : option string
}.

Definition set_instance_type (c : RunnerConfig) (v : string) : RunnerConfig :=
  {| instance_type := v; ami_id := ami_id c; labels := labels c;
     max_price := max_price c; work_folder := work_folder c; memory := memory c |}.
Definition set_ami_id (c : RunnerConfig) (v : string) : RunnerConfig :=
  {| instance_type := instance_type c; ami_id := v; labels := labels c;
     max_price := max_price c; work_folder := work_folder c; memory := memory c |}.
Definition set_labels (c : RunnerConfig) (v : list string) : RunnerConfig :=
  {| instance_type := instance_type c; ami_id := ami_id c; labels := v;
     max_price := max_price c; work_folder := work_folder c; memory := memory c |}.
Definition set_max_price (c : RunnerConfig) (v : string) : RunnerConfig :=
  {| instance_type := instance_type c; ami_id := ami_id c; labels := labels c;
     max_price := v; work_folder := work_folder c; memory := memory c |}.
Definition set_work_folder (c : RunnerConfig) (v : string) : RunnerConfig :=
  {| instance_type := instance_type c; ami_id := ami_id c; labels := labels c;
     max_price := max_price c; work_folder := v; memory := memory c |}.
Definition set_memory (c : RunnerConfig) (v : string) : RunnerConfig :=
  {| instance_type := instance_type c; ami_id := ami_id c; labels := labels c;
     max_price := max_price c; work_folder := work_folder c; memory := Some v |}.

(** The literal [cpu_map] of this file, in source order. *)
Definition cpu_map : list (Z * string) :=
  [ (1, "t3.micro"); (2, "t3.medium"); (4, "t3.xlarge"); (8, "t3.2xlarge");
    (16, "m5.4xlarge"); (32, "m5.8xlarge"); (64, "m5.16xlarge") ].

Fixpoint first_fit (cpu_count : Z) (items : list (Z * string)) : option string :=
  match items with
  | [] => None
  | (cpu, instance_type) :: rest =>
      if cpu_count <=? cpu then Some instance_type else first_fit cpu_count rest
  end.

Definition _cpu_to_instance_type (cpu_count : Z) : string :=
  match first_fit cpu_count (sorted cpu_map) with
  | Some instance_type => instance_type
  | None => "m5.16xlarge"
  end.

Definition default_config (self : Cfg.Config) : RunnerConfig := {|
  instance_type := Cfg.default_instance_type self;
  ami_id := Cfg.default_ami_id self;
  labels := Cfg.runner_labels self;
  max_price := "0.10";
  work_folder := "/home/runner/_work";
  memory := None
|}.

(** One turn of the loop of [_parse_runner_config]. *)
Definition parse_label (config : RunnerConfig) (label : pyval) : result RunnerConfig :=
  match label with
  | PyOther _ => Ret config
  | PyStr label =>
      if contains "=" label then
        match split1 "=" label with
        | [key; value] =>
            if String.eqb key "instanceType" then Ret (set_instance_type config value)
            else if String.eqb key "cpu" then
              cpu_count <- int value ;;
              Ret (set_instance_type config (_cpu_to_instance_type cpu_count))
            else if String.eqb key "memory" || String.eqb key "ram" then
              Ret (set_memory config value)
            else if String.eqb key "image" then Ret (set_ami_id config value)
            else if String.eqb key "maxPrice" then Ret (set_max_price config value)
            else if String.eqb key "workFolder" then Ret (set_work_folder config value)
            else if String.eqb key "labels" then
              Ret (set_labels config (split "," value))
            else Ret config
        | _ => Raise ValueError
        end
      else Ret config
  end.

Fixpoint parse_labels (config : RunnerConfig) (labels : list pyval)
    : result RunnerConfig :=
  match labels with
  | [] => Ret config
  | label :: rest =>
      config' <- parse_label config label ;;
      parse_labels config' rest
  end.

Definition _parse_runner_config (self : Cfg.Config) (labels : list pyval)
    : result RunnerConfig :=
  parse_labels (default_config self) labels.

(** One entry of [get_queued_jobs()]. *)
Record Job := {
  job_id : Z;
  job_labels : list pyval;
  repository : string
}.

(** A value of [active_runners]. *)
Record RunnerInfo := {
  info_job_id : Z;
  instance_id : string;
  scale_set_id : string;
  scale_set_name : string;
  info_repository : string;
  created_at : Z;
  status : string;
  config : RunnerConfig
}.

Record State := {
  active_runners : dict RunnerInfo;
  scale_sets : dict string;          (* name -> scale_set_id *)
  calls : list Call
}.

Definition _should_create_runner_for_job (job : Job) (st : State) : bool :=
  if negb (existsb (fun label => contains "runs-on=" (str label)) (job_labels job))
  then false
  else if existsb (fun kv => info_job_id (snd kv) =? job_id job) (active_runners st)
  then false
  else true.

(** What the outside world answers during one provisioning attempt. *)
Record CreateEnv := {
  runner_uuid4_hex : string;             (* first uuid.uuid4().hex *)
  scale_set_uuid4_hex : string;          (* second uuid.uuid4().hex *)
  existing_scale_sets : list string;     (* list_scale_sets: str(id) of each *)
  created_scale_set : option string;     (* create_scale_set *)
  registration_token : option string;    (* get_registration_token *)
  spot_instance : option string;         (* aws.create_spot_instance *)
  now : Z                                (* datetime.now() *)
}.

Definition _get_or_create_scale_set (env : CreateEnv) (org scale_set_name : string)
    (st : State) : option string * State :=
  match dict_get (scale_sets st) scale_set_name with
  | Some cached => (Some cached, st)
  | None =>
      let calls1 := calls st ++ [GH_ListScaleSets org] in
      match existing_scale_sets env with
      | scale_set_id :: _ =>
          (Some scale_set_id,
           {| active_runners := active_runners st;
              scale_sets := dict_set (scale_sets st) scale_set_name scale_set_id;
              calls := calls1 |})
      | [] =>
          let calls2 := calls1 ++ [GH_CreateScaleSet org scale_set_name] in
          match created_scale_set env with
          | Some scale_set_id =>
              if String.eqb scale_set_id "" then
                (Some scale_set_id,
                 {| active_runners := active_runners st;
                    scale_sets := scale_sets st; calls := calls2 |})
              else
                (Some scale_set_id,
                 {| active_runners := active_runners st;
                    scale_sets := dict_set (scale_sets st) scale_set_name scale_set_id;
                    calls := calls2 |})
          | None =>
              (None, {| active_runners := active_runners st;
                        scale_sets := scale_sets st; calls := calls2 |})
          end
      end
  end.

Definition log (st : State) (c : Call) : State :=
  {| active_runners := active_runners st; scale_sets := scale_sets st;
     calls := calls st ++ [c] |}.

Definition runner_name_of (job_id : Z) (uuid4_hex : string) : string :=
  ("runner-" ++ str_of_int job_id ++ "-" ++ take 8 uuid4_hex)%string.

Definition scale_set_name_of (job_id : Z) (uuid4_hex : string) : string :=
  ("scaleset-" ++ str_of_int job_id ++ "-" ++ take 8 uuid4_hex)%string.

Definition _create_runner_for_job (env : CreateEnv) (self : Cfg.Config)
    (org : string) (job : Job) (st : State) : State :=
  match _parse_runner_config self (job_labels job) with
  | Raise _ => st                            (* except Exception: log *)
  | Ret runner_config =>
      let runner_name := runner_name_of (job_id job) (runner_uuid4_hex env) in
      let scale_set_name := scale_set_name_of (job_id job) (scale_set_uuid4_hex env) in
      match _get_or_create_scale_set env org scale_set_name st with
      | (Some scale_set_id, st1) =>
          if String.eqb scale_set_id "" then st1
          else
            let st2 := log st1 (GH_OrgRegistrationToken org) in
            if negb (truthy (registration_token env)) then st2
            else
              let st3 := log st2 (EC2_RequestSpotInstances runner_name
                                    (instance_type runner_config)
                                    (ami_id runner_config)
                                    (max_price runner_config)) in
              match spot_instance env with
              | Some instance_id =>
                  if String.eqb instance_id "" then
                    log st3 (GH_DeleteScaleSet org scale_set_id)
                  else
                    {| active_runners :=
                         dict_set (active_runners st3) runner_name
                           {| info_job_id := job_id job;
                              instance_id := instance_id;
                              scale_set_id := scale_set_id;
                              scale_set_name := scale_set_name;
                              info_repository := repository job;
                              created_at := now env;
                              status := "starting";
                              config := runner_config |};
                       scale_sets := scale_sets st3;
                       calls := calls st3 |}
              | None => log st3 (GH_DeleteScaleSet org scale_set_id)
              end
      | (None, st1) => st1
      end
  end.

(** The loop of [_process_queued_jobs], each job with the answers the
    outside world gives while it is handled. *)
Fixpoint _process_queued_jobs (self : Cfg.Config) (org : string)
    (queued_jobs : list (CreateEnv * Job)) (st : State) : State :=
  match queued_jobs with
  | [] => st
  | (env, job) :: rest =>
      let st' := if _should_create_runner_for_job job st
                 then _create_runner_for_job env self org job st
                 else st in
      _process_queued_jobs self org rest st'
  end.

(** [_cleanup_runner] has no [return] with a value: it gives [None] on
    every path.  An exception that escapes [terminate_instance] is caught by
    the [except] branch, with the scale set and the record left as they
    are. *)
Definition _cleanup_runner (ec2_terminates : string -> AWSManager.Termination)
    (self : Cfg.Config) (runner_name : string) (st : State)
    : option bool * State :=
  match dict_get (active_runners st) runner_name with
  | None => (None, st)
  | Some runner_info =>
      match AWSManager.terminate_instance_raising ec2_terminates
              (instance_id runner_info) (calls st) with
      | (Raise _, calls1) =>
          (None, {| active_runners := active_runners st;
                    scale_sets := scale_sets st;
                    calls := calls1 |})
      | (Ret _, calls1) =>
          let '(scale_sets2, calls2) :=
            if String.eqb (scale_set_id runner_info) "" then (scale_sets st, calls1)
            else
              (dict_del (scale_sets st) (scale_set_name runner_info),
               if String.eqb (Cfg.github_org self) "" then calls1
               else calls1 ++ [GH_DeleteScaleSet (Cfg.github_org self)
                                                 (scale_set_id runner_info)]) in
          (None, {| active_runners := dict_del (active_runners st) runner_name;
                    scale_sets := scale_sets2;
                    calls := calls2 |})
      end
  end.

(** The collecting loop of [_cleanup_completed_runners]: [clock name] is
    what [datetime.now()] reads when the record under [name] is examined,
    [idle] the [timedelta] of the idle timeout. *)
Definition runners_timed_out (idle : Z) (clock : string -> Z)
    (runners : dict RunnerInfo) : list string :=
  map fst
    (filter (fun kv => idle <? clock (fst kv) - created_at (snd kv)) runners).

Fixpoint cleanup_each (ec2_terminates : string -> AWSManager.Termination)
    (self : Cfg.Config) (names : list string) (st : State) : State :=
  match names with
  | [] => st
  | runner_name :: rest =>
      cleanup_each ec2_terminates self rest
        (snd (_cleanup_runner ec2_terminates self runner_name st))
  end.

(** [_cleanup_completed_runners].  The [timedelta] of the idle timeout is
    built for each record examined; when it cannot be built the OverflowError
    is caught by the [except] branch before any runner is cleaned up (with no
    record to examine nothing happens either way). *)
Definition _cleanup_completed_runners
    (ec2_terminates : string -> AWSManager.Termination)
    (self : Cfg.Config) (clock : string -> Z) (st : State) : State :=
  match timedelta_seconds (Cfg.runner_idle_timeout self) with
  | Ret idle =>
      cleanup_each ec2_terminates self
        (runners_timed_out idle clock (active_runners st)) st
  | Raise _ => st
  end.

End JobPoller.

(* ================================================================== *)
(** ** github_api_client.py *)

Module GitHubAPIClient.

(** The requests of the credential cache. *)
Inductive ApiCall :=
| POST_registration_token (org : string)
| POST_runner_registration (org : string).

(** The cached credentials of a client, and the requests it has sent. *)
Record Client := {
  _jwt_token : option string;
  _pipeline_url : option string;
  _jwt_expires : Z;                   (* a time.time() reading, in seconds *)
  sent : list ApiCall
}.

(** The client as [__init__] leaves it. *)
Definition init : Client :=
  {| _jwt_token := None; _pipeline_url := None; _jwt_expires := 0; sent := [] |}.

(** The answer to the runner-registration request: the ["token"] and
    ["url"] of the JSON body, or an exception (HTTP error, bad body). *)
Inductive Registration :=
| Registered (token url : option string)
| RegistrationRaises.

(** What the outside world answers during one refresh. *)
Record RefreshEnv := {
  registration_token : option string;     (* get_registration_token(org) *)
  registration : Registration;
  time_stored : Z                         (* time.time() when caching *)
}.

Definition get_runner_admin_credentials (env : RefreshEnv) (org : string)
    (self : Client) : (option string * option string) * Client :=
  let sent1 := sent self ++ [POST_registration_token org] in
  if negb (truthy (registration_token env)) then
    ((None, None),
     {| _jwt_token := _jwt_token self; _pipeline_url := _pipeline_url self;
        _jwt_expires := _jwt_expires self; sent := sent1 |})
  else
    let sent2 := sent1 ++ [POST_runner_registration org] in
    match registration env with
    | Registered jwt_token pipeline_url =>
        ((jwt_token, pipeline_url),
         {| _jwt_token := jwt_token; _pipeline_url := pipeline_url;
            _jwt_expires := time_stored env + 3600; sent := sent2 |})
    | RegistrationRaises =>
        ((None, None),
         {| _jwt_token := _jwt_token self; _pipeline_url := _pipeline_url self;
            _jwt_expires := _jwt_expires self; sent := sent2 |})
    end.

Definition is_None {A} (o : option A) : bool :=
  match o with None => true | Some _ => false end.

(** [_ensure_valid_credentials]; [time_checked] is the [time.time()] of
    the test. *)
Definition _ensure_valid_credentials (env : RefreshEnv) (time_checked : Z)
    (org : string) (self : Client) : bool * Client :=
  if is_None (_jwt_token self) || is_None (_pipeline_url self)
     || (_jwt_expires self <=? time_checked)
  then
    let '((jwt_token, pipeline_url), self') :=
      get_runner_admin_credentials env org self in
    (negb (is_None jwt_token) && negb (is_None pipeline_url), self')
  else (true, self).

(** One job of a jobs listing, as [get_queued_jobs] reads it; a key the
    body lacks is [None]. *)
Record RawJob := {
  raw_id : option Z;                  (* job["id"] *)
  raw_status : option string;         (* job.get("status") *)
  raw_labels : list pyval;            (* job.get("labels", []) *)
  raw_created_at : option string      (* job["created_at"] *)
}.

(** The answer to the jobs request of one run: a status code and the
    ["jobs"] of the body, or an exception. *)
Inductive JobsReply :=
| JobsResponse (status_code : Z) (jobs : list RawJob)
| JobsRaises.

Record Run := {
  run_id : option Z;                  (* run['id'] *)
  jobs_reply : JobsReply
}.

(** The answer to the runs request of one repository. *)
Inductive RunsReply :=
| RunsResponse (status_code : Z) (workflow_runs : list Run)
| RunsRaises.

(** The answer to the repositories request of the organization: a status
    code and the ["full_name"] of each repository, or an exception. *)
Inductive ReposReply :=
| ReposResponse (status_code : Z) (full_names : list string)
| ReposRaises.

Record QueueEnv := {
  repos_reply : ReposReply;
  runs_reply : string -> RunsReply       (* by repository full name *)
}.

(** The test a job must pass to be reported. *)
Definition wanted (job : RawJob) : bool :=
  match raw_status job with
  | Some status => String.eqb status "queued"
  | None => false
  end
  && existsb (fun label => contains "runs-on=" (str label)) (raw_labels job).

(** [for job in jobs]: the second component tells that a KeyError was
    raised (the jobs appended before it stay). *)
Fixpoint scan_jobs (repo_full_name : string) (jobs : list RawJob)
    (queued_jobs : list JobPoller.Job) : list JobPoller.Job * bool :=
  match jobs with
  | [] => (queued_jobs, false)
  | job :: rest =>
      if wanted job then
        match raw_id job, raw_created_at job with
        | Some id, Some _ =>
            scan_jobs repo_full_name rest
              (queued_jobs ++
               [ {| JobPoller.job_id := id;
                    JobPoller.job_labels := raw_labels job;
                    JobPoller.repository := repo_full_name |} ])
        | _, _ => (queued_jobs, true)
        end
      else scan_jobs repo_full_name rest queued_jobs
  end.

(** [for run in runs]: an exception leaves the loop (and the [try] block
    of this repository). *)
Fixpoint scan_runs (repo_full_name : string) (runs : list Run)
    (queued_jobs : list JobPoller.Job) : list JobPoller.Job :=
  match runs with
  | [] => queued_jobs
  | run :: rest =>
      match run_id run, jobs_reply run with
      | Some _, JobsResponse status_code jobs =>
          if status_code =? 200 then
            let '(queued_jobs', raised) :=
              scan_jobs repo_full_name jobs queued_jobs in
            if raised then queued_jobs'
            else scan_runs repo_full_name rest queued_jobs'
          else scan_runs repo_full_name rest queued_jobs
      | _, _ => queued_jobs
      end
  end.

(** [for repo_full_name in repos_to_check] *)
Fixpoint scan_repos (env : QueueEnv) (repos_to_check : list string)
    (queued_jobs : list JobPoller.Job) : list JobPoller.Job :=
  match repos_to_check with
  | [] => queued_jobs
  | repo_full_name :: rest =>
      match runs_reply env repo_full_name with
      | RunsResponse status_code runs =>
          scan_repos env rest
            (if status_code =? 200
             then scan_runs repo_full_name runs queued_jobs
             else queued_jobs)
      | RunsRaises => scan_repos env rest queued_jobs
      end
  end.

Definition get_queued_jobs (env : QueueEnv) (org : string) (repo : option string)
    : list JobPoller.Job :=
  if truthy repo then
    match repo with
    | Some repo => scan_repos env [(org ++ "/" ++ repo)%string] []
    | None => []
    end
  else
    match repos_reply env with
    | ReposResponse status_code full_names =>
        if status_code =? 200 then scan_repos env (firstn 10 full_names) [] else []
    | ReposRaises => []
    end.

End GitHubAPIClient.

(* ================================================================== *)
(** ** webhook_server.py *)

(** A Flask response: the JSON body and the status code. *)
Inductive Response :=
| Message (code : Z) (text : string)        (* {'message': text} *)
| Error (code : Z) (text : string)          (* {'error': text} *)
| CleanedInstances (cleaned : Z).           (* {'cleaned_instances': n}, 200 *)

Module WebhookServer.

(** [self.config] as this file reads it: one attribute.  [view] is what an
    instance of config.Config offers. *)
Record ConfigView := {
  read_github_webhook_secret : result (option string)
}.

Definition view (c : Cfg.Config) : ConfigView :=
  {| read_github_webhook_secret :=
       secret <- Cfg.github_webhook_secret c ;; Ret (Some secret) |}.

(** A parsed notification: its action ([str()] of it when it is no
    string) and the fields the manager reads. *)
Record Body := {
  action : option string;
  payload : RunnerManager.Payload
}.

(** What [request.get_json()] gives. *)
Inductive Json :=
| JsonRaises             (* the body cannot be parsed, or (newer Flask) the
                            content type is not JSON: an exception *)
| JsonFalsy              (* None, or null, false, 0, an empty string, list
                            or object *)
| JsonNoObject           (* another value that is no object: it has no .get *)
| JsonObject (body : Body).    (* an object with at least one key *)

Record Request := {
  data : string;                              (* request.data, raw *)
  x_hub_signature_256 : option string;        (* header, if present *)
  x_github_event : option string;             (* header, if present *)
  get_json : Json                             (* request.get_json() *)
}.

(** What the outside world answers while one notification is handled. *)
Record Env := {
  create_env : RunnerManager.CreateEnv;
  cleanup_env : RunnerManager.CleanupEnv
}.

Section Server.

(** [hmac.new(secret.encode('utf-8'), msg=body, digestmod=hashlib.sha256)
    .hexdigest()], a library function. *)
Variable hmac_sha256_hexdigest : string -> string -> string.

Definition expected_signature (secret payload_body : string) : string :=
  ("sha256=" ++ hmac_sha256_hexdigest secret payload_body)%string.

Definition _verify_signature (config : ConfigView) (payload_body : string)
    (signature_header : option string) : result bool :=
  match signature_header with
  | None => Ret false
  | Some header =>
      if String.eqb header "" then Ret false
      else
        secret <- read_github_webhook_secret config ;;
        match secret with
        | None => Ret false
        | Some secret =>
            if String.eqb secret "" then Ret false
            else
              match compare_digest (expected_signature secret payload_body) header with
              | Ret b => Ret b
              | Raise _ => Ret false        (* except Exception: return False *)
              end
        end
  end.

Definition _handle_workflow_job_event (env : Env) (self : Cfg.Config)
    (body : Body) (st : RunnerManager.State) : Response * RunnerManager.State :=
  match action body with
  | Some "queued" =>
      let '(success, st') :=
        RunnerManager.handle_workflow_job_queued (create_env env) self
          (payload body) st in
      if success then (Message 200 "Runner creation initiated", st')
      else (Message 200 "Runner creation not needed or failed", st')
  | Some "completed" | Some "cancelled" =>
      let '(_, st') :=
        RunnerManager.handle_workflow_job_completed (cleanup_env env)
          (payload body) st in
      (Message 200 "Job completion handled", st')
  | Some other => (Message 200 ("Action " ++ other ++ " ignored"), st)
  | None => (Message 200 "Action None ignored", st)
  end.

Definition _handle_webhook (env : Env) (self : Cfg.Config) (config : ConfigView)
    (request : Request) (st : RunnerManager.State)
    : Response * RunnerManager.State :=
  match _verify_signature config (data request) (x_hub_signature_256 request) with
  | Raise _ => (Error 500 "Internal server error", st)
  | Ret false => (Error 401 "Invalid signature", st)
  | Ret true =>
      match get_json request with
      | JsonRaises => (Error 500 "Internal server error", st)
      | JsonFalsy => (Error 400 "Invalid JSON payload", st)
      | JsonNoObject => (Error 500 "Internal server error", st)   (* payload.get *)
      | JsonObject body =>
          match x_github_event request with
          | Some "workflow_job" => _handle_workflow_job_event env self body st
          | _ => (Message 200 "Event ignored", st)
          end
      end
  end.

End Server.

(** The [/cleanup] route. *)
Definition manual_cleanup (env : AWSManager.SweepEnv) (st : RunnerManager.State)
    : Response * RunnerManager.State :=
  let '(cleaned, calls') :=
    AWSManager.cleanup_old_instances env 0 (RunnerManager.calls st) in
  (CleanedInstances cleaned,
   {| RunnerManager.active_runners := RunnerManager.active_runners st;
      RunnerManager.calls := calls' |}).

End WebhookServer.

(* ================================================================== *)
(** ** main.py: the monitoring routes over the poller *)

Module Main.

(** The [/cleanup] route of [create_api_server]. *)
Definition manual_cleanup (env : AWSManager.SweepEnv) (st : JobPoller.State)
    : Response * JobPoller.State :=
  let '(cleaned, calls') :=
    AWSManager.cleanup_old_instances env 0 (JobPoller.calls st) in
  (CleanedInstances cleaned,
   {| JobPoller.active_runners := JobPoller.active_runners st;
      JobPoller.scale_sets := JobPoller.scale_sets st;
      JobPoller.calls := calls' |}).



End Main.

(* ================================================================== *)
(** ** Vocabulary of the properties *)

Module Spec.

(** [t] is the class of the smallest tier of [table] whose capacity is at
    least [n]. *)
Definition smallest_fitting (table : list (Z * string)) (n : Z) (t : string) : Prop :=
  exists c, In (c, t) table /\ n <= c /\
            forall c' t', In (c', t') table -> n <= c' -> c <= c'.

(** [t] is the class of the tier of largest capacity. *)
Definition largest_class (table : list (Z * string)) (t : string) : Prop :=
  exists c, In (c, t) table /\ forall c' t', In (c', t') table -> c' <= c.

(** [n] exceeds the capacity of every tier. *)
Definition exceeds_all (table : list (Z * string)) (n : Z) : Prop :=
  forall c t, In (c, t) table -> c < n.

(** The key of a [key=value] label: the text before the first ['=']. *)
Definition label_key (item : pyval) : option string :=
  match item with
  | PyStr s => if contains "=" s then Some (hd "" (split1 "=" s)) else None
  | PyOther _ => None
  end.

(** The label carries one of [keys]. *)
Definition key_in (keys : list string) (item : pyval) : bool :=
  match label_key item with
  | Some k => existsb (String.eqb k) keys
  | None => false
  end.

(** Some label of the list carries one of [keys]. *)
Definition mentions (keys : list string) (runs_on : list pyval) : bool :=
  existsb (key_in keys) runs_on.

(** [f] resolves [n] on [table]: the smallest fitting tier when one fits,
    the largest class when [n] exceeds them all. *)
Definition resolves (table : list (Z * string)) (f : Z -> string) (n : Z) : Prop :=
  ((exists c t, In (c, t) table /\ n <= c) -> smallest_fitting table n (f n)) /\
  (exceeds_all table n -> largest_class table (f n)).

(** The value of a [cpu=<value>] label. *)
Definition cpu_value (item : pyval) : option string :=
  match item with
  | PyStr s =>
      match split1 "=" s with
      | [key; value] => if String.eqb key "cpu" then Some value else None
      | _ => None
      end
  | PyOther _ => None
  end.

(** The label is not a cpu label, or its value is an integer literal. *)
Definition cpu_value_ok (item : pyval) : bool :=
  match cpu_value item with
  | Some v => match int v with Ret _ => true | Raise _ => false end
  | None => true
  end.

(** The fields no label of [runs_on] targets hold the configured defaults
    (notification path). *)
Definition manager_defaults_kept (self : Cfg.Config) (runs_on : list pyval)
    (c : RunnerManager.RunnerConfig) : Prop :=
  (mentions ["instanceType"; "family"; "cpu"] runs_on = false ->
   RunnerManager.instance_type c = Cfg.default_instance_type self) /\
  (mentions ["image"] runs_on = false ->
   RunnerManager.ami_id c = Cfg.default_ami_id self) /\
  (mentions ["maxPrice"] runs_on = false -> RunnerManager.max_price c = "0.10") /\
  (mentions ["labels"] runs_on = false ->
   RunnerManager.labels c = Cfg.runner_labels self).

(** The same for the polling path. *)
Definition poller_defaults_kept (self : Cfg.Config) (labels : list pyval)
    (c : JobPoller.RunnerConfig) : Prop :=
  (mentions ["instanceType"; "cpu"] labels = false ->
   JobPoller.instance_type c = Cfg.default_instance_type self) /\
  (mentions ["image"] labels = false ->
   JobPoller.ami_id c = Cfg.default_ami_id self) /\
  (mentions ["maxPrice"] labels = false -> JobPoller.max_price c = "0.10") /\
  (mentions ["labels"] labels = false ->
   JobPoller.labels c = Cfg.runner_labels self) /\
  (mentions ["workFolder"] labels = false ->
   JobPoller.work_folder c = "/home/runner/_work").

(** The instances whose termination a run of requests asks for, in order. *)
Fixpoint terminations (l : list Call) : list string :=
  match l with
  | [] => []
  | EC2_TerminateInstances i :: l' => i :: terminations l'
  | _ :: l' => terminations l'
  end.


(** How many of [instances] EC2 agrees to terminate. *)
Definition accepted (env : AWSManager.SweepEnv)
    (instances : list AWSManager.Instance) : Z :=
  Z.of_nat (List.length
              (filter (fun i => AWSManager.ec2_accepts env (AWSManager.inst_id i))
                      instances)).

(** The records the poller tracks for job [j]. *)
Definition records_for (j : Z) (st : JobPoller.State)
    : list (string * JobPoller.RunnerInfo) :=
  filter (fun kv => JobPoller.info_job_id (snd kv) =? j)
         (JobPoller.active_runners st).

(** The eligibility test shared by both paths: some label contains the
    correlation marker. *)
Definition has_marker (labels : list pyval) : bool :=
  existsb (fun label => contains "runs-on=" (str label)) labels.

(** How often the character [c] occurs in [s]. *)
Fixpoint count_char (c : ascii) (s : string) : nat :=
  match s with
  | EmptyString => O
  | String a s' => (if Ascii.eqb a c then 1 else 0) + count_char c s'
  end.

(** The capacity of the tier that the class [t] belongs to. *)
Definition tier_of (table : list (Z * string)) (t : string) : option Z :=
  option_map fst (find (fun p => String.eqb (snd p) t) table).

(** The fields both parsers produce hold the same values. *)
Definition same_launch_config (a : RunnerManager.RunnerConfig)
    (b : JobPoller.RunnerConfig) : Prop :=
  RunnerManager.instance_type a = JobPoller.instance_type b /\
  RunnerManager.ami_id a = JobPoller.ami_id b /\
  RunnerManager.labels a = JobPoller.labels b /\
  RunnerManager.max_price a = JobPoller.max_price b /\
  RunnerManager.memory a = JobPoller.memory b.

(** A label on which the two parsers cannot differ: its key is not
    [family], and an [instanceType=] value holds no further ['=']. *)
Definition parsed_alike (item : pyval) : bool :=
  match item with
  | PyStr s =>
      negb (key_in ["family"] item) &&
      (if startswith s "instanceType="
       then negb (contains "=" (drop 13 s))
       else true)
  | PyOther _ => true
  end.


(** The repository URL of a notification yields an owner and a
    repository, both non-empty. *)
Definition usable_repository (url : string) : bool :=
  match GitHubClient.parse_repository_from_url url with
  | (Some owner, Some repo) => negb (String.eqb owner "") && negb (String.eqb repo "")
  | _ => false
  end.

(** The label is not a cpu label, or its value is ASCII text (where [int]
    is exact). *)
Definition cpu_value_ascii (item : pyval) : bool :=
  match cpu_value item with
  | Some v => is_ascii v
  | None => true
  end.

(** The GitHub part of a cleanup of [runner_name] ends without an
    exception: no remove token was obtained, or the listing can be read up
    to the runner looked for. *)
Definition deregisters (env : RunnerManager.CleanupEnv) (runner_name : string)
    : bool :=
  negb (truthy (RunnerManager.remove_token env)) ||
  match RunnerManager.listed_runners env with
  | Some runners =>
      match RunnerManager.find_listed runner_name runners with
      | Ret _ => true
      | Raise _ => false
      end
  | None => false
  end.


(** No exception escapes [terminate_instance]. *)
Definition answered (t : AWSManager.Termination) : bool :=
  match t with
  | AWSManager.Answered _ => true
  | AWSManager.Escapes _ => false
  end.

(** A cleanup of the notification path runs to its end. *)
Definition cleanup_completes (env : RunnerManager.CleanupEnv)
    (runner_name : string) (info : RunnerManager.RunnerInfo) : bool :=
  deregisters env runner_name &&
  answered (RunnerManager.ec2_terminates env (RunnerManager.instance_id info)).

End Spec.

(* ================================================================== *)
(** ** Concrete scenarios *)

Module Scenario.

Definition cfg : Cfg.Config := Cfg.defaults "token" "acme".

(** The queued notification of the end-to-end scenario. *)
Definition queued42 : RunnerManager.Payload := {|
  RunnerManager.job_id := 42;
  RunnerManager.job_labels := [PyStr "runs-on=42"; PyStr "cpu=4"; PyStr "image=ami-x"];
  RunnerManager.repo_html_url := "https://github.com/acme/app"
|}.

(** The completion notification for the same job. *)
Definition completed42 : RunnerManager.Payload := {|
  RunnerManager.job_id := 42;
  RunnerManager.job_labels := [PyStr "runs-on=42"; PyStr "cpu=4"; PyStr "image=ami-x"];
  RunnerManager.repo_html_url := "https://github.com/acme/app"
|}.

(** A completion notification for another job, number 4. *)
Definition completed4 : RunnerManager.Payload := {|
  RunnerManager.job_id := 4;
  RunnerManager.job_labels := [PyStr "runs-on=4"];
  RunnerManager.repo_html_url := "https://github.com/acme/app"
|}.

Definition first_delivery : RunnerManager.CreateEnv := {|
  RunnerManager.uuid4_hex := "aaaaaaaa111122223333444455556666";
  RunnerManager.reg_token := Some "reg-token-1";
  RunnerManager.spot_instance := Some "i-0001";
  RunnerManager.now := 1000
|}.

Definition second_delivery : RunnerManager.CreateEnv := {|
  RunnerManager.uuid4_hex := "bbbbbbbb111122223333444455556666";
  RunnerManager.reg_token := Some "reg-token-2";
  RunnerManager.spot_instance := Some "i-0002";
  RunnerManager.now := 1005
|}.

Definition quiet_cleanup : RunnerManager.CleanupEnv := {|
  RunnerManager.remove_token := Some "remove-token";
  RunnerManager.listed_runners := Some [];
  RunnerManager.ec2_terminates := fun _ => AWSManager.Answered true
|}.

(** A cleanup during which EC2 cannot be reached. *)
Definition unreachable_ec2 : RunnerManager.CleanupEnv := {|
  RunnerManager.remove_token := Some "remove-token";
  RunnerManager.listed_runners := Some [];
  RunnerManager.ec2_terminates := fun _ => AWSManager.Escapes BotoCoreError
|}.

Definition empty_manager : RunnerManager.State :=
  {| RunnerManager.active_runners := []; RunnerManager.calls := [] |}.

(** The manager after the first delivery of [queued42]. *)
Definition after_first : RunnerManager.State :=
  snd (RunnerManager.handle_workflow_job_queued first_delivery cfg queued42
         empty_manager).

(** ... and after the same notification is delivered again. *)
Definition after_second : RunnerManager.State :=
  snd (RunnerManager.handle_workflow_job_queued second_delivery cfg queued42
         after_first).

(** A queued job seen by the poller, and a cycle in which a new scale set
    is created and the registration token is then refused. *)
Definition job42 : JobPoller.Job := {|
  JobPoller.job_id := 42;
  JobPoller.job_labels := [PyStr "runs-on=42"; PyStr "cpu=4"];
  JobPoller.repository := "acme/app"
|}.

Definition token_refused : JobPoller.CreateEnv := {|
  JobPoller.runner_uuid4_hex := "aaaaaaaa111122223333444455556666";
  JobPoller.scale_set_uuid4_hex := "cccccccc111122223333444455556666";
  JobPoller.existing_scale_sets := [];
  JobPoller.created_scale_set := Some "7";
  JobPoller.registration_token := None;
  JobPoller.spot_instance := Some "i-0001";
  JobPoller.now := 1000
|}.

Definition all_fine : JobPoller.CreateEnv := {|
  JobPoller.runner_uuid4_hex := "aaaaaaaa111122223333444455556666";
  JobPoller.scale_set_uuid4_hex := "cccccccc111122223333444455556666";
  JobPoller.existing_scale_sets := [];
  JobPoller.created_scale_set := Some "7";
  JobPoller.registration_token := Some "reg-token";
  JobPoller.spot_instance := Some "i-0001";
  JobPoller.now := 1000
|}.

Definition instance_refused : JobPoller.CreateEnv := {|
  JobPoller.runner_uuid4_hex := "aaaaaaaa111122223333444455556666";
  JobPoller.scale_set_uuid4_hex := "cccccccc111122223333444455556666";
  JobPoller.existing_scale_sets := [];
  JobPoller.created_scale_set := Some "7";
  JobPoller.registration_token := Some "reg-token";
  JobPoller.spot_instance := None;
  JobPoller.now := 1000
|}.

Definition empty_poller : JobPoller.State :=
  {| JobPoller.active_runners := []; JobPoller.scale_sets := [];
     JobPoller.calls := [] |}.


(** A stand-in digest and a configuration object that carries a secret,
    to run the signature check on. *)
Definition toy_digest (secret body : string) : string := "00ff".

Definition with_secret : WebhookServer.ConfigView :=
  {| WebhookServer.read_github_webhook_secret := Ret (Some "s3cret") |}.

(** The poller after one successful provisioning for job 42. *)
Definition poller_after : JobPoller.State :=
  JobPoller._create_runner_for_job all_fine cfg "acme" job42 empty_poller.

(** A late clock: ten minutes after the records of the scenarios were
    created (time stamps of records count microseconds). *)
Definition late : Z := 1000 + 600 * 1000000.

(** A configuration whose idle timeout no [timedelta] can hold. *)
Definition far_timeout : Cfg.Config := {|
  Cfg.github_token := "token";
  Cfg.github_org := "acme";
  Cfg.default_instance_type := "t3.medium";
  Cfg.default_ami_id := "ami-0c02fb55956c7d316";
  Cfg.runner_labels := ["self-hosted"; "linux"; "x64"];
  Cfg.runner_idle_timeout := -1000000000000000
|}.

(** Two instances of a DescribeInstances answer: one that was tagged for a
    runner, after a tag of EC2's own, and one without tags. *)
Definition tagged_runner : AWSManager.Described := {|
  AWSManager.InstanceId := "i-0001";
  AWSManager.Tags :=
    ("aws:ec2spot:fleet-request-id", "sfr-1")
    :: AWSManager.runner_tags "runner-42-aaaaaaaa";
  AWSManager.LaunchTime := 1000
|}.

Definition untagged : AWSManager.Described := {|
  AWSManager.InstanceId := "i-0009";
  AWSManager.Tags := [];
  AWSManager.LaunchTime := 900
|}.

(** A literal of [n] digits. *)
Definition nines (n : nat) : string := string_of_list_ascii (repeat "9"%char n).

(** A queued notification whose cpu label is malformed. *)
Definition queued_bad_cpu : RunnerManager.Payload := {|
  RunnerManager.job_id := 7;
  RunnerManager.job_labels := [PyStr "runs-on=7"; PyStr "cpu=abc"];
  RunnerManager.repo_html_url := "https://github.com/acme/app"
|}.

(** A cycle in which the provider already has a scale set, number 3. *)
Definition group_found : JobPoller.CreateEnv := {|
  JobPoller.runner_uuid4_hex := "aaaaaaaa111122223333444455556666";
  JobPoller.scale_set_uuid4_hex := "cccccccc111122223333444455556666";
  JobPoller.existing_scale_sets := ["3"];
  JobPoller.created_scale_set := None;
  JobPoller.registration_token := Some "reg-token";
  JobPoller.spot_instance := Some "i-0001";
  JobPoller.now := 1000
|}.

(** What GitHub answers to one query for queued jobs: one repository, one
    queued run with three jobs, of which one is queued and carries the
    marker. *)
Definition listing : GitHubAPIClient.QueueEnv := {|
  GitHubAPIClient.repos_reply := GitHubAPIClient.ReposResponse 200 ["acme/app"];
  GitHubAPIClient.runs_reply := fun _ =>
    GitHubAPIClient.RunsResponse 200
      [ {| GitHubAPIClient.run_id := Some 900;
           GitHubAPIClient.jobs_reply :=
             GitHubAPIClient.JobsResponse 200
               [ {| GitHubAPIClient.raw_id := Some 41;
                    GitHubAPIClient.raw_status := Some "completed";
                    GitHubAPIClient.raw_labels := [PyStr "runs-on=41"];
                    GitHubAPIClient.raw_created_at := Some "2024-01-01T00:00:00Z" |};
                 {| GitHubAPIClient.raw_id := Some 42;
                    GitHubAPIClient.raw_status := Some "queued";
                    GitHubAPIClient.raw_labels := [PyStr "runs-on=42"; PyStr "cpu=4"];
                    GitHubAPIClient.raw_created_at := Some "2024-01-01T00:00:01Z" |};
                 {| GitHubAPIClient.raw_id := Some 43;
                    GitHubAPIClient.raw_status := Some "queued";
                    GitHubAPIClient.raw_labels := [PyStr "ubuntu-latest"];
                    GitHubAPIClient.raw_created_at := Some "2024-01-01T00:00:02Z" |} ]
        |} ]
|}.

(** A credential refresh that succeeds, stored at second 5000. *)
Definition refresh_ok : GitHubAPIClient.RefreshEnv := {|
  GitHubAPIClient.registration_token := Some "reg-token";
  GitHubAPIClient.registration :=
    GitHubAPIClient.Registered (Some "jwt") (Some "https://pipelines.example");
  GitHubAPIClient.time_stored := 5000
|}.

(** A refresh attempt that fails at the first request. *)
Definition refresh_down : GitHubAPIClient.RefreshEnv := {|
  GitHubAPIClient.registration_token := None;
  GitHubAPIClient.registration := GitHubAPIClient.RegistrationRaises;
  GitHubAPIClient.time_stored := 6000
|}.


(** A spot request that stays open for two polls and is then fulfilled;
    the clock starts at 100 and every sleep lasts a little over ten seconds. *)
Definition spot_trace : list (Z * AWSManager.SpotReply) :=
  [ (100, AWSManager.SpotRequest "open" None);
    (111, AWSManager.SpotRequest "active" None);
    (122, AWSManager.SpotRequest "active" (Some "i-0001"));
    (133, AWSManager.SpotRequest "active" (Some "i-0001")) ].

End Scenario.

(* ================================================================== *)
(** ** Facts about the built-ins *)

Section StringFacts.

Lemma prefix_app (p s : string) :
  String.prefix p s = true -> exists r, s = (p ++ r)%string.
Proof.
  revert s. induction p as [|a p IH]; intros s H.
  - exists s. reflexivity.
  - destruct s as [|b s]; simpl in H; [discriminate|].
    destruct (ascii_dec a b) as [->|]; [|discriminate].
    destruct (IH _ H) as [r ->]. exists r. reflexivity.
Qed.

Lemma split_not_nil (sep : ascii) (s : string) : split sep s <> [].
Proof.
  destruct s as [|c s]; simpl; [discriminate|].
  destruct (Ascii.eqb c sep); [discriminate|].
  destruct (split sep s); discriminate.
Qed.

Lemma split1_not_nil (sep : ascii) (s : string) : split1 sep s <> [].
Proof.
  destruct s as [|c s]; simpl; [discriminate|].
  destruct (Ascii.eqb c sep); [discriminate|].
  destruct (split1 sep s); discriminate.
Qed.

Lemma contains_char_cons (sep c : ascii) (s : string) :
  contains (String sep "") (String c s)
  = Ascii.eqb c sep || contains (String sep "") s.
Proof.
  simpl. destruct (ascii_dec sep c) as [->|n].
  - rewrite Ascii.eqb_refl. destruct s; reflexivity.
  - destruct (Ascii.eqb_spec c sep) as [->|_]; [contradiction|reflexivity].
Qed.

Lemma contains_char_nil (sep : ascii) : contains (String sep "") "" = false.
Proof. reflexivity. Qed.

(** With a separator present, [split(sep, 1)] yields exactly two parts, so
    the unpacking [key, value = ...] cannot fail. *)
Lemma split1_two (sep : ascii) (s : string) :
  contains (String sep "") s = true ->
  exists k v, split1 sep s = [k; v].
Proof.
  induction s as [|c s IH]; intros H.
  - discriminate.
  - rewrite contains_char_cons in H. simpl.
    destruct (Ascii.eqb c sep); [eauto|].
    simpl in H. destruct (IH H) as (k & v & ->). eauto.
Qed.

Lemma split1_one (sep : ascii) (s : string) :
  contains (String sep "") s = false -> split1 sep s = [s].
Proof.
  induction s as [|c s IH]; intros H; [reflexivity|].
  rewrite contains_char_cons in H. simpl.
  destruct (Ascii.eqb c sep); [discriminate|].
  simpl in H. rewrite (IH H). reflexivity.
Qed.

Lemma split_one (sep : ascii) (s : string) :
  contains (String sep "") s = false -> split sep s = [s].
Proof.
  induction s as [|c s IH]; intros H; [reflexivity|].
  rewrite contains_char_cons in H. simpl.
  destruct (Ascii.eqb c sep); [discriminate|].
  simpl in H. rewrite (IH H). reflexivity.
Qed.

Lemma contains_sep_app (sep : ascii) (p r : string) :
  contains (String sep "") (p ++ String sep r) = true.
Proof.
  induction p as [|c p IH]; simpl append; rewrite contains_char_cons.
  - rewrite Ascii.eqb_refl. reflexivity.
  - rewrite IH. apply orb_true_r.
Qed.

(** After a literal [key=] prefix, index 1 of [split('=')] exists. *)
Lemma index_1_split (k : string) (ws : list string) :
  ws <> [] -> index (k :: ws) 1 = Ret (hd "" ws).
Proof. destruct ws; [contradiction|reflexivity]. Qed.

End StringFacts.

(* ================================================================== *)
(** ** The capacity table *)

Section CapacityTable.

Let by_capacity (p q : Z * string) : Prop := fst p <= fst q.

(** What the scan returns on a table in ascending order. *)
Lemma first_fit_sorted (first_fit : Z -> list (Z * string) -> option string)
    (first_fit_nil : forall n, first_fit n [] = None)
    (first_fit_cons : forall n c t rest,
        first_fit n ((c, t) :: rest)
        = if n <=? c then Some t else first_fit n rest)
    (n : Z) (items : list (Z * string)) :
  StronglySorted by_capacity items ->
  match first_fit n items with
  | Some t => Spec.smallest_fitting items n t
  | None => Spec.exceeds_all items n
  end.
Proof.
  induction 1 as [|[c t] rest Hsorted IH Hall].
  - rewrite first_fit_nil. intros c t [].
  - rewrite first_fit_cons. destruct (Z.leb_spec n c) as [Hle|Hlt].
    + exists c. split; [left; reflexivity|]. split; [assumption|].
      intros c' t' [Heq|Hin] _.
      * inversion Heq; subst. lia.
      * rewrite Forall_forall in Hall. exact (Hall _ Hin).
    + destruct (first_fit n rest) as [t0|].
      * destruct IH as (c0 & Hin & Hle & Hmin).
        exists c0. split; [right; assumption|]. split; [assumption|].
        intros c' t' [Heq|Hin'] Hn.
        -- inversion Heq; subst. lia.
        -- eauto.
      * intros c' t' [Heq|Hin].
        -- inversion Heq; subst. assumption.
        -- eauto.
Qed.

Lemma cpu_map_ascending : StronglySorted by_capacity RunnerManager.cpu_map.
Proof.
  unfold RunnerManager.cpu_map, by_capacity.
  repeat (constructor; [|repeat (constructor; [simpl; lia|]); constructor]).
  constructor.
Qed.

Lemma cpu_map_largest :
  Spec.largest_class RunnerManager.cpu_map "m5.16xlarge".
Proof.
  exists 64. split; [simpl; tauto|].
  intros c' t' Hin. simpl in Hin.
  repeat (destruct Hin as [Heq|Hin]; [inversion Heq; lia|]). contradiction.
Qed.

Lemma poller_cpu_map_same : JobPoller.cpu_map = RunnerManager.cpu_map.
Proof. reflexivity. Qed.

Lemma poller_first_fit_same n items :
  JobPoller.first_fit n items = RunnerManager.first_fit n items.
Proof. induction items as [|[c t] rest IH]; simpl; [|rewrite IH]; reflexivity. Qed.

Lemma poller_cpu_to_instance_type_same n :
  JobPoller._cpu_to_instance_type n = RunnerManager._cpu_to_instance_type n.
Proof.
  unfold JobPoller._cpu_to_instance_type, RunnerManager._cpu_to_instance_type.
  rewrite poller_cpu_map_same, poller_first_fit_same. reflexivity.
Qed.

(** The resolver on any integer: the smallest fitting tier when one fits,
    the largest class otherwise. *)
Lemma cpu_to_instance_type_spec (n : Z) :
  (n <= 64 ->
   Spec.smallest_fitting RunnerManager.cpu_map n
     (RunnerManager._cpu_to_instance_type n)) /\
  (64 < n -> RunnerManager._cpu_to_instance_type n = "m5.16xlarge").
Proof.
  pose proof (first_fit_sorted RunnerManager.first_fit
                (fun _ => eq_refl) (fun _ _ _ _ => eq_refl)
                n _ cpu_map_ascending) as H.
  unfold RunnerManager._cpu_to_instance_type.
  change (sorted RunnerManager.cpu_map) with RunnerManager.cpu_map.
  destruct (RunnerManager.first_fit n RunnerManager.cpu_map) as [t|] eqn:E.
  - split; [intros _; exact H|].
    intros Hbig. destruct H as (c & Hin & Hle & _).
    simpl in Hin.
    repeat (destruct Hin as [Heq|Hin]; [inversion Heq; subst; try lia; reflexivity|]).
    contradiction.
  - split; [|reflexivity].
    intros Hsmall. exfalso.
    assert (64 < n) by (apply (H 64 "m5.16xlarge"); simpl; tauto). lia.
Qed.

End CapacityTable.

(** C6. For every positive integer [n], the cpu-to-instance-class resolver
    (of the notification path and of the polling path alike) returns the class
    of the smallest tier of the capacity table whose capacity is at least [n],
    and the largest class when [n] exceeds every tier; [cpu=5] lands on the
    8-cpu tier and [cpu=1000] on the largest class. *)
Theorem C6_cpu_to_instance_class (n : Z) (Hpos : 0 < n) :
  Spec.resolves RunnerManager.cpu_map RunnerManager._cpu_to_instance_type n /\
  Spec.resolves JobPoller.cpu_map JobPoller._cpu_to_instance_type n /\
  In (8, RunnerManager._cpu_to_instance_type 5) RunnerManager.cpu_map /\
  In (8, JobPoller._cpu_to_instance_type 5) JobPoller.cpu_map /\
  Spec.largest_class RunnerManager.cpu_map (RunnerManager._cpu_to_instance_type 1000) /\
  Spec.largest_class JobPoller.cpu_map (JobPoller._cpu_to_instance_type 1000).
Proof.
  assert (Hres : Spec.resolves RunnerManager.cpu_map
                   RunnerManager._cpu_to_instance_type n).
  { destruct (cpu_to_instance_type_spec n) as [Hsmall Hbig]. split.
    - intros (c & t & Hin & Hle). apply Hsmall.
      destruct cpu_map_largest as (cmax & Hmax & Hall).
      assert (cmax = 64).
      { simpl in Hmax.
        repeat (destruct Hmax as [Heq|Hmax]; [inversion Heq; reflexivity|]).
        contradiction. }
      specialize (Hall _ _ Hin). lia.
    - intros Hex. rewrite Hbig; [exact cpu_map_largest|].
      apply (Hex 64 "m5.16xlarge"). simpl; tauto. }
  split; [exact Hres|]. split.
  { rewrite poller_cpu_map_same.
    destruct Hres as [H1 H2].
    split; intros H; rewrite poller_cpu_to_instance_type_same; auto. }
  split; [simpl; tauto|]. split; [simpl; tauto|].
  split; exact cpu_map_largest.
Qed.

Lemma C6_cpu_to_instance_class_witness :
  0 < 5 /\
  Spec.resolves RunnerManager.cpu_map RunnerManager._cpu_to_instance_type 5 /\
  Spec.resolves JobPoller.cpu_map JobPoller._cpu_to_instance_type 5.
Proof.
  assert (H : 0 < 5) by lia.
  split; [exact H|].
  split; [exact (proj1 (C6_cpu_to_instance_class 5 H))
         |exact (proj1 (proj2 (C6_cpu_to_instance_class 5 H)))].
Defined.

(* ================================================================== *)
(** ** The label parsers *)

Section Parsers.

Lemma returns_Ret {A} (a : A) : returns (Ret a).
Proof. exists a. reflexivity. Qed.

Lemma returns_Raise {A} (e : exn) : ~ returns (@Raise A e).
Proof. intros [a H]. discriminate. Qed.

Hint Resolve returns_Ret : core.

Lemma int_raises (s : string) (e : exn) : int s = Raise e -> e = ValueError.
Proof.
  unfold int. intros H.
  match type of H with
  | match ?p with Some _ => _ | None => _ end = _ => destruct p
  end; [|inversion H; reflexivity].
  destruct (count_digits _ <=? _); [discriminate|inversion H; reflexivity].
Qed.

(** [int] at work: white space is what C's [isspace] knows (the file
    separator, character 28, is none), a sign and single underscores are
    accepted, and the digits are counted. *)
Example int_on_ascii_text :
  int (String (ascii_of_nat 28) "5") = Raise ValueError /\
  int (String (ascii_of_nat 9) (" 5" ++ String (ascii_of_nat 10) "")) = Ret 5 /\
  int "1_000" = Ret 1000 /\ int "1__0" = Raise ValueError /\
  int "+7" = Ret 7 /\ int "-12" = Ret (-12) /\ int "- 1" = Raise ValueError /\
  int "" = Raise ValueError /\ int "4 2" = Raise ValueError /\
  returns (int (Scenario.nines 4300)) /\
  int (Scenario.nines 4301) = Raise ValueError.
Proof.
  repeat (split; [vm_compute; reflexivity|]).
  split; [|vm_compute; reflexivity].
  destruct (int (Scenario.nines 4300)) as [z|e] eqn:E; [exists z; reflexivity|].
  vm_compute in E. discriminate.
Qed.

(** A cpu label is a label whose key is [cpu]; its value decides whether
    the turn of the loop returns. *)
Lemma cpu_value_split1 (s k v : string) :
  split1 "=" s = [k; v] ->
  Spec.cpu_value (PyStr s) = if String.eqb k "cpu" then Some v else None.
Proof. intros H. unfold Spec.cpu_value. rewrite H. reflexivity. Qed.

Lemma label_key_split1 (s k v : string) :
  contains "=" s = true -> split1 "=" s = [k; v] ->
  Spec.label_key (PyStr s) = Some k.
Proof. intros Hc H. unfold Spec.label_key. rewrite Hc, H. reflexivity. Qed.

(** Notification path: one turn returns exactly when the label is not a
    malformed cpu label, and then raises nothing but ValueError. *)
Lemma manager_parse_item_total (c : RunnerManager.RunnerConfig) (item : pyval) :
  if Spec.cpu_value_ok item
  then returns (RunnerManager.parse_item c item)
  else RunnerManager.parse_item c item = Raise ValueError.
Proof.
  destruct item as [s|r]; [|simpl; auto].
  unfold Spec.cpu_value_ok, RunnerManager.parse_item.
  destruct (startswith s "runs-on=") eqn:E1.
  { apply prefix_app in E1 as [r ->].
    change (split "=" ("runs-on=" ++ r)) with ("runs-on" :: split "=" r).
    rewrite index_1_split by apply split_not_nil. simpl; auto. }
  destruct (startswith s "instanceType=") eqn:E2.
  { apply prefix_app in E2 as [r ->].
    change (split "=" ("instanceType=" ++ r)) with ("instanceType" :: split "=" r).
    rewrite index_1_split by apply split_not_nil. simpl; auto. }
  destruct (contains "=" s) eqn:E3.
  - destruct (split1_two _ _ E3) as (k & v & Hkv).
    rewrite (cpu_value_split1 _ _ _ Hkv), Hkv.
    destruct (String.eqb_spec k "cpu") as [->|Hk].
    + simpl. destruct (int v) as [z|e] eqn:Ev; simpl; auto.
      rewrite (int_raises _ _ Ev). reflexivity.
    + repeat match goal with
             | |- context [if ?b then _ else _] => destruct b
             end; auto.
  - unfold Spec.cpu_value. rewrite (split1_one _ _ E3). auto.
Qed.

(** Polling path: the same dichotomy. *)
Lemma poller_parse_label_total (c : JobPoller.RunnerConfig) (label : pyval) :
  if Spec.cpu_value_ok label
  then returns (JobPoller.parse_label c label)
  else JobPoller.parse_label c label = Raise ValueError.
Proof.
  destruct label as [s|r]; [|simpl; auto].
  unfold Spec.cpu_value_ok, JobPoller.parse_label.
  destruct (contains "=" s) eqn:E3.
  - destruct (split1_two _ _ E3) as (k & v & Hkv).
    rewrite (cpu_value_split1 _ _ _ Hkv), Hkv.
    destruct (String.eqb_spec k "instanceType") as [->|Hi]; [simpl; auto|].
    destruct (String.eqb_spec k "cpu") as [->|Hk].
    + simpl. destruct (int v) as [z|e] eqn:Ev; simpl; auto.
      rewrite (int_raises _ _ Ev). reflexivity.
    + repeat match goal with
             | |- context [if ?b then _ else _] => destruct b
             end; auto.
  - unfold Spec.cpu_value. rewrite (split1_one _ _ E3). auto.
Qed.

Lemma manager_parse_items_total (runs_on : list pyval) :
  forall c,
  if forallb Spec.cpu_value_ok runs_on
  then returns (RunnerManager.parse_items c runs_on)
  else RunnerManager.parse_items c runs_on = Raise ValueError.
Proof.
  induction runs_on as [|item rest IH]; intros c; simpl; [auto|].
  pose proof (manager_parse_item_total c item) as Hitem.
  destruct (Spec.cpu_value_ok item); simpl.
  - destruct Hitem as [c' ->]. simpl. apply IH.
  - rewrite Hitem. reflexivity.
Qed.

Lemma poller_parse_labels_total (labels : list pyval) :
  forall c,
  if forallb Spec.cpu_value_ok labels
  then returns (JobPoller.parse_labels c labels)
  else JobPoller.parse_labels c labels = Raise ValueError.
Proof.
  induction labels as [|label rest IH]; intros c; simpl; [auto|].
  pose proof (poller_parse_label_total c label) as Hlabel.
  destruct (Spec.cpu_value_ok label); simpl.
  - destruct Hlabel as [c' ->]. simpl. apply IH.
  - rewrite Hlabel. reflexivity.
Qed.

End Parsers.

Section ParserFrames.

(** Decide, one after the other, the key tests that occur in [H]. *)
Ltac case_key k H :=
  repeat match type of H with
         | context [String.eqb k ?x] =>
             destruct (String.eqb_spec k x); [subst k|]
         end.

Ltac frame_done :=
  simpl; repeat split; intros; solve [reflexivity | discriminate].

(** Notification path: a turn of the loop changes a field only when the
    label carries a key that targets it. *)
Lemma manager_parse_item_frame (c c' : RunnerManager.RunnerConfig) (item : pyval) :
  RunnerManager.parse_item c item = Ret c' ->
  (Spec.key_in ["instanceType"; "family"; "cpu"] item = false ->
   RunnerManager.instance_type c' = RunnerManager.instance_type c) /\
  (Spec.key_in ["image"] item = false ->
   RunnerManager.ami_id c' = RunnerManager.ami_id c) /\
  (Spec.key_in ["maxPrice"] item = false ->
   RunnerManager.max_price c' = RunnerManager.max_price c) /\
  (Spec.key_in ["labels"] item = false ->
   RunnerManager.labels c' = RunnerManager.labels c).
Proof.
  destruct item as [s|r]; [|intros H; inversion H; subst; frame_done].
  unfold RunnerManager.parse_item.
  destruct (startswith s "runs-on=") eqn:E1.
  { apply prefix_app in E1 as [r ->].
    change (split "=" ("runs-on=" ++ r)) with ("runs-on" :: split "=" r).
    rewrite index_1_split by apply split_not_nil.
    intros H; inversion H; subst. frame_done. }
  destruct (startswith s "instanceType=") eqn:E2.
  { apply prefix_app in E2 as [r ->].
    change (split "=" ("instanceType=" ++ r)) with ("instanceType" :: split "=" r).
    rewrite index_1_split by apply split_not_nil.
    intros H; inversion H; subst.
    unfold Spec.key_in, Spec.label_key.
    rewrite (contains_sep_app "=" "instanceType" r : contains "=" ("instanceType=" ++ r) = true).
    frame_done. }
  destruct (contains "=" s) eqn:E3;
    [|intros H; inversion H; subst; frame_done].
  destruct (split1_two _ _ E3) as (k & v & Hkv). rewrite Hkv.
  unfold Spec.key_in. rewrite (label_key_split1 _ _ _ E3 Hkv).
  intros H. case_key k H; simpl in H;
    try (destruct (int v); simpl in H; [|discriminate]);
    inversion H; subst; frame_done.
Qed.

(** Polling path: the same, with [workFolder] in place of [family]. *)
Lemma poller_parse_label_frame (c c' : JobPoller.RunnerConfig) (label : pyval) :
  JobPoller.parse_label c label = Ret c' ->
  (Spec.key_in ["instanceType"; "cpu"] label = false ->
   JobPoller.instance_type c' = JobPoller.instance_type c) /\
  (Spec.key_in ["image"] label = false ->
   JobPoller.ami_id c' = JobPoller.ami_id c) /\
  (Spec.key_in ["maxPrice"] label = false ->
   JobPoller.max_price c' = JobPoller.max_price c) /\
  (Spec.key_in ["labels"] label = false ->
   JobPoller.labels c' = JobPoller.labels c) /\
  (Spec.key_in ["workFolder"] label = false ->
   JobPoller.work_folder c' = JobPoller.work_folder c).
Proof.
  destruct label as [s|r]; [|intros H; inversion H; subst; frame_done].
  unfold JobPoller.parse_label.
  destruct (contains "=" s) eqn:E3;
    [|intros H; inversion H; subst; frame_done].
  destruct (split1_two _ _ E3) as (k & v & Hkv). rewrite Hkv.
  unfold Spec.key_in. rewrite (label_key_split1 _ _ _ E3 Hkv).
  intros H. case_key k H; simpl in H;
    try (destruct (int v); simpl in H; [|discriminate]);
    inversion H; subst; frame_done.
Qed.

Lemma manager_parse_items_frame (runs_on : list pyval) :
  forall c c',
  RunnerManager.parse_items c runs_on = Ret c' ->
  (Spec.mentions ["instanceType"; "family"; "cpu"] runs_on = false ->
   RunnerManager.instance_type c' = RunnerManager.instance_type c) /\
  (Spec.mentions ["image"] runs_on = false ->
   RunnerManager.ami_id c' = RunnerManager.ami_id c) /\
  (Spec.mentions ["maxPrice"] runs_on = false ->
   RunnerManager.max_price c' = RunnerManager.max_price c) /\
  (Spec.mentions ["labels"] runs_on = false ->
   RunnerManager.labels c' = RunnerManager.labels c).
Proof.
  unfold Spec.mentions.
  induction runs_on as [|item rest IH]; intros c c' H; simpl in H.
  - inversion H; subst. repeat split; reflexivity.
  - destruct (RunnerManager.parse_item c item) as [c1|e] eqn:E1; [|discriminate].
    simpl in H.
    destruct (manager_parse_item_frame _ _ _ E1) as (A1 & A2 & A3 & A4).
    destruct (IH _ _ H) as (B1 & B2 & B3 & B4).
    simpl. repeat split; intros Hm; apply orb_false_iff in Hm as [Hm1 Hm2].
    + rewrite B1, A1; auto.
    + rewrite B2, A2; auto.
    + rewrite B3, A3; auto.
    + rewrite B4, A4; auto.
Qed.

Lemma poller_parse_labels_frame (labels : list pyval) :
  forall c c',
  JobPoller.parse_labels c labels = Ret c' ->
  (Spec.mentions ["instanceType"; "cpu"] labels = false ->
   JobPoller.instance_type c' = JobPoller.instance_type c) /\
  (Spec.mentions ["image"] labels = false ->
   JobPoller.ami_id c' = JobPoller.ami_id c) /\
  (Spec.mentions ["maxPrice"] labels = false ->
   JobPoller.max_price c' = JobPoller.max_price c) /\
  (Spec.mentions ["labels"] labels = false ->
   JobPoller.labels c' = JobPoller.labels c) /\
  (Spec.mentions ["workFolder"] labels = false ->
   JobPoller.work_folder c' = JobPoller.work_folder c).
Proof.
  unfold Spec.mentions.
  induction labels as [|label rest IH]; intros c c' H; simpl in H.
  - inversion H; subst. repeat split; reflexivity.
  - destruct (JobPoller.parse_label c label) as [c1|e] eqn:E1; [|discriminate].
    simpl in H.
    destruct (poller_parse_label_frame _ _ _ E1) as (A1 & A2 & A3 & A4 & A5).
    destruct (IH _ _ H) as (B1 & B2 & B3 & B4 & B5).
    simpl. repeat split; intros Hm; apply orb_false_iff in Hm as [Hm1 Hm2].
    + rewrite B1, A1; auto.
    + rewrite B2, A2; auto.
    + rewrite B3, A3; auto.
    + rewrite B4, A4; auto.
    + rewrite B5, A5; auto.
Qed.

End ParserFrames.

(** C4 (as amended).  Both label parsers return a configuration, with the
    configured defaults in every field that no label targets, for every list
    of labels (the empty list, bare tokens, unknown keys and non-string items
    included) in which each [cpu=<v>] label carries an integer literal; on a
    list with a [cpu] label whose value is not one they raise ValueError.
    (The literals are those of [int()] on ASCII text, at most 4300 digits
    long; for the raising half the cpu values are taken to be ASCII.) *)
Theorem C4_parser_returns_iff_cpu_values_are_integers
    (self : Cfg.Config) (runs_on : list pyval) :
  (forallb Spec.cpu_value_ok runs_on = true ->
   (exists c, RunnerManager.parse_runs_on_config self runs_on = Ret c /\
              Spec.manager_defaults_kept self runs_on c) /\
   (exists c, JobPoller._parse_runner_config self runs_on = Ret c /\
              Spec.poller_defaults_kept self runs_on c)) /\
  (forallb Spec.cpu_value_ascii runs_on = true ->
   forallb Spec.cpu_value_ok runs_on = false ->
   RunnerManager.parse_runs_on_config self runs_on = Raise ValueError /\
   JobPoller._parse_runner_config self runs_on = Raise ValueError).
Proof.
  unfold RunnerManager.parse_runs_on_config, JobPoller._parse_runner_config.
  pose proof (manager_parse_items_total runs_on (RunnerManager.default_config self)) as Hm.
  pose proof (poller_parse_labels_total runs_on (JobPoller.default_config self)) as Hp.
  split; [|intros _]; intros Hok; rewrite Hok in Hm, Hp; [|split; assumption].
  destruct Hm as [cm Hm], Hp as [cp Hp]. split.
  - exists cm. split; [assumption|].
    exact (manager_parse_items_frame _ _ _ Hm).
  - exists cp. split; [assumption|].
    exact (poller_parse_labels_frame _ _ _ Hp).
Qed.

Lemma C4_parser_returns_witness :
  exists c,
    RunnerManager.parse_runs_on_config (Cfg.defaults "token" "org")
      [PyStr "runs-on=42"; PyStr "cpu=4"; PyStr "bare"; PyOther "7"] = Ret c /\
    RunnerManager.max_price c = "0.10".
Proof.
  destruct (proj1 (proj1 (C4_parser_returns_iff_cpu_values_are_integers
                     (Cfg.defaults "token" "org")
                     [PyStr "runs-on=42"; PyStr "cpu=4"; PyStr "bare"; PyOther "7"])
                   eq_refl))
    as (c & Hc & _ & _ & Hprice & _).
  exists c. split; [exact Hc|exact (Hprice eq_refl)].
Defined.

(** C4, as stated, fails: a [cpu] label with a non-numeric or empty value
    makes either parser raise. *)
Lemma C4_counterexample_cpu_abc :
  RunnerManager.parse_runs_on_config (Cfg.defaults "token" "org") [PyStr "cpu=abc"]
    = Raise ValueError /\
  RunnerManager.parse_runs_on_config (Cfg.defaults "token" "org") [PyStr "cpu="]
    = Raise ValueError /\
  JobPoller._parse_runner_config (Cfg.defaults "token" "org") [PyStr "cpu=abc"]
    = Raise ValueError /\
  JobPoller._parse_runner_config (Cfg.defaults "token" "org") [PyStr "cpu="]
    = Raise ValueError.
Proof. repeat split; reflexivity. Qed.

Section LaterWins.

Lemma prefix_app_refl (p r : string) : String.prefix p (p ++ r) = true.
Proof.
  induction p as [|a p IH]; simpl.
  - destruct r; reflexivity.
  - destruct (ascii_dec a a); [exact IH|contradiction].
Qed.

Lemma manager_item_instanceType (c : RunnerManager.RunnerConfig) (X : string) :
  RunnerManager.parse_item c (PyStr ("instanceType=" ++ X))
  = Ret (RunnerManager.set_instance_type c (hd "" (split "=" X))).
Proof.
  unfold RunnerManager.parse_item.
  change (startswith ("instanceType=" ++ X) "runs-on=") with false.
  unfold startswith at 1. rewrite prefix_app_refl.
  change (split "=" ("instanceType=" ++ X)) with ("instanceType" :: split "=" X).
  rewrite index_1_split by apply split_not_nil. reflexivity.
Qed.

Lemma poller_item_instanceType (c : JobPoller.RunnerConfig) (X : string) :
  JobPoller.parse_label c (PyStr ("instanceType=" ++ X))
  = Ret (JobPoller.set_instance_type c X).
Proof.
  unfold JobPoller.parse_label.
  rewrite (contains_sep_app "=" "instanceType" X
           : contains "=" ("instanceType=" ++ X) = true).
  reflexivity.
Qed.

Lemma manager_item_family (c : RunnerManager.RunnerConfig) (X : string) :
  RunnerManager.parse_item c (PyStr ("family=" ++ X))
  = Ret (RunnerManager.set_instance_type c X).
Proof.
  unfold RunnerManager.parse_item.
  change (startswith ("family=" ++ X) "runs-on=") with false.
  change (startswith ("family=" ++ X) "instanceType=") with false.
  rewrite (contains_sep_app "=" "family" X : contains "=" ("family=" ++ X) = true).
  reflexivity.
Qed.

Lemma manager_item_cpu (c : RunnerManager.RunnerConfig) (v : string) (n : Z) :
  int v = Ret n ->
  RunnerManager.parse_item c (PyStr ("cpu=" ++ v))
  = Ret (RunnerManager.set_instance_type c (RunnerManager._cpu_to_instance_type n)).
Proof.
  intros Hv. unfold RunnerManager.parse_item.
  change (startswith ("cpu=" ++ v) "runs-on=") with false.
  change (startswith ("cpu=" ++ v) "instanceType=") with false.
  rewrite (contains_sep_app "=" "cpu" v : contains "=" ("cpu=" ++ v) = true).
  change (split1 "=" ("cpu=" ++ v)) with ["cpu"; v].
  cbn [String.eqb Ascii.eqb Bool.eqb andb]. rewrite Hv. reflexivity.
Qed.

Lemma poller_item_cpu (c : JobPoller.RunnerConfig) (v : string) (n : Z) :
  int v = Ret n ->
  JobPoller.parse_label c (PyStr ("cpu=" ++ v))
  = Ret (JobPoller.set_instance_type c (JobPoller._cpu_to_instance_type n)).
Proof.
  intros Hv. unfold JobPoller.parse_label.
  rewrite (contains_sep_app "=" "cpu" v : contains "=" ("cpu=" ++ v) = true).
  change (split1 "=" ("cpu=" ++ v)) with ["cpu"; v].
  cbn [String.eqb Ascii.eqb Bool.eqb andb]. rewrite Hv. reflexivity.
Qed.

Lemma manager_parse_items_app (l1 l2 : list pyval) :
  forall c,
  RunnerManager.parse_items c (l1 ++ l2)
  = (c' <- RunnerManager.parse_items c l1 ;; RunnerManager.parse_items c' l2).
Proof.
  induction l1 as [|item l1 IH]; intros c; simpl; [reflexivity|].
  destruct (RunnerManager.parse_item c item); simpl; [apply IH|reflexivity].
Qed.

Lemma poller_parse_labels_app (l1 l2 : list pyval) :
  forall c,
  JobPoller.parse_labels c (l1 ++ l2)
  = (c' <- JobPoller.parse_labels c l1 ;; JobPoller.parse_labels c' l2).
Proof.
  induction l1 as [|item l1 IH]; intros c; simpl; [reflexivity|].
  destruct (JobPoller.parse_label c item); simpl; [apply IH|reflexivity].
Qed.

(** A label that sets the class to [t] decides the class when no label
    after it targets the class; the other labels only have to parse. *)
Lemma manager_last_class_label (self : Cfg.Config) (before after : list pyval)
    (item : pyval) (t : string) :
  (forall c, RunnerManager.parse_item c item
             = Ret (RunnerManager.set_instance_type c t)) ->
  forallb Spec.cpu_value_ok (before ++ after) = true ->
  Spec.mentions ["instanceType"; "family"; "cpu"] after = false ->
  exists c,
    RunnerManager.parse_runs_on_config self (before ++ item :: after) = Ret c /\
    RunnerManager.instance_type c = t.
Proof.
  intros Hitem Hok Hlater.
  rewrite forallb_app in Hok. apply andb_true_iff in Hok as [Hb Ha].
  unfold RunnerManager.parse_runs_on_config. rewrite manager_parse_items_app.
  pose proof (manager_parse_items_total before (RunnerManager.default_config self))
    as H1.
  rewrite Hb in H1. destruct H1 as [c1 ->].
  cbn [bind RunnerManager.parse_items]. rewrite Hitem. cbn [bind].
  pose proof (manager_parse_items_total after (RunnerManager.set_instance_type c1 t))
    as H2.
  rewrite Ha in H2. destruct H2 as [c2 H2]. exists c2. split; [exact H2|].
  destruct (manager_parse_items_frame _ _ _ H2) as (A & _).
  rewrite (A Hlater). reflexivity.
Qed.

Lemma poller_last_class_label (self : Cfg.Config) (before after : list pyval)
    (item : pyval) (t : string) :
  (forall c, JobPoller.parse_label c item
             = Ret (JobPoller.set_instance_type c t)) ->
  forallb Spec.cpu_value_ok (before ++ after) = true ->
  Spec.mentions ["instanceType"; "cpu"] after = false ->
  exists c,
    JobPoller._parse_runner_config self (before ++ item :: after) = Ret c /\
    JobPoller.instance_type c = t.
Proof.
  intros Hitem Hok Hlater.
  rewrite forallb_app in Hok. apply andb_true_iff in Hok as [Hb Ha].
  unfold JobPoller._parse_runner_config. rewrite poller_parse_labels_app.
  pose proof (poller_parse_labels_total before (JobPoller.default_config self))
    as H1.
  rewrite Hb in H1. destruct H1 as [c1 ->].
  cbn [bind JobPoller.parse_labels]. rewrite Hitem. cbn [bind].
  pose proof (poller_parse_labels_total after (JobPoller.set_instance_type c1 t))
    as H2.
  rewrite Ha in H2. destruct H2 as [c2 H2]. exists c2. split; [exact H2|].
  destruct (poller_parse_labels_frame _ _ _ H2) as (A & _).
  rewrite (A Hlater). reflexivity.
Qed.

(** The first part of [s.split(sep)] holds no separator, so it is [s]
    only when [s] holds none. *)
Lemma split_head_no_sep (sep : ascii) (s : string) :
  contains (String sep "") (hd "" (split sep s)) = false.
Proof.
  induction s as [|c s IH]; [reflexivity|]. simpl split.
  destruct (Ascii.eqb c sep) eqn:E; [reflexivity|].
  pose proof (split_not_nil sep s) as Hne.
  destruct (split sep s) as [|w ws]; [contradiction|].
  cbn [hd] in *. rewrite contains_char_cons, E, IH. reflexivity.
Qed.

Lemma split_head_whole (sep : ascii) (s : string) :
  hd "" (split sep s) = s <-> contains (String sep "") s = false.
Proof.
  split.
  - intros H. rewrite <- H at 1. apply split_head_no_sep.
  - intros H. rewrite (split_one _ _ H). reflexivity.
Qed.

End LaterWins.

(** C7 (the code departs from it on the notification path).  The later
    of the labels that determine the instance class wins, wherever the two
    stand in the list: with no class label after it, [instanceType=X] gives
    [X] on the polling path, [family=X] gives [X], and [cpu=<v>] gives the
    class the resolver derives from [v] (the smallest fitting tier, or the
    largest class), whatever class labels come before.  But on the
    notification path [instanceType=X] gives [X] only up to its first ['=']:
    [["cpu=4"; "instanceType=X"]] yields [X] exactly when [X] holds no ['=']. *)
Theorem C7_later_class_label_wins
    (self : Cfg.Config) (before after : list pyval) (X v : string) (n : Z) :
  (forallb Spec.cpu_value_ok (before ++ after) = true ->
   Spec.mentions ["instanceType"; "cpu"] after = false ->
   (exists c,
       JobPoller._parse_runner_config self
         (before ++ PyStr ("instanceType=" ++ X) :: after) = Ret c /\
       JobPoller.instance_type c = X) /\
   (int v = Ret n ->
    exists c,
      JobPoller._parse_runner_config self
        (before ++ PyStr ("cpu=" ++ v) :: after) = Ret c /\
      (n <= 64 -> Spec.smallest_fitting JobPoller.cpu_map n (JobPoller.instance_type c)) /\
      (64 < n -> JobPoller.instance_type c = "m5.16xlarge"))) /\
  (forallb Spec.cpu_value_ok (before ++ after) = true ->
   Spec.mentions ["instanceType"; "family"; "cpu"] after = false ->
   (exists c,
       RunnerManager.parse_runs_on_config self
         (before ++ PyStr ("instanceType=" ++ X) :: after) = Ret c /\
       RunnerManager.instance_type c = hd "" (split "=" X) /\
       (RunnerManager.instance_type c = X <-> contains "=" X = false)) /\
   (exists c,
       RunnerManager.parse_runs_on_config self
         (before ++ PyStr ("family=" ++ X) :: after) = Ret c /\
       RunnerManager.instance_type c = X) /\
   (int v = Ret n ->
    exists c,
      RunnerManager.parse_runs_on_config self
        (before ++ PyStr ("cpu=" ++ v) :: after) = Ret c /\
      (n <= 64 ->
       Spec.smallest_fitting RunnerManager.cpu_map n (RunnerManager.instance_type c)) /\
      (64 < n -> RunnerManager.instance_type c = "m5.16xlarge"))) /\
  (exists c, JobPoller._parse_runner_config self
               [PyStr ("instanceType=" ++ X); PyStr "cpu=4"] = Ret c /\
             JobPoller.instance_type c = "t3.xlarge") /\
  (exists c, JobPoller._parse_runner_config self
               [PyStr "cpu=4"; PyStr ("instanceType=" ++ X)] = Ret c /\
             JobPoller.instance_type c = X) /\
  (exists c, RunnerManager.parse_runs_on_config self
               [PyStr ("instanceType=" ++ X); PyStr "cpu=4"] = Ret c /\
             RunnerManager.instance_type c = "t3.xlarge") /\
  (exists c, RunnerManager.parse_runs_on_config self
               [PyStr "cpu=4"; PyStr ("instanceType=" ++ X)] = Ret c /\
             RunnerManager.instance_type c = hd "" (split "=" X) /\
             (RunnerManager.instance_type c = X <-> contains "=" X = false)).
Proof.
  assert (Hcut : forall (c : RunnerManager.RunnerConfig),
             RunnerManager.instance_type c = hd "" (split "=" X) ->
             RunnerManager.instance_type c = hd "" (split "=" X) /\
             (RunnerManager.instance_type c = X <-> contains "=" X = false)).
  { intros c Hc. split; [exact Hc|]. rewrite Hc. apply split_head_whole. }
  assert (Hpoller : forall n',
             (n' <= 64 -> Spec.smallest_fitting JobPoller.cpu_map n'
                            (JobPoller._cpu_to_instance_type n')) /\
             (64 < n' -> JobPoller._cpu_to_instance_type n' = "m5.16xlarge")).
  { intros n'. rewrite poller_cpu_to_instance_type_same, poller_cpu_map_same.
    apply cpu_to_instance_type_spec. }
  split; [|split; [|split; [|split; [|split]]]].
  - intros Hok Hlater. split.
    + exact (poller_last_class_label self before after _ X
               (fun c => poller_item_instanceType c X) Hok Hlater).
    + intros Hv.
      destruct (poller_last_class_label self before after _ _
                  (fun c => poller_item_cpu c v n Hv) Hok Hlater) as (c & Hc & Ht).
      exists c. split; [exact Hc|]. rewrite Ht. apply Hpoller.
  - intros Hok Hlater. split; [|split].
    + destruct (manager_last_class_label self before after _ _
                  (fun c => manager_item_instanceType c X) Hok Hlater)
        as (c & Hc & Ht).
      exists c. split; [exact Hc|]. exact (Hcut c Ht).
    + exact (manager_last_class_label self before after _ X
               (fun c => manager_item_family c X) Hok Hlater).
    + intros Hv.
      destruct (manager_last_class_label self before after _ _
                  (fun c => manager_item_cpu c v n Hv) Hok Hlater) as (c & Hc & Ht).
      exists c. split; [exact Hc|]. rewrite Ht. apply cpu_to_instance_type_spec.
  - exact (poller_last_class_label self [PyStr ("instanceType=" ++ X)] []
             (PyStr "cpu=4") "t3.xlarge" (fun c => poller_item_cpu c "4" 4 eq_refl)
             eq_refl eq_refl).
  - exact (poller_last_class_label self [PyStr "cpu=4"] [] _ X
             (fun c => poller_item_instanceType c X) eq_refl eq_refl).
  - exact (manager_last_class_label self [PyStr ("instanceType=" ++ X)] []
             (PyStr "cpu=4") "t3.xlarge" (fun c => manager_item_cpu c "4" 4 eq_refl)
             eq_refl eq_refl).
  - destruct (manager_last_class_label self [PyStr "cpu=4"] [] _ _
                (fun c => manager_item_instanceType c X) eq_refl eq_refl)
      as (c & Hc & Ht).
    exists c. split; [exact Hc|]. exact (Hcut c Ht).
Qed.

Lemma C7_later_class_label_witness :
  exists c,
    RunnerManager.parse_runs_on_config (Cfg.defaults "token" "org")
      ([PyStr "runs-on=42"; PyStr "instanceType=m5.large"] ++
       PyStr ("cpu=" ++ "5") :: [PyStr "image=ami-x"]) = Ret c /\
    (5 <= 64 ->
     Spec.smallest_fitting RunnerManager.cpu_map 5 (RunnerManager.instance_type c)) /\
    (64 < 5 -> RunnerManager.instance_type c = "m5.16xlarge").
Proof.
  exact (proj2 (proj2 (proj1 (proj2
           (C7_later_class_label_wins (Cfg.defaults "token" "org")
              [PyStr "runs-on=42"; PyStr "instanceType=m5.large"]
              [PyStr "image=ami-x"] "" "5" 5)) eq_refl eq_refl)) eq_refl).
Defined.

(** C7, as stated, fails on the notification path: a class name with an
    ['='] in it is cut there, where the polling path keeps it whole. *)
Lemma C7_counterexample_class_name_is_cut :
  (exists c, RunnerManager.parse_runs_on_config (Cfg.defaults "token" "org")
               [PyStr "cpu=4"; PyStr "instanceType=a=b"] = Ret c /\
             RunnerManager.instance_type c = "a" /\
             RunnerManager.instance_type c <> "a=b") /\
  (exists c, JobPoller._parse_runner_config (Cfg.defaults "token" "org")
               [PyStr "cpu=4"; PyStr "instanceType=a=b"] = Ret c /\
             JobPoller.instance_type c = "a=b").
Proof.
  split; eexists; (split; [reflexivity|]); simpl; [split; [reflexivity|discriminate]|reflexivity].
Qed.

(* ================================================================== *)
(** ** Dictionaries *)

Section DictFacts.

Context {V : Type}.
Implicit Types (d : dict V) (k : string) (v : V).

Lemma dict_get_set_same d k v : dict_get (dict_set d k v) k = Some v.
Proof.
  induction d as [|[k' v'] d IH]; simpl.
  - rewrite String.eqb_refl. reflexivity.
  - destruct (String.eqb k k') eqn:E; simpl.
    + rewrite String.eqb_refl. reflexivity.
    + rewrite E. exact IH.
Qed.

Lemma dict_get_set_other d k k' v :
  k' <> k -> dict_get (dict_set d k v) k' = dict_get d k'.
Proof.
  intros Hne. induction d as [|[k0 v0] d IH]; simpl.
  - destruct (String.eqb_spec k' k); [contradiction|reflexivity].
  - destruct (String.eqb_spec k k0) as [->|Hk]; simpl.
    + destruct (String.eqb_spec k' k0); [contradiction|reflexivity].
    + destruct (String.eqb k' k0); [reflexivity|exact IH].
Qed.

Lemma dict_get_del_same d k : dict_get (dict_del d k) k = None.
Proof.
  unfold dict_del. induction d as [|[k' v'] d IH]; simpl; [reflexivity|].
  destruct (String.eqb k k') eqn:E; simpl; [exact IH|].
  rewrite E. exact IH.
Qed.

Lemma dict_get_del_other d k k' :
  k' <> k -> dict_get (dict_del d k) k' = dict_get d k'.
Proof.
  intros Hne. unfold dict_del.
  induction d as [|[k0 v0] d IH]; simpl; [reflexivity|].
  destruct (String.eqb_spec k k0) as [->|Hk]; simpl.
  - destruct (String.eqb_spec k' k0); [contradiction|exact IH].
  - destruct (String.eqb k' k0); [reflexivity|exact IH].
Qed.

Lemma dict_del_absent d k : dict_get d k = None -> dict_del d k = d.
Proof.
  unfold dict_del. induction d as [|[k' v'] d IH]; simpl; [reflexivity|].
  destruct (String.eqb k k'); [discriminate|].
  intros H. simpl. rewrite (IH H). reflexivity.
Qed.

(** Deleting a key leaves every other entry in place and in order. *)
Lemma dict_del_keeps d k k' v :
  k' <> k -> In (k', v) d -> In (k', v) (dict_del d k).
Proof.
  intros Hne Hin. unfold dict_del. apply filter_In. split; [assumption|].
  simpl. destruct (String.eqb_spec k k'); [congruence|reflexivity].
Qed.

End DictFacts.

(* ================================================================== *)
(** ** Requests issued by an operation *)

Section CallLog.

Lemma count_calls_app (p : Call -> bool) (l1 l2 : list Call) :
  count_calls p (l1 ++ l2) = (count_calls p l1 + count_calls p l2)%nat.
Proof. unfold count_calls. rewrite filter_app, length_app. reflexivity. Qed.

Lemma terminate_instance_calls accepts i calls :
  snd (AWSManager.terminate_instance accepts i calls)
  = calls ++ [EC2_TerminateInstances i].
Proof. reflexivity. Qed.

End CallLog.

(* ================================================================== *)
(** ** The cleanup routines *)

Section Cleanup.

Lemma terminations_app (l1 l2 : list Call) :
  Spec.terminations (l1 ++ l2) = Spec.terminations l1 ++ Spec.terminations l2.
Proof.
  induction l1 as [|c l1 IH]; simpl; [reflexivity|].
  destruct c; simpl; rewrite ?IH; reflexivity.
Qed.


(** The GitHub part of a cleanup asks for no termination, and ends without
    an exception exactly when [Spec.deregisters] says so. *)
Lemma deregister_spec env o r name :
  Spec.terminations (snd (RunnerManager.deregister env o r name)) = [] /\
  match fst (RunnerManager.deregister env o r name) with
  | Ret _ => true
  | Raise _ => false
  end = Spec.deregisters env name.
Proof.
  unfold RunnerManager.deregister, Spec.deregisters.
  destruct (truthy (RunnerManager.remove_token env)); [|split; reflexivity].
  destruct (RunnerManager.listed_runners env) as [runners|]; [|split; reflexivity].
  destruct (RunnerManager.find_listed name runners) as [[id|]|e]; split; reflexivity.
Qed.

(** On a tracked name: the deregistration requests; unless they end in an
    exception, one termination request for the record's instance; and the
    record is dropped when no exception arose on the way, which is what the
    returned value tells. *)
Lemma manager_cleanup_present env name st info :
  dict_get (RunnerManager.active_runners st) name = Some info ->
  exists issued,
    Spec.terminations issued
    = (if Spec.deregisters env name then [RunnerManager.instance_id info] else []) /\
    RunnerManager.cleanup_runner env name st
    = (Spec.cleanup_completes env name info,
       {| RunnerManager.active_runners :=
            if Spec.cleanup_completes env name info
            then dict_del (RunnerManager.active_runners st) name
            else RunnerManager.active_runners st;
          RunnerManager.calls := RunnerManager.calls st ++ issued |}).
Proof.
  intros H. unfold RunnerManager.cleanup_runner, Spec.cleanup_completes. rewrite H.
  destruct (deregister_spec env (RunnerManager.owner info) (RunnerManager.repo info)
              name) as [Hd Hr].
  destruct (RunnerManager.deregister env _ _ name) as [[u|e] sent];
    cbn [fst snd] in Hd, Hr; rewrite <- Hr.
  - unfold AWSManager.terminate_instance_raising, AWSManager.terminate_instance.
    destruct (RunnerManager.ec2_terminates env (RunnerManager.instance_id info))
      as [accepted|e]; cbn [Spec.answered andb];
      exists (sent ++ [EC2_TerminateInstances (RunnerManager.instance_id info)]);
      (split; [rewrite terminations_app, Hd; reflexivity
              |rewrite app_assoc; reflexivity]).
  - exists sent. split; [exact Hd|reflexivity].
Qed.


(** On a tracked name: one termination request for the record's instance;
    unless an exception escapes it, the request that deletes the scale set,
    and the record is dropped. *)
Lemma poller_cleanup_present ec2 self name st info :
  dict_get (JobPoller.active_runners st) name = Some info ->
  exists group,
    Spec.terminations group = [] /\
    fst (JobPoller._cleanup_runner ec2 self name st) = None /\
    JobPoller.active_runners (snd (JobPoller._cleanup_runner ec2 self name st))
    = (if Spec.answered (ec2 (JobPoller.instance_id info))
       then dict_del (JobPoller.active_runners st) name
       else JobPoller.active_runners st) /\
    JobPoller.calls (snd (JobPoller._cleanup_runner ec2 self name st))
    = JobPoller.calls st ++
      [EC2_TerminateInstances (JobPoller.instance_id info)] ++ group.
Proof.
  intros H. unfold JobPoller._cleanup_runner. rewrite H.
  unfold AWSManager.terminate_instance_raising, AWSManager.terminate_instance.
  destruct (ec2 (JobPoller.instance_id info)) as [accepted|e]; cbn [Spec.answered].
  - destruct (String.eqb (JobPoller.scale_set_id info) "").
    + exists []. simpl. auto.
    + destruct (String.eqb (Cfg.github_org self) "").
      * exists []. simpl. auto.
      * exists [GH_DeleteScaleSet (Cfg.github_org self) (JobPoller.scale_set_id info)].
        simpl. rewrite <- app_assoc. auto.
  - exists []. simpl. auto.
Qed.

End Cleanup.




(* ================================================================== *)
(** ** The completion handler *)

Section Completion.


Lemma find_runner_tracked job_id (runners : dict RunnerManager.RunnerInfo) name :
  RunnerManager.find_runner_for_job job_id runners = Some name ->
  contains ("runner-" ++ str_of_int job_id) name = true /\
  exists info, dict_get runners name = Some info.
Proof.
  unfold RunnerManager.find_runner_for_job.
  induction runners as [|[k v] rest IH]; simpl; [discriminate|].
  destruct (contains _ k) eqn:E; simpl.
  - intros H; inversion H; subst. split; [assumption|].
    exists v. rewrite String.eqb_refl. reflexivity.
  - intros H. destruct (IH H) as [Hc [info Hget]]. split; [assumption|].
    destruct (String.eqb name k); eauto.
Qed.

Lemma manager_completed_some env payload st name :
  RunnerManager.find_runner_for_job (RunnerManager.job_id payload)
    (RunnerManager.active_runners st) = Some name ->
  exists info issued,
    dict_get (RunnerManager.active_runners st) name = Some info /\
    Spec.terminations issued
    = (if Spec.deregisters env name then [RunnerManager.instance_id info] else []) /\
    RunnerManager.handle_workflow_job_completed env payload st
    = (true,
       {| RunnerManager.active_runners :=
            if Spec.cleanup_completes env name info
            then dict_del (RunnerManager.active_runners st) name
            else RunnerManager.active_runners st;
          RunnerManager.calls := RunnerManager.calls st ++ issued |}).
Proof.
  intros H. unfold RunnerManager.handle_workflow_job_completed. rewrite H.
  destruct (find_runner_tracked _ _ _ H) as [_ [info Hget]].
  destruct (manager_cleanup_present env _ _ _ Hget) as (issued & Hd & ->).
  exists info, issued. auto.
Qed.

End Completion.

(** C3 (the code departs from it).  The runner tracked in
    [Scenario.after_first] was created for job 42.  A completion
    notification for job 4, for which nothing is tracked, is matched to it
    by substring ([runner-4] occurs in [runner-42-aaaaaaaa]): the handler
    reports success, terminates instance [i-0001] and empties the registry. *)
Theorem C3_completion_of_job_4_removes_runner_of_job_42 :
  map fst (RunnerManager.active_runners Scenario.after_first)
    = [RunnerManager.runner_name_of 42 "aaaaaaaa"] /\
  RunnerManager.job_id Scenario.completed4 = 4 /\
  let result :=
    RunnerManager.handle_workflow_job_completed Scenario.quiet_cleanup
      Scenario.completed4 Scenario.after_first in
  fst result = true /\
  RunnerManager.active_runners (snd result) = [] /\
  RunnerManager.calls (snd result)
    = RunnerManager.calls Scenario.after_first ++
      [GH_RemoveToken "acme" "app"; GH_ListRunners "acme" "app";
       EC2_TerminateInstances "i-0001"].
Proof. vm_compute. repeat split. Qed.

(* ================================================================== *)
(** ** Provisioning on the notification path *)

Section Queued.

(** A delivery that passes the eligibility test and whose remote calls
    succeed inserts a record under a fresh name; the records already
    tracked are never consulted. *)
Lemma manager_queued_inserts env self payload st o r c :
  Spec.has_marker (RunnerManager.job_labels payload) = true ->
  GitHubClient.parse_repository_from_url (RunnerManager.repo_html_url payload)
    = (Some o, Some r) ->
  o <> "" -> r <> "" ->
  RunnerManager.parse_runs_on_config self (RunnerManager.job_labels payload) = Ret c ->
  truthy (RunnerManager.reg_token env) = true ->
  truthy (RunnerManager.spot_instance env) = true ->
  exists info,
    RunnerManager.status info = "starting" /\
    Some (RunnerManager.instance_id info) = RunnerManager.spot_instance env /\
    fst (RunnerManager.handle_workflow_job_queued env self payload st) = true /\
    RunnerManager.active_runners
      (snd (RunnerManager.handle_workflow_job_queued env self payload st))
    = dict_set (RunnerManager.active_runners st)
        (RunnerManager.runner_name_of (RunnerManager.job_id payload)
           (RunnerManager.uuid4_hex env))
        info.
Proof.
  intros Hm Hurl Ho Hr Hc Htok Hinst.
  unfold RunnerManager.handle_workflow_job_queued.
  unfold Spec.has_marker in Hm. rewrite Hm, Hurl, Hc. simpl negb. cbv iota.
  destruct (String.eqb_spec o ""); [contradiction|].
  destruct (String.eqb_spec r ""); [contradiction|]. simpl orb. cbv iota.
  unfold RunnerManager.create_runner. rewrite Htok. simpl negb. cbv iota.
  destruct (RunnerManager.spot_instance env) as [i|]; [|discriminate].
  simpl in Hinst. destruct (String.eqb i ""); [discriminate|].
  exists {| RunnerManager.instance_id := i;
            RunnerManager.owner := o;
            RunnerManager.repo := r;
            RunnerManager.created_at := RunnerManager.now env;
            RunnerManager.status := "starting";
            RunnerManager.config := c |}.
  repeat split.
Qed.

End Queued.

(** C1 (the code departs from it).  The queued notification for job 42 is
    delivered, handled to completion, and delivered again: the second
    delivery provisions a second instance and the registry then tracks two
    runners for job 42. *)
Theorem C1_second_delivery_adds_second_record :
  RunnerManager.job_id Scenario.queued42 = 42 /\
  Spec.has_marker (RunnerManager.job_labels Scenario.queued42) = true /\
  map fst (RunnerManager.active_runners Scenario.after_first)
    = [RunnerManager.runner_name_of 42 "aaaaaaaa"] /\
  map fst (RunnerManager.active_runners Scenario.after_second)
    = [RunnerManager.runner_name_of 42 "aaaaaaaa";
       RunnerManager.runner_name_of 42 "bbbbbbbb"] /\
  map (fun kv => RunnerManager.instance_id (snd kv))
      (RunnerManager.active_runners Scenario.after_second)
    = ["i-0001"; "i-0002"].
Proof. vm_compute. repeat split. Qed.

(* ================================================================== *)
(** ** Provisioning on the polling path *)

Section PollerProvisioning.

Variables (env : JobPoller.CreateEnv) (self : Cfg.Config) (org : string)
          (job : JobPoller.Job) (st : JobPoller.State)
          (c : JobPoller.RunnerConfig) (id : string).

Let runner_name :=
  JobPoller.runner_name_of (JobPoller.job_id job) (JobPoller.runner_uuid4_hex env).
Let scale_set_name :=
  JobPoller.scale_set_name_of (JobPoller.job_id job)
    (JobPoller.scale_set_uuid4_hex env).
Let request :=
  EC2_RequestSpotInstances runner_name (JobPoller.instance_type c)
    (JobPoller.ami_id c) (JobPoller.max_price c).

(** The labels parse, and step 1 creates a new scale set [id]. *)
Hypothesis Hparse :
  JobPoller._parse_runner_config self (JobPoller.job_labels job) = Ret c.
Hypothesis Hcache : dict_get (JobPoller.scale_sets st) scale_set_name = None.
Hypothesis Hnone : JobPoller.existing_scale_sets env = [].
Hypothesis Hnew : JobPoller.created_scale_set env = Some id.
Hypothesis Hid : id <> "".

Lemma poller_new_scale_set :
  JobPoller._get_or_create_scale_set env org scale_set_name st
  = (Some id,
     {| JobPoller.active_runners := JobPoller.active_runners st;
        JobPoller.scale_sets := dict_set (JobPoller.scale_sets st) scale_set_name id;
        JobPoller.calls :=
          JobPoller.calls st ++
          [GH_ListScaleSets org; GH_CreateScaleSet org scale_set_name] |}).
Proof.
  unfold JobPoller._get_or_create_scale_set.
  rewrite Hcache, Hnone, Hnew.
  destruct (String.eqb_spec id ""); [contradiction|].
  rewrite <- app_assoc. reflexivity.
Qed.

(** The registration token is refused: the attempt stops there, and no
    request to delete the new scale set is sent. *)
Lemma poller_token_refused :
  truthy (JobPoller.registration_token env) = false ->
  JobPoller._create_runner_for_job env self org job st
  = {| JobPoller.active_runners := JobPoller.active_runners st;
       JobPoller.scale_sets := dict_set (JobPoller.scale_sets st) scale_set_name id;
       JobPoller.calls :=
         JobPoller.calls st ++
         [GH_ListScaleSets org; GH_CreateScaleSet org scale_set_name;
          GH_OrgRegistrationToken org] |}.
Proof.
  intros Htok. unfold JobPoller._create_runner_for_job.
  rewrite Hparse. fold runner_name scale_set_name.
  rewrite poller_new_scale_set.
  destruct (String.eqb_spec id ""); [contradiction|].
  rewrite Htok. unfold JobPoller.log. simpl.
  rewrite <- app_assoc. reflexivity.
Qed.

(** The instance is not created: the new scale set is deleted and no
    record is inserted. *)
Lemma poller_instance_failed :
  truthy (JobPoller.registration_token env) = true ->
  truthy (JobPoller.spot_instance env) = false ->
  JobPoller._create_runner_for_job env self org job st
  = {| JobPoller.active_runners := JobPoller.active_runners st;
       JobPoller.scale_sets := dict_set (JobPoller.scale_sets st) scale_set_name id;
       JobPoller.calls :=
         JobPoller.calls st ++
         [GH_ListScaleSets org; GH_CreateScaleSet org scale_set_name;
          GH_OrgRegistrationToken org; request;
          GH_DeleteScaleSet org id] |}.
Proof.
  intros Htok Hinst. unfold JobPoller._create_runner_for_job.
  rewrite Hparse. fold runner_name scale_set_name.
  rewrite poller_new_scale_set.
  destruct (String.eqb_spec id ""); [contradiction|].
  rewrite Htok. unfold JobPoller.log. simpl.
  destruct (JobPoller.spot_instance env) as [i|]; simpl in Hinst.
  - destruct (String.eqb i ""); [|discriminate].
    simpl. rewrite <- !app_assoc. reflexivity.
  - simpl. rewrite <- !app_assoc. reflexivity.
Qed.

End PollerProvisioning.

(** C2 (the code departs from it).  When the provisioning routine of the
    polling path has created a new scale set and the registration token is
    then refused, the routine returns without asking for the scale set to be
    deleted: the requests it sent are the listing, the creation and the token
    request, and the new scale set stays in the cache.  (No record is
    inserted.) *)
Theorem C2_new_group_survives_token_failure
    (env : JobPoller.CreateEnv) (self : Cfg.Config) (org : string)
    (job : JobPoller.Job) (st : JobPoller.State)
    (c : JobPoller.RunnerConfig) (id : string) :
  let scale_set_name :=
    JobPoller.scale_set_name_of (JobPoller.job_id job)
      (JobPoller.scale_set_uuid4_hex env) in
  JobPoller._parse_runner_config self (JobPoller.job_labels job) = Ret c ->
  dict_get (JobPoller.scale_sets st) scale_set_name = None ->
  JobPoller.existing_scale_sets env = [] ->
  JobPoller.created_scale_set env = Some id ->
  id <> "" ->
  truthy (JobPoller.registration_token env) = false ->
  let st' := JobPoller._create_runner_for_job env self org job st in
  JobPoller.calls st'
    = JobPoller.calls st ++
      [GH_ListScaleSets org; GH_CreateScaleSet org scale_set_name;
       GH_OrgRegistrationToken org] /\
  count_calls is_delete_scale_set (JobPoller.calls st')
    = count_calls is_delete_scale_set (JobPoller.calls st) /\
  dict_get (JobPoller.scale_sets st') scale_set_name = Some id /\
  JobPoller.active_runners st' = JobPoller.active_runners st.
Proof.
  intros name Hparse Hcache Hnone Hnew Hid Htok st'. subst st'.
  rewrite (poller_token_refused env self org job st c id
             Hparse Hcache Hnone Hnew Hid Htok).
  simpl. split; [reflexivity|]. split.
  - rewrite count_calls_app. unfold count_calls at 2. simpl. lia.
  - split; [apply dict_get_set_same|reflexivity].
Qed.

Lemma C2_new_group_survives_token_failure_witness :
  JobPoller.calls
    (JobPoller._create_runner_for_job Scenario.token_refused Scenario.cfg
       "acme" Scenario.job42 Scenario.empty_poller)
  = [GH_ListScaleSets "acme"; GH_CreateScaleSet "acme" "scaleset-42-cccccccc";
     GH_OrgRegistrationToken "acme"].
Proof.
  refine (proj1 (C2_new_group_survives_token_failure
                   Scenario.token_refused Scenario.cfg "acme" Scenario.job42
                   Scenario.empty_poller _ "7"
                   eq_refl eq_refl eq_refl eq_refl _ eq_refl)).
  discriminate.
Defined.

(** C8 (as amended).  When provisioning succeeds, the record inserted
    into the registry has status ["starting"].  On the notification path:
    when [create_runner] returns [True], the record filed under the runner's
    name holds the new instance and that status.  On the polling path: when
    the labels parse and the scale set, the registration token and the
    instance are obtained, the record filed under the runner's name holds the
    job, the new instance, the scale set and that status; and whatever the
    attempt's outcome, every other record is left as it was. *)
Theorem C8_inserted_record_has_status_starting :
  (forall env self runner_name owner repo runner_config st,
      fst (RunnerManager.create_runner env self runner_name owner repo
             runner_config st) = true ->
      exists info,
        dict_get (RunnerManager.active_runners
                    (snd (RunnerManager.create_runner env self runner_name
                            owner repo runner_config st))) runner_name
          = Some info /\
        Some (RunnerManager.instance_id info) = RunnerManager.spot_instance env /\
        RunnerManager.status info = "starting") /\
  (forall env self org job st c sid,
      let runner_name :=
        JobPoller.runner_name_of (JobPoller.job_id job)
          (JobPoller.runner_uuid4_hex env) in
      let scale_set_name :=
        JobPoller.scale_set_name_of (JobPoller.job_id job)
          (JobPoller.scale_set_uuid4_hex env) in
      JobPoller._parse_runner_config self (JobPoller.job_labels job) = Ret c ->
      fst (JobPoller._get_or_create_scale_set env org scale_set_name st) = Some sid ->
      sid <> "" ->
      truthy (JobPoller.registration_token env) = true ->
      truthy (JobPoller.spot_instance env) = true ->
      exists info,
        dict_get (JobPoller.active_runners
                    (JobPoller._create_runner_for_job env self org job st))
          runner_name = Some info /\
        Some (JobPoller.instance_id info) = JobPoller.spot_instance env /\
        JobPoller.info_job_id info = JobPoller.job_id job /\
        JobPoller.scale_set_id info = sid /\
        JobPoller.config info = c /\
        JobPoller.status info = "starting") /\
  (forall env self org job st name info,
      dict_get (JobPoller.active_runners
                  (JobPoller._create_runner_for_job env self org job st)) name
        = Some info ->
      dict_get (JobPoller.active_runners st) name = Some info \/
      (name = JobPoller.runner_name_of (JobPoller.job_id job)
                (JobPoller.runner_uuid4_hex env) /\
       Some (JobPoller.instance_id info) = JobPoller.spot_instance env /\
       JobPoller.status info = "starting")).
Proof.
  split; [|split].
  - intros env self runner_name owner repo runner_config st.
    unfold RunnerManager.create_runner.
    destruct (negb (truthy (RunnerManager.reg_token env))); [discriminate|].
    destruct (RunnerManager.spot_instance env) as [i|]; [|discriminate].
    destruct (String.eqb i ""); [discriminate|].
    intros _. eexists. cbn [snd RunnerManager.active_runners].
    rewrite dict_get_set_same. repeat split.
  - intros env self org job st c sid runner_name scale_set_name
      Hparse Hset Hsid Htok Hinst.
    unfold JobPoller._create_runner_for_job. rewrite Hparse.
    fold runner_name scale_set_name.
    destruct (JobPoller._get_or_create_scale_set env org scale_set_name st)
      as [r st1].
    cbn [fst] in Hset. subst r.
    destruct (String.eqb_spec sid ""); [contradiction|].
    rewrite Htok. cbn [negb].
    destruct (JobPoller.spot_instance env) as [i|]; [|discriminate].
    cbn [truthy] in Hinst. destruct (String.eqb i ""); [discriminate|].
    eexists. cbn [JobPoller.active_runners]. rewrite dict_get_set_same.
    split; [reflexivity|]. repeat split.
  - intros env self org job st name info.
    unfold JobPoller._create_runner_for_job.
    destruct (JobPoller._parse_runner_config self (JobPoller.job_labels job))
      as [c|e]; [|auto].
    destruct (JobPoller._get_or_create_scale_set env org _ st)
      as [[sid|] st1] eqn:Eset.
    2:{ assert (JobPoller.active_runners st1 = JobPoller.active_runners st)
          as ->; [|auto].
        unfold JobPoller._get_or_create_scale_set in Eset.
        repeat match type of Eset with
               | context [match ?x with _ => _ end] => destruct x
               end; inversion Eset; reflexivity. }
    assert (Hsame : JobPoller.active_runners st1 = JobPoller.active_runners st).
    { unfold JobPoller._get_or_create_scale_set in Eset.
      repeat match type of Eset with
             | context [match ?x with _ => _ end] => destruct x
             end; inversion Eset; reflexivity. }
    destruct (String.eqb sid ""); [rewrite Hsame; auto|].
    destruct (negb (truthy (JobPoller.registration_token env)));
      [simpl; rewrite Hsame; auto|].
    destruct (JobPoller.spot_instance env) as [i|];
      [|simpl; rewrite Hsame; auto].
    destruct (String.eqb i ""); [simpl; rewrite Hsame; auto|].
    cbn [JobPoller.active_runners JobPoller.log]. rewrite Hsame.
    destruct (String.eqb_spec name
                (JobPoller.runner_name_of (JobPoller.job_id job)
                   (JobPoller.runner_uuid4_hex env))) as [->|Hne].
    + rewrite dict_get_set_same. intros H; inversion H; subst. right.
      repeat split.
    + rewrite dict_get_set_other by assumption. auto.
Qed.

Lemma C8_inserted_record_witness :
  (exists info,
      dict_get (RunnerManager.active_runners Scenario.after_first)
        "runner-42-aaaaaaaa" = Some info /\
      RunnerManager.status info = "starting") /\
  (exists info,
      dict_get (JobPoller.active_runners Scenario.poller_after)
        "runner-42-aaaaaaaa" = Some info /\
      JobPoller.instance_id info = "i-0001" /\
      JobPoller.status info = "starting").
Proof.
  split.
  2:{ assert (Hsid : "7" <> "") by discriminate.
      destruct (proj1 (proj2 C8_inserted_record_has_status_starting)
                  Scenario.all_fine Scenario.cfg "acme" Scenario.job42
                  Scenario.empty_poller _ "7" eq_refl eq_refl Hsid eq_refl eq_refl)
        as (info & Hget & Hinst & _ & _ & _ & Hstatus).
      exists info. split; [exact Hget|]. split; [|exact Hstatus].
      inversion Hinst. reflexivity. }
  destruct (proj1 C8_inserted_record_has_status_starting
              Scenario.first_delivery Scenario.cfg "runner-42-aaaaaaaa"
              "acme" "app"
              {| RunnerManager.instance_type := "t3.xlarge";
                 RunnerManager.ami_id := "ami-x";
                 RunnerManager.labels := ["self-hosted"; "linux"; "x64"];
                 RunnerManager.max_price := "0.10";
                 RunnerManager.run_id := Some "42";
                 RunnerManager.memory := None |}
              Scenario.empty_manager eq_refl) as (info & Hget & _ & Hstatus).
  exists info. split; [exact Hget|exact Hstatus].
Defined.

(** C8, as stated, fails: after the successful provisioning of the
    end-to-end scenario the record's status is ["starting"], not active. *)
Lemma C8_counterexample_status_not_active :
  exists info,
    dict_get (RunnerManager.active_runners Scenario.after_first)
      (RunnerManager.runner_name_of 42 "aaaaaaaa") = Some info /\
    RunnerManager.instance_id info = "i-0001" /\
    RunnerManager.status info = "starting" /\
    RunnerManager.status info <> "active" /\
    RunnerManager.status info <> "Active".
Proof.
  eexists. split; [vm_compute; reflexivity|].
  repeat split; simpl; discriminate.
Qed.

(* ================================================================== *)
(** ** The provider-side sweep behind [/cleanup] *)

Section Sweep.

Variable env : AWSManager.SweepEnv.
Variable max_age_hours : Z.



End Sweep.



(* ================================================================== *)
(** ** The signature check *)

Section Signature.

Variable hmac_sha256_hexdigest : string -> string -> string.

Local Abbreviation verify :=
  (WebhookServer._verify_signature hmac_sha256_hexdigest).
Local Abbreviation expected :=
  (WebhookServer.expected_signature hmac_sha256_hexdigest).

Lemma expected_not_empty secret body : String.eqb (expected secret body) "" = false.
Proof. reflexivity. Qed.

(** A request without the header, or with an empty one, is refused before
    the secret is even read. *)
Lemma verify_missing_header config body :
  verify config body None = Ret false /\ verify config body (Some "") = Ret false.
Proof. split; reflexivity. Qed.

(** The check proper, for a configuration object that does carry a
    non-empty secret: the header is accepted exactly when it equals
    ["sha256=" + hexdigest]. *)
Lemma verify_with_secret_iff config secret body header :
  WebhookServer.read_github_webhook_secret config = Ret (Some secret) ->
  secret <> "" ->
  is_ascii (hmac_sha256_hexdigest secret body) = true ->
  verify config body (Some header) = Ret true <-> header = expected secret body.
Proof.
  intros Hread Hsecret Hhex. unfold WebhookServer._verify_signature.
  destruct (String.eqb_spec header "") as [->|Hh].
  { split; [discriminate|]. intros H.
    pose proof (expected_not_empty secret body) as E.
    rewrite <- H in E. discriminate. }
  rewrite Hread. simpl bind. cbv beta iota.
  destruct (String.eqb_spec secret ""); [contradiction|].
  unfold compare_digest.
  assert (Hexp : is_ascii (expected secret body) = true).
  { unfold WebhookServer.expected_signature. simpl. exact Hhex. }
  rewrite Hexp. simpl andb.
  destruct (is_ascii header) eqn:Ha.
  - destruct (String.eqb_spec (expected secret body) header) as [<-|Hne].
    + split; reflexivity.
    + split; [discriminate|]. intros ->. contradiction.
  - split; [discriminate|]. intros ->. rewrite Hexp in Ha. discriminate.
Qed.

(** With an instance of config.Config, reading the secret raises. *)
Lemma verify_on_Config (c : Cfg.Config) body header :
  header <> "" ->
  verify (WebhookServer.view c) body (Some header) = Raise AttributeError.
Proof.
  intros Hh. unfold WebhookServer._verify_signature.
  destruct (String.eqb_spec header ""); [contradiction|reflexivity].
Qed.

End Signature.

(** C5 (the code departs from it).  With the configuration class of the
    repository, a notification whose header is exactly
    ["sha256=" + hex(HMAC_SHA256(S, B))] is not accepted, whatever the secret
    [S] and the body [B]: config.Config has no [github_webhook_secret], the
    attribute read raises before any digest is computed, and the request is
    answered 500 with the state untouched. *)
Theorem C5_valid_signature_is_not_accepted
    (hmac_sha256_hexdigest : string -> string -> string)
    (c : Cfg.Config) (secret body : string)
    (env : WebhookServer.Env) (event : option string)
    (json : WebhookServer.Json) (st : RunnerManager.State) :
  let header := WebhookServer.expected_signature hmac_sha256_hexdigest secret body in
  let request :=
    {| WebhookServer.data := body;
       WebhookServer.x_hub_signature_256 := Some header;
       WebhookServer.x_github_event := event;
       WebhookServer.get_json := json |} in
  WebhookServer._verify_signature hmac_sha256_hexdigest (WebhookServer.view c)
    body (Some header) = Raise AttributeError /\
  WebhookServer._handle_webhook hmac_sha256_hexdigest env c
    (WebhookServer.view c) request st
  = (Error 500 "Internal server error", st).
Proof. intros header request. split; reflexivity. Qed.

(** X1. For a configuration object that carries a non-empty secret [S],
    and a hexadecimal (ASCII) digest, the signature check accepts a header
    exactly when it equals ["sha256=" + hexdigest(S, B)]; any other header,
    a mutated one included, is refused. *)
Theorem X1_verifier_accepts_exactly_the_expected_header
    (hmac_sha256_hexdigest : string -> string -> string)
    (config : WebhookServer.ConfigView) (secret body header : string) :
  WebhookServer.read_github_webhook_secret config = Ret (Some secret) ->
  secret <> "" ->
  is_ascii (hmac_sha256_hexdigest secret body) = true ->
  (WebhookServer._verify_signature hmac_sha256_hexdigest config body (Some header)
     = Ret true
   <-> header = WebhookServer.expected_signature hmac_sha256_hexdigest secret body)
  /\ (header <> WebhookServer.expected_signature hmac_sha256_hexdigest secret body ->
      WebhookServer._verify_signature hmac_sha256_hexdigest config body (Some header)
        = Ret false).
Proof.
  intros Hread Hsecret Hhex.
  pose proof (verify_with_secret_iff hmac_sha256_hexdigest config secret body
                header Hread Hsecret Hhex) as Hiff.
  split; [exact Hiff|].
  intros Hne.
  destruct (WebhookServer._verify_signature hmac_sha256_hexdigest config body
              (Some header)) as [[|]|e] eqn:E.
  - exfalso. apply Hne, Hiff. reflexivity.
  - reflexivity.
  - exfalso. revert E. unfold WebhookServer._verify_signature.
    destruct (String.eqb header ""); [discriminate|].
    rewrite Hread. simpl bind. cbv beta iota.
    destruct (String.eqb secret ""); [discriminate|].
    destruct (compare_digest _ header) as [b|e']; discriminate.
Qed.

Lemma X1_verifier_witness :
  WebhookServer._verify_signature Scenario.toy_digest Scenario.with_secret
    "{}" (Some "sha256=00fe") = Ret false.
Proof.
  refine (proj2 (X1_verifier_accepts_exactly_the_expected_header
                   Scenario.toy_digest Scenario.with_secret "s3cret" "{}"
                   "sha256=00fe" eq_refl _ eq_refl) _); discriminate.
Defined.

(* ================================================================== *)
(** ** Idempotency on the polling path *)

Section PollerIdempotency.

Variable j : Z.

Let for_job (kv : string * JobPoller.RunnerInfo) : bool :=
  JobPoller.info_job_id (snd kv) =? j.

Lemma filter_dict_set_le (d : dict JobPoller.RunnerInfo) k v :
  (List.length (filter for_job (dict_set d k v))
   <= S (List.length (filter for_job d)))%nat.
Proof.
  induction d as [|[k' v'] d IH]; simpl.
  - destruct (for_job (k, v)); simpl; lia.
  - destruct (String.eqb k k'); simpl.
    + destruct (for_job (k, v)), (for_job (k', v')); simpl; lia.
    + destruct (for_job (k', v')); simpl; lia.
Qed.

Lemma get_or_create_keeps_runners env org name st :
  JobPoller.active_runners
    (snd (JobPoller._get_or_create_scale_set env org name st))
  = JobPoller.active_runners st.
Proof.
  unfold JobPoller._get_or_create_scale_set.
  repeat match goal with
         | |- context [match ?x with _ => _ end] => destruct x
         end; reflexivity.
Qed.

(** One attempt adds at most one record for any job. *)
Lemma create_adds_at_most_one env self org job st :
  (List.length (Spec.records_for j (JobPoller._create_runner_for_job env self org job st))
   <= S (List.length (Spec.records_for j st)))%nat.
Proof.
  unfold Spec.records_for, JobPoller._create_runner_for_job.
  fold for_job.
  destruct (JobPoller._parse_runner_config self (JobPoller.job_labels job));
    [|lia].
  pose proof (get_or_create_keeps_runners env org
                (JobPoller.scale_set_name_of (JobPoller.job_id job)
                   (JobPoller.scale_set_uuid4_hex env)) st) as Hkeep.
  destruct (JobPoller._get_or_create_scale_set env org _ st) as [[sid|] st1];
    simpl in Hkeep; [|rewrite Hkeep; lia].
  destruct (String.eqb sid ""); [rewrite Hkeep; lia|].
  destruct (negb (truthy (JobPoller.registration_token env)));
    [simpl; rewrite Hkeep; lia|].
  destruct (JobPoller.spot_instance env) as [i|]; [|simpl; rewrite Hkeep; lia].
  destruct (String.eqb i ""); [simpl; rewrite Hkeep; lia|].
  cbn [JobPoller.active_runners JobPoller.log]. rewrite Hkeep.
  apply filter_dict_set_le.
Qed.

(** A job with a tracked record is not provisioned for again. *)
Lemma should_create_false_when_tracked (job : JobPoller.Job) st :
  JobPoller.job_id job = j ->
  Spec.records_for j st <> [] ->
  JobPoller._should_create_runner_for_job job st = false.
Proof.
  intros Hj Hrec. unfold JobPoller._should_create_runner_for_job.
  destruct (negb _); [reflexivity|].
  unfold Spec.records_for in Hrec. rewrite Hj.
  induction (JobPoller.active_runners st) as [|kv rest IH]; simpl in *.
  - contradiction.
  - destruct (JobPoller.info_job_id (snd kv) =? j); [reflexivity|].
    simpl. apply IH. assumption.
Qed.

End PollerIdempotency.

(** X2. On the polling path a job is provisioned for at most once: when no
    record is tracked for the job, two polling cycles that both see it queued
    leave at most one record for its job id, whatever the remote services
    answer. *)
Theorem X2_poller_tracks_at_most_one_record_per_job
    (self : Cfg.Config) (org : string) (job : JobPoller.Job)
    (env1 env2 : JobPoller.CreateEnv) (st : JobPoller.State) :
  Spec.records_for (JobPoller.job_id job) st = [] ->
  let st1 := JobPoller._process_queued_jobs self org [(env1, job)] st in
  let st2 := JobPoller._process_queued_jobs self org [(env2, job)] st1 in
  (List.length (Spec.records_for (JobPoller.job_id job) st2) <= 1)%nat.
Proof.
  intros Hnone st1 st2. subst st1 st2. cbn [JobPoller._process_queued_jobs].
  set (st1 := if JobPoller._should_create_runner_for_job job st
              then JobPoller._create_runner_for_job env1 self org job st
              else st).
  assert (H1 : (List.length (Spec.records_for (JobPoller.job_id job) st1) <= 1)%nat).
  { subst st1. destruct (JobPoller._should_create_runner_for_job job st).
    - pose proof (create_adds_at_most_one (JobPoller.job_id job)
                    env1 self org job st) as H.
      rewrite Hnone in H. exact H.
    - rewrite Hnone. simpl. lia. }
  destruct (Spec.records_for (JobPoller.job_id job) st1) as [|r rs] eqn:E.
  - destruct (JobPoller._should_create_runner_for_job job st1).
    + pose proof (create_adds_at_most_one (JobPoller.job_id job)
                    env2 self org job st1) as H.
      rewrite E in H. exact H.
    + rewrite E. simpl. lia.
  - rewrite (should_create_false_when_tracked (JobPoller.job_id job) job st1
               eq_refl) by (rewrite E; discriminate).
    rewrite E. exact H1.
Qed.

Lemma X2_poller_at_most_one_witness :
  (List.length
     (Spec.records_for 42
        (JobPoller._process_queued_jobs Scenario.cfg "acme"
           [(Scenario.all_fine, Scenario.job42)]
           (JobPoller._process_queued_jobs Scenario.cfg "acme"
              [(Scenario.all_fine, Scenario.job42)] Scenario.empty_poller)))
   <= 1)%nat.
Proof.
  exact (X2_poller_tracks_at_most_one_record_per_job Scenario.cfg "acme"
           Scenario.job42 Scenario.all_fine Scenario.all_fine
           Scenario.empty_poller eq_refl).
Defined.

(** X3. On the polling path, when a new scale set has been created and the
    instance is then not created, the routine asks for the scale set to be
    deleted (its last request) and inserts no record. *)
Theorem X3_new_group_deleted_when_instance_fails
    (env : JobPoller.CreateEnv) (self : Cfg.Config) (org : string)
    (job : JobPoller.Job) (st : JobPoller.State)
    (c : JobPoller.RunnerConfig) (id : string) :
  let scale_set_name :=
    JobPoller.scale_set_name_of (JobPoller.job_id job)
      (JobPoller.scale_set_uuid4_hex env) in
  JobPoller._parse_runner_config self (JobPoller.job_labels job) = Ret c ->
  dict_get (JobPoller.scale_sets st) scale_set_name = None ->
  JobPoller.existing_scale_sets env = [] ->
  JobPoller.created_scale_set env = Some id ->
  id <> "" ->
  truthy (JobPoller.registration_token env) = true ->
  truthy (JobPoller.spot_instance env) = false ->
  let st' := JobPoller._create_runner_for_job env self org job st in
  (exists earlier,
      JobPoller.calls st'
      = JobPoller.calls st ++ earlier ++ [GH_DeleteScaleSet org id] /\
      count_calls is_delete_scale_set earlier = 0%nat) /\
  JobPoller.active_runners st' = JobPoller.active_runners st.
Proof.
  intros name Hparse Hcache Hnone Hnew Hid Htok Hinst st'. subst st'.
  rewrite (poller_instance_failed env self org job st c id
             Hparse Hcache Hnone Hnew Hid Htok Hinst).
  simpl. split; [|reflexivity].
  eexists [_; _; _; _]. split; reflexivity.
Qed.

Lemma X3_new_group_deleted_witness :
  JobPoller.active_runners
    (JobPoller._create_runner_for_job Scenario.instance_refused Scenario.cfg
       "acme" Scenario.job42 Scenario.empty_poller) = [].
Proof.
  refine (proj2 (X3_new_group_deleted_when_instance_fails
                   Scenario.instance_refused Scenario.cfg "acme" Scenario.job42
                   Scenario.empty_poller _ "7"
                   eq_refl eq_refl eq_refl eq_refl _ eq_refl eq_refl)).
  discriminate.
Defined.


(** The end-to-end scenario, run: the queued notification for job 42 with
    labels [runs-on=42], [cpu=4], [image=ami-x] leaves one record, named after
    job 42, with image [ami-x] and the class that [cpu=4] maps to; the
    completion notification for job 42 then removes it and asks for exactly
    one termination, of its instance. *)
Example scenario_queued_then_completed :
  (exists info,
      RunnerManager.active_runners Scenario.after_first
        = [(RunnerManager.runner_name_of 42 "aaaaaaaa", info)] /\
      RunnerManager.ami_id (RunnerManager.config info) = "ami-x" /\
      RunnerManager.instance_type (RunnerManager.config info)
        = RunnerManager._cpu_to_instance_type 4 /\
      RunnerManager.instance_id info = "i-0001") /\
  let result :=
    RunnerManager.handle_workflow_job_completed Scenario.quiet_cleanup
      Scenario.completed42 Scenario.after_first in
  RunnerManager.active_runners (snd result) = [] /\
  Spec.terminations (RunnerManager.calls (snd result)) = ["i-0001"].
Proof.
  split.
  - eexists. split; [vm_compute; reflexivity|]. repeat split.
  - vm_compute. split; reflexivity.
Qed.

(* ================================================================== *)
(** ** Repository URLs *)

Section RepositoryUrl.

Lemma count_char_app c (a b : string) :
  Spec.count_char c (a ++ b) = (Spec.count_char c a + Spec.count_char c b)%nat.
Proof. induction a as [|x a IH]; simpl; [reflexivity|rewrite IH; lia]. Qed.

Lemma count_char_absent c (s : string) :
  contains (String c "") s = false -> Spec.count_char c s = O.
Proof.
  induction s as [|a s IH]; intros H; [reflexivity|].
  rewrite contains_char_cons in H. apply orb_false_iff in H as [Ha Hs].
  simpl. rewrite Ha, (IH Hs). reflexivity.
Qed.

(** [sub in s] holds exactly when [s] can be cut around a copy of [sub]. *)
Lemma contains_cut (sub s : string) :
  contains sub s = true -> exists u v, s = (u ++ sub ++ v)%string.
Proof.
  induction s as [|c s IH]; cbn [contains]; intros H.
  - rewrite orb_false_r in H. apply prefix_app in H as [r Hr].
    exists "", r. exact Hr.
  - apply orb_true_iff in H as [H|H].
    + apply prefix_app in H as [r ->]. exists "", r. reflexivity.
    + destruct (IH H) as (u & v & ->). exists (String c u), v. reflexivity.
Qed.

Lemma contains_needs_slashes (s : string) :
  contains "https://github.com/" s = true -> (3 <= Spec.count_char "/" s)%nat.
Proof.
  intros H. destruct (contains_cut _ _ H) as (u & v & ->).
  rewrite !count_char_app. simpl. lia.
Qed.

Lemma replace_fuel_absent (old new s : string) :
  forall fuel, contains old s = false -> replace_fuel fuel old new s = s.
Proof.
  induction s as [|c s IH]; intros [|fuel] H; try reflexivity.
  cbn [contains] in H. apply orb_false_iff in H as [Hp Hs].
  cbn [replace_fuel]. rewrite Hp, (IH _ Hs). reflexivity.
Qed.

Lemma split_app_sep (sep : ascii) (o r : string) :
  contains (String sep "") o = false ->
  split sep (o ++ String sep r) = o :: split sep r.
Proof.
  induction o as [|c o IH]; intros H; simpl.
  - rewrite Ascii.eqb_refl. reflexivity.
  - rewrite contains_char_cons in H. apply orb_false_iff in H as [Hc Ho].
    rewrite Hc, (IH Ho). reflexivity.
Qed.

Lemma one_slash (owner repo : string) :
  contains "/" owner = false -> contains "/" repo = false ->
  Spec.count_char "/" (owner ++ "/" ++ repo) = 1%nat.
Proof.
  intros Ho Hr. rewrite !count_char_app, (count_char_absent _ _ Ho),
    (count_char_absent _ _ Hr). reflexivity.
Qed.

Lemma no_prefix_in_short_form (owner repo : string) :
  contains "/" owner = false -> contains "/" repo = false ->
  contains "https://github.com/" (owner ++ "/" ++ repo) = false.
Proof.
  intros Ho Hr.
  destruct (contains "https://github.com/" (owner ++ "/" ++ repo)) eqn:E;
    [|reflexivity].
  apply contains_needs_slashes in E. rewrite (one_slash _ _ Ho Hr) in E. lia.
Qed.

Lemma drop_app (p r : string) : drop (String.length p) (p ++ r) = r.
Proof. induction p as [|c p IH]; [reflexivity|exact IH]. Qed.

(** Replacing a leading copy of [old] when no other copy follows. *)
Lemma replace_leading (c : ascii) (old new rest : string) :
  contains (String c old) rest = false ->
  replace (String c old) new (String c old ++ rest) = (new ++ rest)%string.
Proof.
  intros H. unfold replace.
  change (String.length (String c old ++ rest))
    with (S (String.length (old ++ rest))).
  cbn [replace_fuel].
  change (String c (old ++ rest)) with (String c old ++ rest)%string.
  rewrite prefix_app_refl, drop_app, replace_fuel_absent by exact H.
  reflexivity.
Qed.

Lemma prefix_contains (p s : string) :
  String.prefix p s = true -> contains p s = true.
Proof. intros H. destruct s; cbn [contains]; rewrite H; reflexivity. Qed.

End RepositoryUrl.

(** X6. [parse_repository_from_url] recovers owner and repository from
    both accepted forms, [https://github.com/<owner>/<repo>] and
    [<owner>/<repo>], whenever neither name holds a ['/']; a URL without any
    ['/'] yields [(None, None)]. *)
Theorem X6_repository_url_round_trip :
  (forall owner repo,
      contains "/" owner = false -> contains "/" repo = false ->
      GitHubClient.parse_repository_from_url
        ("https://github.com/" ++ owner ++ "/" ++ repo) = (Some owner, Some repo) /\
      GitHubClient.parse_repository_from_url (owner ++ "/" ++ repo)
        = (Some owner, Some repo)) /\
  (forall url,
      contains "/" url = false ->
      GitHubClient.parse_repository_from_url url = (None, None)).
Proof.
  split.
  - intros owner repo Ho Hr.
    pose proof (no_prefix_in_short_form _ _ Ho Hr) as Habsent.
    split; unfold GitHubClient.parse_repository_from_url.
    + unfold startswith.
      rewrite (prefix_app_refl "https://github.com/" (owner ++ "/" ++ repo)).
      rewrite (replace_leading "h" "ttps://github.com/" "" (owner ++ "/" ++ repo)
                 Habsent).
      change ("" ++ (owner ++ "/" ++ repo))%string
        with (owner ++ String "/" repo)%string.
      rewrite (split_app_sep "/" owner repo Ho), (split_one _ _ Hr). reflexivity.
    + destruct (startswith (owner ++ "/" ++ repo) "https://github.com/") eqn:E.
      { apply prefix_contains in E. congruence. }
      rewrite (contains_sep_app "/" owner repo
               : contains "/" (owner ++ "/" ++ repo) = true).
      change (owner ++ "/" ++ repo)%string with (owner ++ String "/" repo)%string.
      rewrite (split_app_sep "/" owner repo Ho), (split_one _ _ Hr). reflexivity.
  - intros url H. unfold GitHubClient.parse_repository_from_url.
    destruct (startswith url "https://github.com/") eqn:E.
    + apply prefix_contains, contains_needs_slashes in E.
      rewrite (count_char_absent _ _ H) in E. lia.
    + rewrite H. reflexivity.
Qed.

Lemma X6_repository_url_witness :
  GitHubClient.parse_repository_from_url "https://github.com/acme/app"
    = (Some "acme", Some "app").
Proof.
  exact (proj1 (proj1 X6_repository_url_round_trip "acme" "app" eq_refl eq_refl)).
Defined.

(** X7. The resolver is monotone and never fails: a larger cpu count never
    maps to a tier of smaller capacity, and every count up to 1 (zero and
    negative counts included) maps to the smallest class.  Both copies. *)
Theorem X7_cpu_resolver_is_monotone :
  (forall n m, n <= m ->
     exists c1 c2,
       Spec.tier_of RunnerManager.cpu_map (RunnerManager._cpu_to_instance_type n)
         = Some c1 /\
       Spec.tier_of RunnerManager.cpu_map (RunnerManager._cpu_to_instance_type m)
         = Some c2 /\
       c1 <= c2) /\
  (forall n, n <= 1 -> RunnerManager._cpu_to_instance_type n = "t3.micro") /\
  (forall n, JobPoller._cpu_to_instance_type n
             = RunnerManager._cpu_to_instance_type n).
Proof.
  assert (Htier : forall c t, In (c, t) RunnerManager.cpu_map ->
                    Spec.tier_of RunnerManager.cpu_map t = Some c /\ c <= 64).
  { intros c t H. simpl in H.
    repeat (destruct H as [H|H]; [inversion H; split; [reflexivity|lia]|]).
    contradiction. }
  split; [|split; [|exact poller_cpu_to_instance_type_same]].
  - intros n m Hnm.
    destruct (cpu_to_instance_type_spec n) as [Hn_small Hn_big].
    destruct (cpu_to_instance_type_spec m) as [Hm_small Hm_big].
    destruct (Z_le_gt_dec m 64) as [Hm|Hm].
    + destruct (Hn_small ltac:(lia)) as (c1 & In1 & Hle1 & Hmin1).
      destruct (Hm_small Hm) as (c2 & In2 & Hle2 & _).
      exists c1, c2. split; [apply (Htier _ _ In1)|].
      split; [apply (Htier _ _ In2)|].
      apply (Hmin1 c2 _ In2). lia.
    + rewrite (Hm_big ltac:(lia)).
      destruct (Z_le_gt_dec n 64) as [Hn|Hn].
      * destruct (Hn_small Hn) as (c1 & In1 & _ & _).
        exists c1, 64. split; [apply (Htier _ _ In1)|].
        split; [reflexivity|apply (Htier _ _ In1)].
      * rewrite (Hn_big ltac:(lia)). exists 64, 64.
        split; [reflexivity|]. split; [reflexivity|lia].
  - intros n Hn. unfold RunnerManager._cpu_to_instance_type.
    change (sorted RunnerManager.cpu_map) with RunnerManager.cpu_map.
    cbn [RunnerManager.first_fit RunnerManager.cpu_map].
    destruct (Z.leb_spec n 1); [reflexivity|lia].
Qed.

Lemma X7_cpu_resolver_witness :
  exists c1 c2,
    Spec.tier_of RunnerManager.cpu_map (RunnerManager._cpu_to_instance_type 3)
      = Some c1 /\
    Spec.tier_of RunnerManager.cpu_map (RunnerManager._cpu_to_instance_type 9)
      = Some c2 /\
    c1 <= c2.
Proof.
  exact (proj1 X7_cpu_resolver_is_monotone 3 9 ltac:(lia)).
Defined.

(* ================================================================== *)
(** ** The two parsers side by side *)

Section ParsersAgree.

Lemma split1_inv (sep : ascii) (s k v : string) :
  split1 sep s = [k; v] -> s = (k ++ String sep v)%string.
Proof.
  revert k. induction s as [|c s IH]; intros k; simpl; [discriminate|].
  destruct (Ascii.eqb_spec c sep) as [->|Hc].
  - intros H; inversion H; subst. reflexivity.
  - destruct (split1 sep s) as [|w ws] eqn:E; [discriminate|].
    intros H; inversion H; subst. rewrite (IH w eq_refl). reflexivity.
Qed.

Let alike (a : RunnerManager.RunnerConfig) (b : JobPoller.RunnerConfig)
    (ra : result RunnerManager.RunnerConfig) (rb : result JobPoller.RunnerConfig)
    : Prop :=
  match ra, rb with
  | Ret a', Ret b' => Spec.same_launch_config a' b'
  | Raise e1, Raise e2 => e1 = e2
  | _, _ => False
  end.

Lemma parse_item_alike a b item :
  Spec.same_launch_config a b ->
  Spec.parsed_alike item = true ->
  alike a b (RunnerManager.parse_item a item) (JobPoller.parse_label b item).
Proof.
  intros Hsame Hok. destruct item as [s|r]; [|exact Hsame].
  unfold Spec.parsed_alike in Hok. apply andb_true_iff in Hok as [Hfam Hit].
  destruct Hsame as (S1 & S2 & S3 & S4 & S5).
  destruct (startswith s "runs-on=") eqn:E1.
  { apply prefix_app in E1 as [r ->].
    unfold RunnerManager.parse_item, JobPoller.parse_label.
    change (startswith ("runs-on=" ++ r) "runs-on=")
      with (String.prefix "runs-on=" ("runs-on=" ++ r)).
    rewrite prefix_app_refl.
    change (split "=" ("runs-on=" ++ r)) with ("runs-on" :: split "=" r).
    rewrite index_1_split by apply split_not_nil.
    rewrite (contains_sep_app "=" "runs-on" r
             : contains "=" ("runs-on=" ++ r) = true).
    simpl. repeat split; assumption. }
  destruct (startswith s "instanceType=") eqn:E2.
  { apply prefix_app in E2 as [r ->].
    change (drop 13 ("instanceType=" ++ r)) with r in Hit.
    apply negb_true_iff in Hit.
    rewrite manager_item_instanceType, poller_item_instanceType,
      (split_one _ _ Hit).
    simpl. repeat split; assumption. }
  unfold RunnerManager.parse_item, JobPoller.parse_label. rewrite E1, E2.
  destruct (contains "=" s) eqn:E3; [|simpl; repeat split; assumption].
  destruct (split1_two _ _ E3) as (k & v & Hkv). rewrite Hkv.
  assert (Hk1 : k <> "instanceType").
  { intros ->. apply split1_inv in Hkv. subst s.
    assert (P : String.prefix "instanceType=" ("instanceType" ++ String "=" v) = true)
      by exact (prefix_app_refl "instanceType=" v).
    unfold startswith in E2. congruence. }
  assert (Hk2 : k <> "family").
  { intros ->. unfold Spec.key_in in Hfam.
    rewrite (label_key_split1 _ _ _ E3 Hkv) in Hfam. discriminate. }
  repeat match goal with
         | |- context [String.eqb k ?x] =>
             destruct (String.eqb_spec k x); [subst k|]
         end;
    try contradiction; unfold alike;
    try (destruct (int v) as [cpu_count|e]; cbn [bind];
         [rewrite poller_cpu_to_instance_type_same|reflexivity]);
    unfold RunnerManager.set_instance_type, RunnerManager.set_memory,
      RunnerManager.set_ami_id, RunnerManager.set_max_price,
      RunnerManager.set_labels, JobPoller.set_instance_type,
      JobPoller.set_memory, JobPoller.set_ami_id, JobPoller.set_max_price,
      JobPoller.set_labels, JobPoller.set_work_folder, Spec.same_launch_config;
    simpl; repeat split; congruence.
Qed.

Lemma parse_items_alike (runs_on : list pyval) :
  forall a b,
  Spec.same_launch_config a b ->
  forallb Spec.parsed_alike runs_on = true ->
  alike a b (RunnerManager.parse_items a runs_on) (JobPoller.parse_labels b runs_on).
Proof.
  induction runs_on as [|item rest IH]; intros a b Hsame Hok; simpl.
  - exact Hsame.
  - simpl in Hok. apply andb_true_iff in Hok as [Hitem Hrest].
    pose proof (parse_item_alike a b item Hsame Hitem) as H.
    unfold alike in H.
    destruct (RunnerManager.parse_item a item) as [a'|e1],
             (JobPoller.parse_label b item) as [b'|e2];
      simpl; try contradiction.
    + apply IH; assumption.
    + exact H.
Qed.

End ParsersAgree.

(** X8. The two label parsers agree.  On a list in which no label has the
    key [family] and no [instanceType=] value holds a further ['='], the
    notification-path parser and the polling-path parser either both raise the
    same exception or both return, with the same instance type, image,
    labels, price ceiling and memory. *)
Theorem X8_parsers_agree (self : Cfg.Config) (runs_on : list pyval) :
  forallb Spec.parsed_alike runs_on = true ->
  match RunnerManager.parse_runs_on_config self runs_on,
        JobPoller._parse_runner_config self runs_on with
  | Ret a, Ret b => Spec.same_launch_config a b
  | Raise e1, Raise e2 => e1 = e2
  | _, _ => False
  end.
Proof.
  intros Hok.
  apply (parse_items_alike runs_on (RunnerManager.default_config self)
           (JobPoller.default_config self)); [|exact Hok].
  repeat split.
Qed.

Lemma X8_parsers_agree_witness :
  match RunnerManager.parse_runs_on_config Scenario.cfg
          [PyStr "runs-on=42"; PyStr "cpu=4"; PyStr "image=ami-x"],
        JobPoller._parse_runner_config Scenario.cfg
          [PyStr "runs-on=42"; PyStr "cpu=4"; PyStr "image=ami-x"] with
  | Ret a, Ret b => Spec.same_launch_config a b
  | Raise e1, Raise e2 => e1 = e2
  | _, _ => False
  end.
Proof.
  exact (X8_parsers_agree Scenario.cfg
           [PyStr "runs-on=42"; PyStr "cpu=4"; PyStr "image=ami-x"] eq_refl).
Defined.

(* ================================================================== *)
(** ** The last label of a key decides *)

Section LastLabel.

Lemma manager_item_image c v :
  RunnerManager.parse_item c (PyStr ("image=" ++ v))
  = Ret (RunnerManager.set_ami_id c v).
Proof.
  unfold RunnerManager.parse_item.
  change (startswith ("image=" ++ v) "runs-on=") with false.
  change (startswith ("image=" ++ v) "instanceType=") with false.
  rewrite (contains_sep_app "=" "image" v : contains "=" ("image=" ++ v) = true).
  reflexivity.
Qed.

Lemma manager_item_maxPrice c v :
  RunnerManager.parse_item c (PyStr ("maxPrice=" ++ v))
  = Ret (RunnerManager.set_max_price c v).
Proof.
  unfold RunnerManager.parse_item.
  change (startswith ("maxPrice=" ++ v) "runs-on=") with false.
  change (startswith ("maxPrice=" ++ v) "instanceType=") with false.
  rewrite (contains_sep_app "=" "maxPrice" v : contains "=" ("maxPrice=" ++ v) = true).
  reflexivity.
Qed.

Lemma poller_item_image c v :
  JobPoller.parse_label c (PyStr ("image=" ++ v)) = Ret (JobPoller.set_ami_id c v).
Proof.
  unfold JobPoller.parse_label.
  rewrite (contains_sep_app "=" "image" v : contains "=" ("image=" ++ v) = true).
  reflexivity.
Qed.

Lemma poller_item_maxPrice c v :
  JobPoller.parse_label c (PyStr ("maxPrice=" ++ v))
  = Ret (JobPoller.set_max_price c v).
Proof.
  unfold JobPoller.parse_label.
  rewrite (contains_sep_app "=" "maxPrice" v : contains "=" ("maxPrice=" ++ v) = true).
  reflexivity.
Qed.

End LastLabel.

(** X9. The last label of a key decides the field, wherever it stands in
    the list: when the parser returns on a list that holds [image=<v>] and no
    later [image] label, the image is [v]; likewise for [maxPrice] and the
    price ceiling.  Both parsers. *)
Theorem X9_last_label_of_a_key_decides
    (self : Cfg.Config) (before after : list pyval) (v : string) :
  (forall c,
      Spec.mentions ["image"] after = false ->
      RunnerManager.parse_runs_on_config self
        (before ++ PyStr ("image=" ++ v) :: after) = Ret c ->
      RunnerManager.ami_id c = v) /\
  (forall c,
      Spec.mentions ["maxPrice"] after = false ->
      RunnerManager.parse_runs_on_config self
        (before ++ PyStr ("maxPrice=" ++ v) :: after) = Ret c ->
      RunnerManager.max_price c = v) /\
  (forall c,
      Spec.mentions ["image"] after = false ->
      JobPoller._parse_runner_config self
        (before ++ PyStr ("image=" ++ v) :: after) = Ret c ->
      JobPoller.ami_id c = v) /\
  (forall c,
      Spec.mentions ["maxPrice"] after = false ->
      JobPoller._parse_runner_config self
        (before ++ PyStr ("maxPrice=" ++ v) :: after) = Ret c ->
      JobPoller.max_price c = v).
Proof.
  unfold RunnerManager.parse_runs_on_config, JobPoller._parse_runner_config.
  repeat split; intros c Hlater H.
  - rewrite manager_parse_items_app in H.
    destruct (RunnerManager.parse_items _ before) as [c1|]; [|discriminate].
    cbn [bind RunnerManager.parse_items] in H.
    rewrite manager_item_image in H. cbn [bind] in H.
    destruct (manager_parse_items_frame _ _ _ H) as (_ & A & _ & _).
    rewrite (A Hlater). reflexivity.
  - rewrite manager_parse_items_app in H.
    destruct (RunnerManager.parse_items _ before) as [c1|]; [|discriminate].
    cbn [bind RunnerManager.parse_items] in H.
    rewrite manager_item_maxPrice in H. cbn [bind] in H.
    destruct (manager_parse_items_frame _ _ _ H) as (_ & _ & A & _).
    rewrite (A Hlater). reflexivity.
  - rewrite poller_parse_labels_app in H.
    destruct (JobPoller.parse_labels _ before) as [c1|]; [|discriminate].
    cbn [bind JobPoller.parse_labels] in H.
    rewrite poller_item_image in H. cbn [bind] in H.
    destruct (poller_parse_labels_frame _ _ _ H) as (_ & A & _ & _ & _).
    rewrite (A Hlater). reflexivity.
  - rewrite poller_parse_labels_app in H.
    destruct (JobPoller.parse_labels _ before) as [c1|]; [|discriminate].
    cbn [bind JobPoller.parse_labels] in H.
    rewrite poller_item_maxPrice in H. cbn [bind] in H.
    destruct (poller_parse_labels_frame _ _ _ H) as (_ & _ & A & _ & _).
    rewrite (A Hlater). reflexivity.
Qed.

Lemma X9_last_label_witness :
  exists c,
    RunnerManager.parse_runs_on_config Scenario.cfg
      ([PyStr "image=ami-1"] ++ PyStr ("image=" ++ "ami-2") :: [PyStr "cpu=2"])
      = Ret c /\
    RunnerManager.ami_id c = "ami-2".
Proof.
  eexists. split; [reflexivity|].
  exact (proj1 (X9_last_label_of_a_key_decides Scenario.cfg
                  [PyStr "image=ami-1"] [PyStr "cpu=2"] "ami-2")
           _ eq_refl eq_refl).
Defined.

(* ================================================================== *)
(** ** Sweeps over the registry *)

Section DictKeys.

Context {V : Type}.
Implicit Types (d : dict V) (k : string) (v : V).

Lemma In_dict_get d k v : In (k, v) d -> dict_get d k <> None.
Proof.
  induction d as [|[k' v'] d IH]; simpl; [contradiction|].
  intros [H|H]; destruct (String.eqb_spec k k'); try discriminate; auto.
  inversion H; subst. contradiction.
Qed.

Lemma dict_get_unique d k v :
  NoDup (map fst d) -> In (k, v) d -> dict_get d k = Some v.
Proof.
  induction d as [|[k' v'] d IH]; simpl; [contradiction|].
  intros Hnd [H|H]; inversion Hnd as [|? ? Hnotin Hnd']; subst.
  - inversion H; subst. rewrite String.eqb_refl. reflexivity.
  - destruct (String.eqb_spec k k') as [->|_]; [|auto].
    exfalso. apply Hnotin. change k' with (fst (k', v)). apply in_map. exact H.
Qed.

Lemma NoDup_keys_filter d (f : string * V -> bool) :
  NoDup (map fst d) -> NoDup (map fst (filter f d)).
Proof.
  induction d as [|kv d IH]; simpl; intros Hnd; [constructor|].
  inversion Hnd as [|? ? Hnotin Hnd']; subst.
  destruct (f kv); simpl; [|auto].
  constructor; [|auto].
  intros Hin. apply Hnotin. apply in_map_iff in Hin as (kv' & Hk & Hin).
  apply filter_In in Hin as [Hin _]. rewrite <- Hk. apply in_map. exact Hin.
Qed.

(** Writing and deleting keep the keys of a dict distinct, so the
    registries built by the handlers from an empty one have one record per
    name. *)
Lemma dict_set_keys d k v k' :
  In k' (map fst (dict_set d k v)) -> k' = k \/ In k' (map fst d).
Proof.
  induction d as [|[k0 v0] d IH]; simpl.
  - intros [H|[]]. left. symmetry. exact H.
  - destruct (String.eqb_spec k k0) as [->|Hne]; simpl.
    + intros [H|H]; [left; symmetry; exact H|right; right; exact H].
    + intros [H|H]; [right; left; exact H|].
      destruct (IH H) as [Hk|Hk]; [left; exact Hk|right; right; exact Hk].
Qed.

Lemma NoDup_keys_dict_set d k v :
  NoDup (map fst d) -> NoDup (map fst (dict_set d k v)).
Proof.
  induction d as [|[k0 v0] d IH]; simpl; intros Hnd.
  - constructor; [intros []|constructor].
  - inversion Hnd as [|? ? Hnotin Hnd']; subst.
    destruct (String.eqb_spec k k0) as [->|Hne]; simpl.
    + constructor; assumption.
    + constructor; [|auto].
      intros Hin. destruct (dict_set_keys _ _ _ _ Hin) as [Hk|Hk];
        [apply Hne; symmetry; exact Hk|exact (Hnotin Hk)].
Qed.

Lemma NoDup_keys_dict_del d k :
  NoDup (map fst d) -> NoDup (map fst (dict_del d k)).
Proof. apply NoDup_keys_filter. Qed.

Lemma filter_filter {A} (f g : A -> bool) (l : list A) :
  filter f (filter g l) = filter (fun x => g x && f x) l.
Proof.
  induction l as [|x l IH]; simpl; [reflexivity|].
  destruct (g x); simpl; [destruct (f x)|]; rewrite IH; reflexivity.
Qed.

Lemma filter_all {A} (f : A -> bool) (l : list A) :
  (forall x, In x l -> f x = true) -> filter f l = l.
Proof.
  induction l as [|x l IH]; simpl; intros H; [reflexivity|].
  rewrite (H x (or_introl eq_refl)), IH; auto.
Qed.

(** Among unique keys, a key is selected exactly when its entry is. *)
Lemma selected_key d (f : string * V -> bool) kv :
  NoDup (map fst d) -> In kv d ->
  existsb (String.eqb (fst kv)) (map fst (filter f d)) = f kv.
Proof.
  intros Hnd Hin. destruct (f kv) eqn:E.
  - apply existsb_exists. exists (fst kv). split; [|apply String.eqb_refl].
    apply in_map. apply filter_In. auto.
  - destruct (existsb _ _) eqn:Ex; [|reflexivity].
    apply existsb_exists in Ex as (k & Hk & Heq).
    apply String.eqb_eq in Heq. subst k.
    apply in_map_iff in Hk as ([k' v'] & Hfst & Hin').
    apply filter_In in Hin' as [Hin' Hf]. simpl in Hfst. subst k'.
    destruct kv as [k v]. simpl in *.
    pose proof (dict_get_unique d k v Hnd Hin) as G1.
    pose proof (dict_get_unique d k v' Hnd Hin') as G2.
    rewrite G1 in G2. inversion G2; subst. congruence.
Qed.

End DictKeys.

Section CleanupEach.

(** One cleanup step of either path, by what it does to a tracked name:
    [drops] tells whether it runs to its end and drops the record, [asks]
    whether it gets as far as the termination request. *)
Variables (St V : Type) (runners : St -> dict V) (log : St -> list Call)
          (inst : V -> string) (step : string -> St -> St)
          (drops asks : string -> V -> bool).

Hypothesis step_tracked :
  forall n st info,
    dict_get (runners st) n = Some info ->
    runners (step n st)
    = (if drops n info then dict_del (runners st) n else runners st) /\
    exists issued, log (step n st) = log st ++ issued /\
                   Spec.terminations issued
                   = if asks n info then [inst info] else [].

Let asked_of (d : dict V) (n : string) : list string :=
  match dict_get d n with
  | Some info => if asks n info then [inst info] else []
  | None => []
  end.

Let dropped (names : list string) (kv : string * V) : bool :=
  existsb (String.eqb (fst kv)) names && drops (fst kv) (snd kv).

Lemma flat_map_ext_in {A B} (f g : A -> list B) (l : list A) :
  (forall a, In a l -> f a = g a) -> flat_map f l = flat_map g l.
Proof.
  induction l as [|a l IH]; intros H; simpl; [reflexivity|].
  rewrite (H a (or_introl eq_refl)), IH; [reflexivity|].
  intros b Hb. apply H. right. exact Hb.
Qed.

Lemma fold_cleanup (names : list string) :
  forall st,
  NoDup names ->
  NoDup (map fst (runners st)) ->
  (forall n, In n names -> dict_get (runners st) n <> None) ->
  runners (fold_left (fun st n => step n st) names st)
  = filter (fun kv => negb (dropped names kv)) (runners st) /\
  exists issued,
    log (fold_left (fun st n => step n st) names st) = log st ++ issued /\
    Spec.terminations issued = flat_map (asked_of (runners st)) names.
Proof.
  induction names as [|n rest IH]; intros st Hnd Hkeys Htracked; simpl.
  - split; [symmetry; apply filter_all; reflexivity|].
    exists []. rewrite app_nil_r. auto.
  - inversion Hnd as [|? ? Hnotin Hnd']; subst.
    destruct (dict_get (runners st) n) as [info|] eqn:E;
      [|exfalso; exact (Htracked n (or_introl eq_refl) E)].
    destruct (step_tracked n st info E) as (Hr & issued1 & Hl & Ht).
    assert (Hstill : forall m, In m rest ->
                       dict_get (runners (step n st)) m = dict_get (runners st) m).
    { intros m Hm. rewrite Hr. destruct (drops n info); [|reflexivity].
      apply dict_get_del_other. intros ->. contradiction. }
    assert (Hkeys' : NoDup (map fst (runners (step n st)))).
    { rewrite Hr. destruct (drops n info); [|exact Hkeys].
      apply NoDup_keys_dict_del. exact Hkeys. }
    destruct (IH (step n st) Hnd' Hkeys') as (Hr' & issued2 & Hl' & Ht').
    { intros m Hm. rewrite (Hstill m Hm). apply Htracked. right. exact Hm. }
    split.
    + rewrite Hr', Hr.
      assert (Hn : forall v, In (n, v) (runners st) -> drops n v = drops n info).
      { intros v Hin. pose proof (dict_get_unique _ _ _ Hkeys Hin) as G.
        rewrite E in G. inversion G. reflexivity. }
      destruct (drops n info) eqn:Ed.
      * unfold dict_del. rewrite filter_filter.
        apply filter_ext_in. intros [k v] Hin. unfold dropped. simpl.
        rewrite (String.eqb_sym k n).
        destruct (String.eqb_spec n k) as [<-|Hk]; [|reflexivity].
        simpl. rewrite (Hn v Hin). reflexivity.
      * apply filter_ext_in. intros [k v] Hin. unfold dropped. simpl.
        rewrite (String.eqb_sym k n).
        destruct (String.eqb_spec n k) as [<-|Hk]; [|reflexivity].
        simpl. rewrite (Hn v Hin), andb_false_r. reflexivity.
    + exists (issued1 ++ issued2). split.
      * rewrite Hl', Hl, app_assoc. reflexivity.
      * rewrite terminations_app, Ht, Ht'. f_equal.
        -- unfold asked_of. rewrite E. reflexivity.
        -- apply flat_map_ext_in. intros m Hm. unfold asked_of.
           rewrite (Hstill m Hm). reflexivity.
Qed.

Lemma asked_of_entries (d : dict V) (l : list (string * V)) :
  NoDup (map fst d) ->
  (forall kv, In kv l -> In kv d) ->
  flat_map (asked_of d) (map fst l)
  = map (fun kv => inst (snd kv)) (filter (fun kv => asks (fst kv) (snd kv)) l).
Proof.
  intros Hnd. induction l as [|[k v] l IH]; intros Hsub; simpl; [reflexivity|].
  rewrite IH by (intros kv Hkv; apply Hsub; right; exact Hkv).
  unfold asked_of at 1.
  rewrite (dict_get_unique d k v Hnd (Hsub _ (or_introl eq_refl))).
  destruct (asks k v); reflexivity.
Qed.

(** The sweep proper: the names are those of the entries [expired] selects. *)
Lemma fold_cleanup_selected (expired : string * V -> bool) (st : St) :
  NoDup (map fst (runners st)) ->
  let names := map fst (filter expired (runners st)) in
  runners (fold_left (fun st n => step n st) names st)
  = filter (fun kv => negb (expired kv && drops (fst kv) (snd kv))) (runners st) /\
  exists issued,
    log (fold_left (fun st n => step n st) names st) = log st ++ issued /\
    Spec.terminations issued
    = map (fun kv => inst (snd kv))
          (filter (fun kv => expired kv && asks (fst kv) (snd kv)) (runners st)).
Proof.
  intros Hnd names. subst names.
  destruct (fold_cleanup (map fst (filter expired (runners st))) st)
    as (Hr & issued & Hl & Ht).
  - apply NoDup_keys_filter. exact Hnd.
  - exact Hnd.
  - intros n Hn. apply in_map_iff in Hn as ([k v] & Hk & Hin).
    apply filter_In in Hin as [Hin _]. simpl in Hk. subst k.
    exact (In_dict_get _ _ _ Hin).
  - split.
    + rewrite Hr. apply filter_ext_in. intros kv Hin. unfold dropped.
      rewrite (selected_key _ expired kv Hnd Hin). reflexivity.
    + exists issued. split; [exact Hl|].
      rewrite Ht, (asked_of_entries _ _ Hnd), filter_filter; [reflexivity|].
      intros kv Hkv. apply filter_In in Hkv as [Hkv _]. exact Hkv.
Qed.

End CleanupEach.

Section AgeSweeps.

Lemma manager_cleanup_each_fold envs names :
  forall st,
  RunnerManager.cleanup_each envs names st
  = fold_left (fun st n => snd (RunnerManager.cleanup_runner (envs n) n st))
      names st.
Proof. induction names as [|n rest IH]; intros st; simpl; [reflexivity|apply IH]. Qed.

Lemma poller_cleanup_each_fold ec2 self names :
  forall st,
  JobPoller.cleanup_each ec2 self names st
  = fold_left (fun st n => snd (JobPoller._cleanup_runner ec2 self n st)) names st.
Proof. induction names as [|n rest IH]; intros st; simpl; [reflexivity|apply IH]. Qed.

Lemma manager_step_tracked envs n st info :
  dict_get (RunnerManager.active_runners st) n = Some info ->
  RunnerManager.active_runners (snd (RunnerManager.cleanup_runner (envs n) n st))
  = (if Spec.cleanup_completes (envs n) n info
     then dict_del (RunnerManager.active_runners st) n
     else RunnerManager.active_runners st) /\
  exists issued,
    RunnerManager.calls (snd (RunnerManager.cleanup_runner (envs n) n st))
    = RunnerManager.calls st ++ issued /\
    Spec.terminations issued
    = if Spec.deregisters (envs n) n then [RunnerManager.instance_id info] else [].
Proof.
  intros H. destruct (manager_cleanup_present (envs n) _ _ _ H) as (issued & Hd & ->).
  split; [reflexivity|]. exists issued. split; [reflexivity|exact Hd].
Qed.

Lemma poller_step_tracked ec2 self n st info :
  dict_get (JobPoller.active_runners st) n = Some info ->
  JobPoller.active_runners (snd (JobPoller._cleanup_runner ec2 self n st))
  = (if Spec.answered (ec2 (JobPoller.instance_id info))
     then dict_del (JobPoller.active_runners st) n
     else JobPoller.active_runners st) /\
  exists issued,
    JobPoller.calls (snd (JobPoller._cleanup_runner ec2 self n st))
    = JobPoller.calls st ++ issued /\
    Spec.terminations issued = if true then [JobPoller.instance_id info] else [].
Proof.
  intros H.
  destruct (poller_cleanup_present ec2 self _ _ _ H) as (group & Hg & _ & Hr & Hc).
  split; [exact Hr|].
  exists ([EC2_TerminateInstances (JobPoller.instance_id info)] ++ group).
  split; [exact Hc|]. rewrite terminations_app, Hg. reflexivity.
Qed.

End AgeSweeps.

(** X10. The age sweep of the notification path, on a registry with one
    record per name.  When the idle timeout fits a [timedelta] and the cutoff
    [now - runner_idle_timeout] is a [datetime], the sweep cleans up the
    records created before the cutoff, in registry order: it removes
    exactly those of them whose cleanup runs to its end, keeps every other
    record as it is and in order, and asks for one termination per expired
    record whose cleanup gets that far, of that record's instance.
    Otherwise the date arithmetic raises OverflowError and nothing is
    cleaned up. *)
Theorem X10_manager_age_sweep_removes_exactly_the_expired
    (envs : string -> RunnerManager.CleanupEnv) (self : Cfg.Config) (now : Z)
    (st : RunnerManager.State) :
  NoDup (map fst (RunnerManager.active_runners st)) ->
  let cutoff_time := now - 1000000 * Cfg.runner_idle_timeout self in
  let feasible :=
    timedelta_in_range (Cfg.runner_idle_timeout self)
    && datetime_in_range cutoff_time in
  let expired := fun kv : string * RunnerManager.RunnerInfo =>
    RunnerManager.created_at (snd kv) <? cutoff_time in
  let completes := fun kv : string * RunnerManager.RunnerInfo =>
    Spec.cleanup_completes (envs (fst kv)) (fst kv) (snd kv) in
  let reaches_ec2 := fun kv : string * RunnerManager.RunnerInfo =>
    Spec.deregisters (envs (fst kv)) (fst kv) in
  (feasible = true ->
   exists st',
     RunnerManager._cleanup_old_runners envs self now st = Ret st' /\
     RunnerManager.active_runners st'
     = filter (fun kv => negb (expired kv && completes kv))
              (RunnerManager.active_runners st) /\
     exists issued,
       RunnerManager.calls st' = RunnerManager.calls st ++ issued /\
       Spec.terminations issued
       = map (fun kv => RunnerManager.instance_id (snd kv))
             (filter (fun kv => expired kv && reaches_ec2 kv)
                     (RunnerManager.active_runners st))) /\
  (feasible = false ->
   RunnerManager._cleanup_old_runners envs self now st = Raise OverflowError).
Proof.
  intros Hnd cutoff_time feasible expired completes reaches_ec2.
  subst feasible cutoff_time.
  unfold RunnerManager._cleanup_old_runners, timedelta_seconds, datetime_sub.
  destruct (timedelta_in_range (Cfg.runner_idle_timeout self));
    [|split; [discriminate|reflexivity]].
  cbn [bind andb].
  destruct (datetime_in_range (now - 1000000 * Cfg.runner_idle_timeout self));
    [|split; [discriminate|reflexivity]].
  cbn [bind]. split; [intros _|discriminate].
  eexists. split; [reflexivity|].
  unfold RunnerManager.runners_older_than. rewrite manager_cleanup_each_fold.
  exact (fold_cleanup_selected RunnerManager.State RunnerManager.RunnerInfo
           RunnerManager.active_runners RunnerManager.calls
           RunnerManager.instance_id
           (fun n st => snd (RunnerManager.cleanup_runner (envs n) n st))
           (fun n info => Spec.cleanup_completes (envs n) n info)
           (fun n _ => Spec.deregisters (envs n) n)
           (manager_step_tracked envs) expired st Hnd).
Qed.

Lemma X10_manager_age_sweep_witness :
  (exists st',
      RunnerManager._cleanup_old_runners (fun _ => Scenario.quiet_cleanup)
        Scenario.cfg Scenario.late Scenario.after_first = Ret st' /\
      RunnerManager.active_runners st' = []) /\
  RunnerManager._cleanup_old_runners (fun _ => Scenario.quiet_cleanup)
    Scenario.far_timeout Scenario.late Scenario.after_first = Raise OverflowError.
Proof.
  assert (Hnd : NoDup (map fst (RunnerManager.active_runners Scenario.after_first))).
  { change (NoDup ["runner-42-aaaaaaaa"]). constructor; [intros []|constructor]. }
  split.
  - destruct (proj1 (X10_manager_age_sweep_removes_exactly_the_expired
                       (fun _ => Scenario.quiet_cleanup) Scenario.cfg Scenario.late
                       Scenario.after_first Hnd) eq_refl)
      as (st' & Hret & Hrunners & _).
    exists st'. split; [exact Hret|exact Hrunners].
  - exact (proj2 (X10_manager_age_sweep_removes_exactly_the_expired
                    (fun _ => Scenario.quiet_cleanup) Scenario.far_timeout
                    Scenario.late Scenario.after_first Hnd) eq_refl).
Defined.

(** X11. The age sweep of the polling path, on a registry with one record
    per name.  When the idle timeout fits a [timedelta], the sweep cleans up
    the records whose age, at the moment the record is examined, exceeds it:
    it asks for one termination per such record, of that record's instance,
    removes exactly those of them for which no exception escapes the
    termination, and keeps every other record.  When the timeout does not
    fit, the sweep changes nothing and sends nothing. *)
Theorem X11_poller_age_sweep_removes_exactly_the_timed_out
    (ec2 : string -> AWSManager.Termination) (self : Cfg.Config)
    (clock : string -> Z) (st : JobPoller.State) :
  NoDup (map fst (JobPoller.active_runners st)) ->
  let timed_out := fun kv : string * JobPoller.RunnerInfo =>
    1000000 * Cfg.runner_idle_timeout self
    <? clock (fst kv) - JobPoller.created_at (snd kv) in
  let terminated := fun kv : string * JobPoller.RunnerInfo =>
    Spec.answered (ec2 (JobPoller.instance_id (snd kv))) in
  let st' := JobPoller._cleanup_completed_runners ec2 self clock st in
  (timedelta_in_range (Cfg.runner_idle_timeout self) = true ->
   JobPoller.active_runners st'
   = filter (fun kv => negb (timed_out kv && terminated kv))
            (JobPoller.active_runners st) /\
   exists issued,
     JobPoller.calls st' = JobPoller.calls st ++ issued /\
     Spec.terminations issued
     = map (fun kv => JobPoller.instance_id (snd kv))
           (filter timed_out (JobPoller.active_runners st))) /\
  (timedelta_in_range (Cfg.runner_idle_timeout self) = false -> st' = st).
Proof.
  intros Hnd timed_out terminated st'. subst st'.
  unfold JobPoller._cleanup_completed_runners, timedelta_seconds.
  destruct (timedelta_in_range (Cfg.runner_idle_timeout self));
    [|split; [discriminate|reflexivity]].
  split; [intros _|discriminate].
  unfold JobPoller.runners_timed_out. rewrite poller_cleanup_each_fold.
  destruct (fold_cleanup_selected JobPoller.State JobPoller.RunnerInfo
              JobPoller.active_runners JobPoller.calls JobPoller.instance_id
              (fun n st => snd (JobPoller._cleanup_runner ec2 self n st))
              (fun _ info => Spec.answered (ec2 (JobPoller.instance_id info)))
              (fun _ _ => true)
              (poller_step_tracked ec2 self) timed_out st Hnd)
    as (Hr & issued & Hl & Ht).
  split; [exact Hr|]. exists issued. split; [exact Hl|].
  rewrite Ht. f_equal. apply filter_ext. intros kv. apply andb_true_r.
Qed.

Lemma X11_poller_age_sweep_witness :
  JobPoller.active_runners
    (JobPoller._cleanup_completed_runners (fun _ => AWSManager.Answered true)
       Scenario.cfg (fun _ => Scenario.late) Scenario.poller_after) = [] /\
  JobPoller._cleanup_completed_runners (fun _ => AWSManager.Answered true)
    Scenario.far_timeout (fun _ => Scenario.late) Scenario.poller_after
  = Scenario.poller_after.
Proof.
  assert (Hnd : NoDup (map fst (JobPoller.active_runners Scenario.poller_after))).
  { change (NoDup ["runner-42-aaaaaaaa"]). constructor; [intros []|constructor]. }
  split.
  - exact (proj1 (proj1 (X11_poller_age_sweep_removes_exactly_the_timed_out
                           (fun _ => AWSManager.Answered true) Scenario.cfg
                           (fun _ => Scenario.late) Scenario.poller_after Hnd)
                    eq_refl)).
  - exact (proj2 (X11_poller_age_sweep_removes_exactly_the_timed_out
                    (fun _ => AWSManager.Answered true) Scenario.far_timeout
                    (fun _ => Scenario.late) Scenario.poller_after Hnd) eq_refl).
Defined.

(* ================================================================== *)
(** ** The orphan sweep *)

Section Orphans.

Variables (launched_before : AWSManager.Instance -> Z -> result bool)
          (accepts : string -> bool) (tracked : list string) (cutoff : Z).


End Orphans.


(** X13. A queued notification that lacks the marker, whose repository
    URL gives no owner and repository, or that carries a malformed cpu label
    (its cpu values being ASCII text, one of them is no integer literal) is
    dropped before any request is sent: the handler returns [False] and the
    state, request log included, is unchanged.  And whenever the handler
    returns [False], whatever the reason, the registry is unchanged. *)
Theorem X13_unusable_notification_is_dropped_without_request
    (env : RunnerManager.CreateEnv) (self : Cfg.Config)
    (payload : RunnerManager.Payload) (st : RunnerManager.State) :
  (Spec.has_marker (RunnerManager.job_labels payload) = false \/
   Spec.usable_repository (RunnerManager.repo_html_url payload) = false \/
   (forallb Spec.cpu_value_ascii (RunnerManager.job_labels payload) = true /\
    forallb Spec.cpu_value_ok (RunnerManager.job_labels payload) = false) ->
   RunnerManager.handle_workflow_job_queued env self payload st = (false, st)) /\
  (fst (RunnerManager.handle_workflow_job_queued env self payload st) = false ->
   RunnerManager.active_runners
     (snd (RunnerManager.handle_workflow_job_queued env self payload st))
   = RunnerManager.active_runners st).
Proof.
  unfold RunnerManager.handle_workflow_job_queued, Spec.has_marker,
    Spec.usable_repository.
  pose proof (manager_parse_items_total (RunnerManager.job_labels payload)
                (RunnerManager.default_config self)) as Hparse.
  fold (RunnerManager.parse_runs_on_config self (RunnerManager.job_labels payload))
    in Hparse.
  destruct (existsb _ (RunnerManager.job_labels payload)); simpl negb; cbv iota;
    [|split; reflexivity].
  destruct (GitHubClient.parse_repository_from_url _) as [[o|] [r|]];
    try (split; reflexivity).
  destruct (String.eqb o ""); simpl; [split; reflexivity|].
  destruct (String.eqb r ""); simpl; [split; reflexivity|].
  destruct (forallb Spec.cpu_value_ok (RunnerManager.job_labels payload)).
  - destruct Hparse as [c ->]. split.
    + intros [H|[H|[_ H]]]; discriminate.
    + unfold RunnerManager.create_runner.
      destruct (negb (truthy (RunnerManager.reg_token env))); [reflexivity|].
      destruct (RunnerManager.spot_instance env) as [i|]; [|reflexivity].
      destruct (String.eqb i ""); [reflexivity|discriminate].
  - rewrite Hparse. split; reflexivity.
Qed.

Lemma X13_unusable_notification_witness :
  RunnerManager.handle_workflow_job_queued Scenario.first_delivery Scenario.cfg
    Scenario.queued_bad_cpu Scenario.after_first = (false, Scenario.after_first).
Proof.
  exact (proj1 (X13_unusable_notification_is_dropped_without_request
                  Scenario.first_delivery Scenario.cfg Scenario.queued_bad_cpu
                  Scenario.after_first)
           (or_intror (or_intror (conj eq_refl eq_refl)))).
Defined.

(** X14. The scale set cache answers a repeated question: once
    [_get_or_create_scale_set] has returned a non-empty id for a name, asking
    again for that name returns the same id from the cache, without any
    request and without changing the state, whatever the provider would now
    answer. *)
Theorem X14_scale_set_cache_answers_second_call
    (env1 env2 : JobPoller.CreateEnv) (org scale_set_name : string)
    (st : JobPoller.State) :
  let first := JobPoller._get_or_create_scale_set env1 org scale_set_name st in
  truthy (fst first) = true ->
  JobPoller._get_or_create_scale_set env2 org scale_set_name (snd first) = first.
Proof.
  intros first. subst first.
  destruct (JobPoller._get_or_create_scale_set env1 org scale_set_name st)
    as [r st1] eqn:E1.
  cbn [fst snd]. intros Hr.
  assert (Hcached : dict_get (JobPoller.scale_sets st1) scale_set_name = r).
  { unfold JobPoller._get_or_create_scale_set in E1.
    destruct (dict_get (JobPoller.scale_sets st) scale_set_name) as [cached|] eqn:E.
    - inversion E1; subst. exact E.
    - destruct (JobPoller.existing_scale_sets env1) as [|sid rest].
      + destruct (JobPoller.created_scale_set env1) as [sid|].
        * destruct (String.eqb sid "") eqn:Es; inversion E1; subst.
          -- simpl in Hr. rewrite Es in Hr. discriminate.
          -- apply dict_get_set_same.
        * inversion E1; subst. discriminate.
      + inversion E1; subst. apply dict_get_set_same. }
  unfold JobPoller._get_or_create_scale_set. rewrite Hcached.
  destruct r; [reflexivity|discriminate].
Qed.

Lemma X14_scale_set_cache_witness :
  JobPoller._get_or_create_scale_set Scenario.token_refused "acme" "scaleset-42"
    (snd (JobPoller._get_or_create_scale_set Scenario.all_fine "acme"
            "scaleset-42" Scenario.empty_poller))
  = JobPoller._get_or_create_scale_set Scenario.all_fine "acme" "scaleset-42"
      Scenario.empty_poller.
Proof.
  exact (X14_scale_set_cache_answers_second_call Scenario.all_fine
           Scenario.token_refused "acme" "scaleset-42" Scenario.empty_poller
           eq_refl).
Defined.

(** X15. Cleanup deletes the scale set a runner was registered under even
    when that scale set was found at the provider and reused rather than
    created: after a provisioning that reused scale set [sid], cleaning the
    runner up asks for the termination of its instance and then, unless an
    exception escapes that request, sends a delete request for [sid], evicts
    the cache entry and drops the record; no create request was ever sent.
    When an exception does escape the termination request, nothing follows
    it: no delete request, and cache entry and record stay. *)
Theorem X15_cleanup_deletes_a_reused_scale_set
    (env : JobPoller.CreateEnv) (ec2 : string -> AWSManager.Termination)
    (self : Cfg.Config)
    (org : string) (job : JobPoller.Job) (st : JobPoller.State)
    (c : JobPoller.RunnerConfig) (sid i : string) (others : list string) :
  let runner_name :=
    JobPoller.runner_name_of (JobPoller.job_id job) (JobPoller.runner_uuid4_hex env) in
  let scale_set_name :=
    JobPoller.scale_set_name_of (JobPoller.job_id job)
      (JobPoller.scale_set_uuid4_hex env) in
  JobPoller._parse_runner_config self (JobPoller.job_labels job) = Ret c ->
  dict_get (JobPoller.scale_sets st) scale_set_name = None ->
  JobPoller.existing_scale_sets env = sid :: others ->
  sid <> "" ->
  truthy (JobPoller.registration_token env) = true ->
  JobPoller.spot_instance env = Some i ->
  i <> "" ->
  Cfg.github_org self <> "" ->
  let st1 := JobPoller._create_runner_for_job env self org job st in
  let st2 := snd (JobPoller._cleanup_runner ec2 self runner_name st1) in
  let sent :=
    JobPoller.calls st ++
    [GH_ListScaleSets org; GH_OrgRegistrationToken org;
     EC2_RequestSpotInstances runner_name (JobPoller.instance_type c)
       (JobPoller.ami_id c) (JobPoller.max_price c);
     EC2_TerminateInstances i] in
  (Spec.answered (ec2 i) = true ->
   JobPoller.calls st2 = sent ++ [GH_DeleteScaleSet (Cfg.github_org self) sid] /\
   dict_get (JobPoller.scale_sets st2) scale_set_name = None /\
   dict_get (JobPoller.active_runners st2) runner_name = None) /\
  (Spec.answered (ec2 i) = false ->
   JobPoller.calls st2 = sent /\
   dict_get (JobPoller.scale_sets st2) scale_set_name = Some sid /\
   exists info,
     dict_get (JobPoller.active_runners st2) runner_name = Some info /\
     JobPoller.instance_id info = i).
Proof.
  intros runner_name scale_set_name Hparse Hcache Hfound Hsid Htok Hinst Hi Horg
    st1 st2 sent.
  assert (H1 : st1 =
    {| JobPoller.active_runners :=
         dict_set (JobPoller.active_runners st) runner_name
           {| JobPoller.info_job_id := JobPoller.job_id job;
              JobPoller.instance_id := i;
              JobPoller.scale_set_id := sid;
              JobPoller.scale_set_name := scale_set_name;
              JobPoller.info_repository := JobPoller.repository job;
              JobPoller.created_at := JobPoller.now env;
              JobPoller.status := "starting";
              JobPoller.config := c |};
       JobPoller.scale_sets := dict_set (JobPoller.scale_sets st) scale_set_name sid;
       JobPoller.calls :=
         JobPoller.calls st ++
         [GH_ListScaleSets org; GH_OrgRegistrationToken org;
          EC2_RequestSpotInstances runner_name (JobPoller.instance_type c)
            (JobPoller.ami_id c) (JobPoller.max_price c)] |}).
  { subst st1. unfold JobPoller._create_runner_for_job.
    rewrite Hparse. fold runner_name scale_set_name.
    unfold JobPoller._get_or_create_scale_set. rewrite Hcache, Hfound.
    destruct (String.eqb_spec sid ""); [contradiction|].
    rewrite Htok, Hinst. cbn [negb].
    destruct (String.eqb_spec i ""); [contradiction|].
    unfold JobPoller.log. cbn [JobPoller.active_runners JobPoller.scale_sets
                                 JobPoller.calls].
    rewrite <- !app_assoc. reflexivity. }
  subst st2 sent. rewrite H1. unfold JobPoller._cleanup_runner.
  cbn [JobPoller.active_runners JobPoller.scale_sets JobPoller.calls].
  rewrite dict_get_set_same.
  cbn [JobPoller.instance_id JobPoller.scale_set_id JobPoller.scale_set_name].
  unfold AWSManager.terminate_instance_raising, AWSManager.terminate_instance.
  destruct (ec2 i) as [accepted|e]; cbn [Spec.answered];
    (split; [|discriminate]) || (split; [discriminate|]); intros _.
  - destruct (String.eqb_spec sid ""); [contradiction|].
    destruct (String.eqb_spec (Cfg.github_org self) ""); [contradiction|].
    cbn [snd JobPoller.active_runners JobPoller.scale_sets JobPoller.calls].
    split; [rewrite <- !app_assoc; reflexivity|].
    split; apply dict_get_del_same.
  - cbn [snd JobPoller.active_runners JobPoller.scale_sets JobPoller.calls].
    split; [rewrite <- !app_assoc; reflexivity|].
    split; [apply dict_get_set_same|].
    eexists. split; [apply dict_get_set_same|reflexivity].
Qed.

Lemma X15_cleanup_deletes_a_reused_scale_set_witness :
  Spec.terminations
    (JobPoller.calls
       (snd (JobPoller._cleanup_runner (fun _ => AWSManager.Answered true)
               Scenario.cfg "runner-42-aaaaaaaa"
               (JobPoller._create_runner_for_job Scenario.group_found Scenario.cfg
                  "acme" Scenario.job42 Scenario.empty_poller))))
    = ["i-0001"] /\
  count_calls is_delete_scale_set
    (JobPoller.calls
       (snd (JobPoller._cleanup_runner (fun _ => AWSManager.Answered true)
               Scenario.cfg "runner-42-aaaaaaaa"
               (JobPoller._create_runner_for_job Scenario.group_found Scenario.cfg
                  "acme" Scenario.job42 Scenario.empty_poller)))) = 1%nat.
Proof.
  assert (Hsid : "3" <> "") by discriminate.
  assert (Hi : "i-0001" <> "") by discriminate.
  assert (Horg : Cfg.github_org Scenario.cfg <> "") by discriminate.
  pose proof (proj1 (proj1 (X15_cleanup_deletes_a_reused_scale_set
                       Scenario.group_found (fun _ => AWSManager.Answered true)
                       Scenario.cfg "acme"
                       Scenario.job42 Scenario.empty_poller _ "3" "i-0001" []
                       eq_refl eq_refl eq_refl Hsid eq_refl eq_refl Hi Horg)
                     eq_refl)) as H.
  cbv zeta in H.
  change (JobPoller.runner_name_of (JobPoller.job_id Scenario.job42)
            (JobPoller.runner_uuid4_hex Scenario.group_found))
    with "runner-42-aaaaaaaa" in H.
  rewrite H. split; reflexivity.
Defined.

(* ================================================================== *)
(** ** Dispatch of notifications *)

Section Dispatch.

Variable hmac_sha256_hexdigest : string -> string -> string.

(** Splitting a string into concrete characters, as far as a literal goes. *)
Ltac by_characters s :=
  repeat (destruct s as [|[[] [] [] [] [] [] [] []] s]; try reflexivity).

Lemma action_cases {A} (action : option string) (queued finished none : A)
    (other : string -> A) :
  match action with
  | Some "queued" => queued
  | Some "completed" | Some "cancelled" => finished
  | Some a => other a
  | None => none
  end
  = match action with
    | Some a =>
        if String.eqb a "queued" then queued
        else if String.eqb a "completed" || String.eqb a "cancelled" then finished
        else other a
    | None => none
    end.
Proof. destruct action as [a|]; [|reflexivity]. by_characters a. Qed.

Lemma handle_workflow_job_event_cases env self body st :
  WebhookServer._handle_workflow_job_event env self body st
  = match WebhookServer.action body with
    | Some a =>
        if String.eqb a "queued" then
          (Message 200
             (if fst (RunnerManager.handle_workflow_job_queued
                        (WebhookServer.create_env env) self
                        (WebhookServer.payload body) st)
              then "Runner creation initiated"
              else "Runner creation not needed or failed"),
           snd (RunnerManager.handle_workflow_job_queued
                  (WebhookServer.create_env env) self
                  (WebhookServer.payload body) st))
        else if String.eqb a "completed" || String.eqb a "cancelled" then
          (Message 200 "Job completion handled",
           snd (RunnerManager.handle_workflow_job_completed
                  (WebhookServer.cleanup_env env) (WebhookServer.payload body) st))
        else (Message 200 ("Action " ++ a ++ " ignored"), st)
    | None => (Message 200 "Action None ignored", st)
    end.
Proof.
  unfold WebhookServer._handle_workflow_job_event.
  rewrite action_cases.
  destruct (WebhookServer.action body) as [a|]; [|reflexivity].
  destruct (RunnerManager.handle_workflow_job_queued _ self _ st) as [[|] sq];
    destruct (RunnerManager.handle_workflow_job_completed _ _ st) as [bc sc];
    reflexivity.
Qed.

Lemma event_cases {A} (event : option string) (yes no : A) :
  match event with
  | Some "workflow_job" => yes
  | _ => no
  end
  = match event with
    | Some e => if String.eqb e "workflow_job" then yes else no
    | None => no
    end.
Proof. destruct event as [e|]; [|reflexivity]. by_characters e. Qed.

End Dispatch.

(** X16. Dispatch of a notification.  The handler changes the state only
    for a request whose signature verified, whose body is a JSON object with
    at least one key, whose event is [workflow_job] and whose action is
    [queued], [completed] or [cancelled]; every other request leaves registry
    and request log as they were.  A verified [workflow_job] notification
    with such a body is always answered 200, whether or not a runner was
    created or cleaned up.  A verified request whose body cannot be parsed,
    or is a value other than an object, is answered 500; one whose body is
    missing or an empty value is answered 400. *)
Theorem X16_dispatch_touches_state_only_for_job_events
    (hmac_sha256_hexdigest : string -> string -> string)
    (env : WebhookServer.Env) (self : Cfg.Config)
    (config : WebhookServer.ConfigView) (request : WebhookServer.Request)
    (st : RunnerManager.State) :
  let verified :=
    WebhookServer._verify_signature hmac_sha256_hexdigest config
      (WebhookServer.data request) (WebhookServer.x_hub_signature_256 request) in
  let result :=
    WebhookServer._handle_webhook hmac_sha256_hexdigest env self config request st in
  (snd result = st \/
   (verified = Ret true /\
    WebhookServer.x_github_event request = Some "workflow_job" /\
    exists body,
      WebhookServer.get_json request = WebhookServer.JsonObject body /\
      (WebhookServer.action body = Some "queued" \/
       WebhookServer.action body = Some "completed" \/
       WebhookServer.action body = Some "cancelled"))) /\
  (verified = Ret true ->
   WebhookServer.x_github_event request = Some "workflow_job" ->
   forall body, WebhookServer.get_json request = WebhookServer.JsonObject body ->
   exists text, fst result = Message 200 text) /\
  (verified = Ret true ->
   match WebhookServer.get_json request with
   | WebhookServer.JsonRaises | WebhookServer.JsonNoObject =>
       result = (Error 500 "Internal server error", st)
   | WebhookServer.JsonFalsy => result = (Error 400 "Invalid JSON payload", st)
   | WebhookServer.JsonObject _ => exists text, fst result = Message 200 text
   end).
Proof.
  intros verified result. subst verified result.
  unfold WebhookServer._handle_webhook.
  destruct (WebhookServer._verify_signature _ config _ _) as [[|]|e];
    [|split; [left; reflexivity|split; discriminate] ..].
  destruct (WebhookServer.get_json request) as [| | |body];
    [split; [left; reflexivity|split; [discriminate|reflexivity]] ..|].
  rewrite event_cases.
  destruct (WebhookServer.x_github_event request) as [event|];
    [|split; [left; reflexivity|split; [discriminate|intros _; eexists; reflexivity]]].
  destruct (String.eqb_spec event "workflow_job") as [->|Hevent];
    [|split; [left; reflexivity
             |split; [intros _ H; inversion H; contradiction
                     |intros _; eexists; reflexivity]]].
  rewrite handle_workflow_job_event_cases.
  destruct (WebhookServer.action body) as [a|] eqn:Ea.
  - assert (Hjob : forall P : Prop,
              (WebhookServer.action body = Some "queued" \/
               WebhookServer.action body = Some "completed" \/
               WebhookServer.action body = Some "cancelled") ->
              P \/ (Ret true = Ret true :> result bool) /\
                   Some "workflow_job" = Some "workflow_job" /\
                   exists body0,
                     WebhookServer.JsonObject body = WebhookServer.JsonObject body0 /\
                     (WebhookServer.action body0 = Some "queued" \/
                      WebhookServer.action body0 = Some "completed" \/
                      WebhookServer.action body0 = Some "cancelled")).
    { intros P H. right. split; [reflexivity|]. split; [reflexivity|].
      exists body. split; [reflexivity|exact H]. }
    destruct (String.eqb_spec a "queued") as [->|Hq].
    { split; [apply Hjob; rewrite Ea; auto|].
      split; [intros _ _ b Hb|intros _]; eexists; reflexivity. }
    destruct (String.eqb_spec a "completed") as [->|Hc].
    { split; [apply Hjob; rewrite Ea; auto|].
      split; [intros _ _ b Hb|intros _]; eexists; reflexivity. }
    destruct (String.eqb_spec a "cancelled") as [->|Hx].
    { split; [apply Hjob; rewrite Ea; auto|].
      split; [intros _ _ b Hb|intros _]; eexists; reflexivity. }
    split; [left; reflexivity|].
    split; [intros _ _ b Hb|intros _]; eexists; reflexivity.
  - split; [left; reflexivity|].
    split; [intros _ _ b Hb|intros _]; eexists; reflexivity.
Qed.

(* ================================================================== *)
(** ** The listing of queued jobs *)

Section QueuedJobs.

Let reported (repos : list string) (job : JobPoller.Job) : Prop :=
  Spec.has_marker (JobPoller.job_labels job) = true /\
  In (JobPoller.repository job) repos.

Lemma scan_jobs_reported repo (jobs : list GitHubAPIClient.RawJob) :
  forall acc job,
  In job (fst (GitHubAPIClient.scan_jobs repo jobs acc)) ->
  In job acc \/ reported [repo] job.
Proof.
  induction jobs as [|raw rest IH]; intros acc job; simpl; [auto|].
  destruct (GitHubAPIClient.wanted raw) eqn:Ew; [|apply IH].
  destruct (GitHubAPIClient.raw_id raw) as [id|]; [|simpl; auto].
  destruct (GitHubAPIClient.raw_created_at raw); [|simpl; auto].
  intros H. apply IH in H as [H|H]; [|auto].
  apply in_app_or in H as [H|[<-|[]]]; [auto|].
  right. split; [|left; reflexivity].
  unfold GitHubAPIClient.wanted in Ew.
  apply andb_true_iff in Ew as [_ Ew]. exact Ew.
Qed.

Lemma scan_runs_reported repo (runs : list GitHubAPIClient.Run) :
  forall acc job,
  In job (GitHubAPIClient.scan_runs repo runs acc) ->
  In job acc \/ reported [repo] job.
Proof.
  induction runs as [|run rest IH]; intros acc job; simpl; [auto|].
  destruct (GitHubAPIClient.run_id run); [|auto].
  destruct (GitHubAPIClient.jobs_reply run) as [code jobs|]; [|auto].
  destruct (code =? 200); [|apply IH].
  pose proof (scan_jobs_reported repo jobs acc job) as Hjobs.
  destruct (GitHubAPIClient.scan_jobs repo jobs acc) as [acc' raised].
  simpl in Hjobs. destruct raised; [exact Hjobs|].
  intros H. apply IH in H as [H|H]; auto.
Qed.

Lemma scan_repos_reported env (repos : list string) :
  forall acc job,
  In job (GitHubAPIClient.scan_repos env repos acc) ->
  In job acc \/ reported repos job.
Proof.
  induction repos as [|repo rest IH]; intros acc job; simpl; [auto|].
  assert (Hweaken : reported rest job -> reported (repo :: rest) job).
  { intros [Hm Hin]. split; [exact Hm|right; exact Hin]. }
  destruct (GitHubAPIClient.runs_reply env repo) as [code runs|].
  - destruct (code =? 200).
    + intros H. apply IH in H as [H|H]; [|auto].
      apply scan_runs_reported in H as [H|[Hm [Heq|[]]]]; [auto|].
      right. split; [exact Hm|left; exact Heq].
    + intros H. apply IH in H as [H|H]; auto.
  - intros H. apply IH in H as [H|H]; auto.
Qed.

End QueuedJobs.

(** X17. What [get_queued_jobs] reports: every reported job carries the
    correlation marker, and comes from the one repository asked for or, when
    none is given, from one of the first ten repositories of an organization
    listing answered 200.  For such a job the poller's decision to provision
    therefore depends only on whether a record for its job id is tracked. *)
Theorem X17_reported_jobs_carry_the_marker
    (env : GitHubAPIClient.QueueEnv) (org : string) (repo : option string)
    (job : JobPoller.Job) :
  In job (GitHubAPIClient.get_queued_jobs env org repo) ->
  Spec.has_marker (JobPoller.job_labels job) = true /\
  (forall r, repo = Some r -> r <> "" ->
             JobPoller.repository job = (org ++ "/" ++ r)%string) /\
  (truthy repo = false ->
   exists full_names,
     GitHubAPIClient.repos_reply env = GitHubAPIClient.ReposResponse 200 full_names /\
     In (JobPoller.repository job) (firstn 10 full_names)) /\
  (forall st,
      JobPoller._should_create_runner_for_job job st
      = negb (existsb (fun kv => JobPoller.info_job_id (snd kv)
                                 =? JobPoller.job_id job)
                      (JobPoller.active_runners st))).
Proof.
  intros Hin.
  assert (Hmarker : Spec.has_marker (JobPoller.job_labels job) = true /\
                    (forall r, repo = Some r -> r <> "" ->
                       JobPoller.repository job = (org ++ "/" ++ r)%string) /\
                    (truthy repo = false ->
                     exists full_names,
                       GitHubAPIClient.repos_reply env
                       = GitHubAPIClient.ReposResponse 200 full_names /\
                       In (JobPoller.repository job) (firstn 10 full_names))).
  { unfold GitHubAPIClient.get_queued_jobs in Hin.
    destruct repo as [r|]; simpl truthy in *.
    - destruct (String.eqb_spec r "") as [->|Hr]; simpl negb in *; cbv iota in Hin.
      + destruct (GitHubAPIClient.repos_reply env) as [code names|]; [|contradiction].
        destruct (Z.eqb_spec code 200) as [->|]; [|contradiction].
        apply scan_repos_reported in Hin as [[]|[Hm Hrepo]].
        split; [exact Hm|]. split; [intros r' Hr' Hne; inversion Hr'; congruence|].
        intros _. eauto.
      + apply scan_repos_reported in Hin as [[]|[Hm [Hrepo|[]]]].
        split; [exact Hm|]. split; [|discriminate].
        intros r' Hr' _. inversion Hr'; subst. symmetry. exact Hrepo.
    - destruct (GitHubAPIClient.repos_reply env) as [code names|]; [|contradiction].
      destruct (Z.eqb_spec code 200) as [->|]; [|contradiction].
      apply scan_repos_reported in Hin as [[]|[Hm Hrepo]].
      split; [exact Hm|]. split; [discriminate|]. intros _. eauto. }
  destruct Hmarker as (Hm & Hr & Hn). repeat split; try assumption.
  intros st. unfold JobPoller._should_create_runner_for_job.
  unfold Spec.has_marker in Hm. rewrite Hm. simpl.
  destruct (existsb _ (JobPoller.active_runners st)); reflexivity.
Qed.

Lemma X17_reported_jobs_witness :
  Spec.has_marker
    (JobPoller.job_labels
       {| JobPoller.job_id := 42;
          JobPoller.job_labels := [PyStr "runs-on=42"; PyStr "cpu=4"];
          JobPoller.repository := "acme/app" |}) = true.
Proof.
  refine (proj1 (X17_reported_jobs_carry_the_marker Scenario.listing "acme" None
                   _ _)).
  left. reflexivity.
Defined.

Section Credentials.

Lemma ensure_result env time_checked org self b self' :
  GitHubAPIClient._ensure_valid_credentials env time_checked org self = (b, self') ->
  (exists issued,
      GitHubAPIClient.sent self' = GitHubAPIClient.sent self ++ issued /\
      (List.length issued <= 2)%nat) /\
  (b = true ->
   GitHubAPIClient._jwt_token self' <> None /\
   GitHubAPIClient._pipeline_url self' <> None).
Proof.
  unfold GitHubAPIClient._ensure_valid_credentials.
  destruct (GitHubAPIClient.is_None (GitHubAPIClient._jwt_token self)
            || GitHubAPIClient.is_None (GitHubAPIClient._pipeline_url self)
            || (GitHubAPIClient._jwt_expires self <=? time_checked)) eqn:Estale.
  - unfold GitHubAPIClient.get_runner_admin_credentials.
    destruct (negb (truthy (GitHubAPIClient.registration_token env))).
    + intros H; inversion H; subst. cbn. split; [|discriminate].
      exists [GitHubAPIClient.POST_registration_token org].
      split; [reflexivity|simpl; lia].
    + destruct (GitHubAPIClient.registration env) as [[t|] [u|]|];
        intros H; inversion H; subst; cbn;
        (split;
         [exists [GitHubAPIClient.POST_registration_token org;
                  GitHubAPIClient.POST_runner_registration org];
          split; [rewrite <- app_assoc; reflexivity|simpl; lia]|]);
        try discriminate.
      intros _. split; discriminate.
  - intros H; inversion H; subst.
    split; [exists []; rewrite app_nil_r; split; [reflexivity|simpl; lia]|].
    intros _.
    apply orb_false_iff in Estale as [Estale _].
    apply orb_false_iff in Estale as [Htok Hurl].
    split; [destruct (GitHubAPIClient._jwt_token self'); discriminate
           |destruct (GitHubAPIClient._pipeline_url self'); discriminate].
Qed.

Lemma ensure_cached env later org (self : GitHubAPIClient.Client) :
  GitHubAPIClient._jwt_token self <> None ->
  GitHubAPIClient._pipeline_url self <> None ->
  later < GitHubAPIClient._jwt_expires self ->
  GitHubAPIClient._ensure_valid_credentials env later org self = (true, self).
Proof.
  intros Htok Hurl Hlater. unfold GitHubAPIClient._ensure_valid_credentials.
  destruct (GitHubAPIClient._jwt_token self); [|contradiction].
  destruct (GitHubAPIClient._pipeline_url self); [|contradiction].
  simpl. destruct (Z.leb_spec (GitHubAPIClient._jwt_expires self) later);
    [lia|reflexivity].
Qed.

End Credentials.

(** X18. The credential cache of the API client.  Whenever
    [_ensure_valid_credentials] returns [True], the client holds both a token
    and a pipeline URL; and from then until the stored expiry every further
    call returns [True] at once, without sending a request and without
    changing the client, whatever the remote side would answer.  One call
    sends at most two requests. *)
Theorem X18_valid_credentials_are_cached
    (env : GitHubAPIClient.RefreshEnv) (time_checked : Z) (org : string)
    (self : GitHubAPIClient.Client) :
  let self' :=
    snd (GitHubAPIClient._ensure_valid_credentials env time_checked org self) in
  (exists issued,
      GitHubAPIClient.sent self' = GitHubAPIClient.sent self ++ issued /\
      (List.length issued <= 2)%nat) /\
  (fst (GitHubAPIClient._ensure_valid_credentials env time_checked org self) = true ->
   GitHubAPIClient._jwt_token self' <> None /\
   GitHubAPIClient._pipeline_url self' <> None /\
   forall env' later,
     later < GitHubAPIClient._jwt_expires self' ->
     GitHubAPIClient._ensure_valid_credentials env' later org self' = (true, self')).
Proof.
  intros self'. subst self'.
  destruct (GitHubAPIClient._ensure_valid_credentials env time_checked org self)
    as [b c] eqn:E.
  destruct (ensure_result _ _ _ _ _ _ E) as [Hsent Hvalid].
  cbn [fst snd]. split; [exact Hsent|].
  intros ->. destruct (Hvalid eq_refl) as [Htok Hurl].
  split; [exact Htok|]. split; [exact Hurl|].
  intros env' later Hlater. apply ensure_cached; assumption.
Qed.

Lemma X18_valid_credentials_witness :
  GitHubAPIClient._ensure_valid_credentials Scenario.refresh_down 8599 "acme"
    (snd (GitHubAPIClient._ensure_valid_credentials Scenario.refresh_ok 5000
            "acme" GitHubAPIClient.init))
  = (true,
     snd (GitHubAPIClient._ensure_valid_credentials Scenario.refresh_ok 5000
            "acme" GitHubAPIClient.init)).
Proof.
  refine (proj2 (proj2 (proj2 (X18_valid_credentials_are_cached
                                 Scenario.refresh_ok 5000 "acme"
                                 GitHubAPIClient.init) eq_refl))
            Scenario.refresh_down 8599 _).
  vm_compute. reflexivity.
Defined.



Section Listing.

Lemma runner_name_of_written_tags (others : list (string * string))
    (runner_name : string) :
  (forall key value, In (key, value) others -> key <> "RunnerName") ->
  AWSManager.runner_name_of_tags others = None /\
  AWSManager.runner_name_of_tags (others ++ AWSManager.runner_tags runner_name)
  = Some runner_name.
Proof.
  intros Hothers.
  induction others as [|[k v] rest IH]; [split; reflexivity|].
  cbn [app AWSManager.runner_name_of_tags].
  destruct (String.eqb_spec k "RunnerName") as [->|_].
  - exfalso. exact (Hothers _ v (or_introl eq_refl) eq_refl).
  - apply IH. intros key value Hin. apply (Hothers key value). right. exact Hin.
Qed.

(** The listing, entry by entry. *)
Lemma list_runner_instances_entries (reservations : list (list AWSManager.Described)) :
  AWSManager.list_runner_instances (Some reservations)
  = map (fun d => {| AWSManager.inst_id := AWSManager.InstanceId d;
                     AWSManager.inst_runner_name :=
                       AWSManager.runner_name_of_tags (AWSManager.Tags d);
                     AWSManager.launch_time := AWSManager.LaunchTime d |})
        (List.concat reservations).
Proof.
  unfold AWSManager.list_runner_instances.
  induction reservations as [|r rs IH]; [reflexivity|].
  cbn [flat_map List.concat]. rewrite map_app, IH. reflexivity.
Qed.

End Listing.

(** X20. Tagging and listing fit together.  [list_runner_instances]
    lists the instances of all reservations, one entry each and in order;
    the entry of an instance that carries the tags [_tag_instance] writes for
    a runner (after any tags without the key [RunnerName]) holds the
    instance's id and launch time and that runner's name, and the entry of
    an instance without a [RunnerName] tag holds no name.  A ClientError
    gives the empty list. *)
Theorem X20_listing_reads_back_the_runner_tag :
  (forall reservations,
      map AWSManager.inst_id (AWSManager.list_runner_instances (Some reservations))
      = map AWSManager.InstanceId (List.concat reservations)) /\
  AWSManager.list_runner_instances None = [] /\
  (forall reservations k d,
      nth_error (List.concat reservations) k = Some d ->
      exists entry,
        nth_error (AWSManager.list_runner_instances (Some reservations)) k
        = Some entry /\
        AWSManager.inst_id entry = AWSManager.InstanceId d /\
        AWSManager.launch_time entry = AWSManager.LaunchTime d /\
        (forall others runner_name,
            (forall key value, In (key, value) others -> key <> "RunnerName") ->
            (AWSManager.Tags d = others ++ AWSManager.runner_tags runner_name ->
             AWSManager.inst_runner_name entry = Some runner_name) /\
            (AWSManager.Tags d = others ->
             AWSManager.inst_runner_name entry = None))).
Proof.
  split; [|split; [reflexivity|]].
  - intros reservations. rewrite list_runner_instances_entries, map_map.
    reflexivity.
  - intros reservations k d Hd. rewrite list_runner_instances_entries.
    eexists. split; [apply map_nth_error; exact Hd|].
    cbn [AWSManager.inst_id AWSManager.launch_time AWSManager.inst_runner_name].
    split; [reflexivity|]. split; [reflexivity|].
    intros others runner_name Hothers.
    destruct (runner_name_of_written_tags others runner_name Hothers) as [Hnone Hsome].
    split; intros ->; assumption.
Qed.

Lemma X20_listing_witness :
  exists entry,
    nth_error
      (AWSManager.list_runner_instances
         (Some [[]; [Scenario.untagged; Scenario.tagged_runner]])) 1 = Some entry /\
    AWSManager.inst_id entry = "i-0001" /\
    AWSManager.inst_runner_name entry = Some "runner-42-aaaaaaaa".
Proof.
  destruct (proj2 (proj2 X20_listing_reads_back_the_runner_tag)
              [[]; [Scenario.untagged; Scenario.tagged_runner]] 1%nat
              Scenario.tagged_runner eq_refl)
    as (entry & Hnth & Hid & _ & Htags).
  exists entry. split; [exact Hnth|]. split; [exact Hid|].
  refine (proj1 (Htags [("aws:ec2spot:fleet-request-id", "sfr-1")]
                   "runner-42-aaaaaaaa" _) eq_refl).
  intros key value [H|[]]. inversion H. discriminate.
Defined.

(* ================================================================== *)
(** ** A job from queued to completed *)

Section QueuedThenCompleted.

Lemma append_assoc3 (a b c : string) : ((a ++ b) ++ c = a ++ (b ++ c))%string.
Proof. induction a as [|x a IH]; simpl; [reflexivity|rewrite IH; reflexivity]. Qed.

Lemma runner_name_matches job_id uuid4_hex :
  contains ("runner-" ++ str_of_int job_id)
    (RunnerManager.runner_name_of job_id uuid4_hex) = true.
Proof.
  unfold RunnerManager.runner_name_of. apply prefix_contains.
  change ("runner-" ++ str_of_int job_id ++ "-" ++ take 8 uuid4_hex)%string
    with ("runner-" ++ (str_of_int job_id ++ ("-" ++ take 8 uuid4_hex)))%string.
  rewrite <- append_assoc3. apply prefix_app_refl.
Qed.

Context {V : Type}.

(** Inserting under a name that matches, when nothing tracked matches:
    the new entry is the one a scan by name finds, and deleting it again
    gives the dict back. *)
Lemma find_after_set (f : string -> bool) (d : dict V) k v :
  find (fun kv => f (fst kv)) d = None -> f k = true ->
  find (fun kv => f (fst kv)) (dict_set d k v) = Some (k, v) /\
  dict_del (dict_set d k v) k = d.
Proof.
  intros Hnone Hk. unfold dict_del.
  induction d as [|[k' v'] d IH]; simpl in *.
  - rewrite Hk, String.eqb_refl. auto.
  - destruct (f k') eqn:Ek'; [discriminate|].
    destruct (String.eqb_spec k k') as [->|Hne]; [congruence|].
    simpl. rewrite Ek'. destruct (IH Hnone) as [Hfind Hdel].
    destruct (String.eqb_spec k k'); [contradiction|].
    simpl. rewrite Hdel. auto.
Qed.

End QueuedThenCompleted.

(** X5. From queued to completed on the notification path.  When no
    tracked name contains [runner-<J>], a queued notification for job [J] that
    is provisioned successfully is followed by the completion notification
    for [J]: the handler returns [True]; when the cleanup runs to its end the
    registry is back to what it was and the completion has asked for exactly
    one termination, of the instance that was provisioned; when an exception
    stops the cleanup the record of the runner stays in the registry. *)
Theorem X5_queued_then_completed_restores_registry
    (env : RunnerManager.CreateEnv) (cenv : RunnerManager.CleanupEnv)
    (self : Cfg.Config) (payload : RunnerManager.Payload)
    (st : RunnerManager.State) (o r i : string) (c : RunnerManager.RunnerConfig) :
  Spec.has_marker (RunnerManager.job_labels payload) = true ->
  GitHubClient.parse_repository_from_url (RunnerManager.repo_html_url payload)
    = (Some o, Some r) ->
  o <> "" -> r <> "" ->
  RunnerManager.parse_runs_on_config self (RunnerManager.job_labels payload) = Ret c ->
  truthy (RunnerManager.reg_token env) = true ->
  RunnerManager.spot_instance env = Some i -> i <> "" ->
  RunnerManager.find_runner_for_job (RunnerManager.job_id payload)
    (RunnerManager.active_runners st) = None ->
  let runner_name :=
    RunnerManager.runner_name_of (RunnerManager.job_id payload)
      (RunnerManager.uuid4_hex env) in
  let completes :=
    Spec.deregisters cenv runner_name
    && Spec.answered (RunnerManager.ec2_terminates cenv i) in
  let st1 := snd (RunnerManager.handle_workflow_job_queued env self payload st) in
  let result := RunnerManager.handle_workflow_job_completed cenv payload st1 in
  fst result = true /\
  (completes = true ->
   RunnerManager.active_runners (snd result) = RunnerManager.active_runners st /\
   exists issued,
     RunnerManager.calls (snd result) = RunnerManager.calls st1 ++ issued /\
     Spec.terminations issued = [i]) /\
  (completes = false ->
   RunnerManager.active_runners (snd result) = RunnerManager.active_runners st1 /\
   exists info,
     dict_get (RunnerManager.active_runners (snd result)) runner_name = Some info /\
     RunnerManager.instance_id info = i).
Proof.
  intros Hm Hurl Ho Hr Hc Htok Hinst Hi Hnone runner_name completes st1 result.
  subst runner_name completes st1 result.
  assert (Htruthy : truthy (RunnerManager.spot_instance env) = true).
  { rewrite Hinst. simpl. destruct (String.eqb_spec i ""); [contradiction|reflexivity]. }
  destruct (manager_queued_inserts env self payload st o r c
              Hm Hurl Ho Hr Hc Htok Htruthy) as (info & _ & Hid & _ & Hset).
  rewrite Hinst in Hid. inversion Hid as [Hid'].
  set (st1 := snd (RunnerManager.handle_workflow_job_queued env self payload st))
    in *.
  set (name := RunnerManager.runner_name_of (RunnerManager.job_id payload)
                 (RunnerManager.uuid4_hex env)) in *.
  unfold RunnerManager.find_runner_for_job in Hnone.
  assert (Hfind : find (fun kv : string * RunnerManager.RunnerInfo =>
                          contains ("runner-" ++ str_of_int (RunnerManager.job_id payload))
                                   (fst kv))
                       (RunnerManager.active_runners st) = None).
  { destruct (find _ (RunnerManager.active_runners st)); [discriminate|reflexivity]. }
  destruct (find_after_set
              (contains ("runner-" ++ str_of_int (RunnerManager.job_id payload)))
              (RunnerManager.active_runners st) name info Hfind
              (runner_name_matches _ _)) as [Hfound Hdel].
  assert (Hscan : RunnerManager.find_runner_for_job (RunnerManager.job_id payload)
                    (RunnerManager.active_runners st1) = Some name).
  { unfold RunnerManager.find_runner_for_job. rewrite Hset, Hfound. reflexivity. }
  destruct (manager_completed_some cenv payload st1 name Hscan)
    as (info' & issued & Hget & Hd & ->).
  rewrite Hset, dict_get_set_same in Hget. inversion Hget; subst info'.
  unfold Spec.cleanup_completes.
  cbn [fst snd RunnerManager.active_runners RunnerManager.calls].
  split; [reflexivity|]. split; intros Hcompletes; rewrite Hcompletes.
  - split; [rewrite Hset; exact Hdel|].
    exists issued. split; [reflexivity|].
    apply andb_true_iff in Hcompletes as [Hdereg _]. rewrite Hd, Hdereg.
    reflexivity.
  - split; [reflexivity|]. exists info.
    split; [rewrite Hset; apply dict_get_set_same|reflexivity].
Qed.

Lemma X5_queued_then_completed_witness :
  RunnerManager.active_runners
    (snd (RunnerManager.handle_workflow_job_completed Scenario.quiet_cleanup
            Scenario.queued42 Scenario.after_first)) = [] /\
  (exists info,
      dict_get
        (RunnerManager.active_runners
           (snd (RunnerManager.handle_workflow_job_completed
                   Scenario.unreachable_ec2 Scenario.queued42 Scenario.after_first)))
        "runner-42-aaaaaaaa" = Some info /\
      RunnerManager.instance_id info = "i-0001").
Proof.
  assert (Ho : "acme" <> "") by discriminate.
  assert (Hr : "app" <> "") by discriminate.
  assert (Hi : "i-0001" <> "") by discriminate.
  split.
  - exact (proj1 (proj1 (proj2 (X5_queued_then_completed_restores_registry
                           Scenario.first_delivery Scenario.quiet_cleanup
                           Scenario.cfg Scenario.queued42 Scenario.empty_manager
                           "acme" "app" "i-0001" _
                           eq_refl eq_refl Ho Hr eq_refl eq_refl eq_refl Hi eq_refl))
                    eq_refl)).
  - exact (proj2 (proj2 (proj2 (X5_queued_then_completed_restores_registry
                           Scenario.first_delivery Scenario.unreachable_ec2
                           Scenario.cfg Scenario.queued42 Scenario.empty_manager
                           "acme" "app" "i-0001" _
                           eq_refl eq_refl Ho Hr eq_refl eq_refl eq_refl Hi eq_refl))
                    eq_refl)).
Defined.

(* ================================================================== *)
(** ** Waiting for a spot request *)

Section SpotWait.

Variables (start_time timeout : Z).

(** An instance id comes from an answer in state [active], received on a
    poll made before the deadline. *)
Lemma wait_loop_fulfilled (trace : list (Z * AWSManager.SpotReply)) :
  forall requests id n,
  AWSManager.wait_loop start_time timeout trace requests = Some (Some id, n) ->
  exists k now,
    nth_error trace k = Some (now, AWSManager.SpotRequest "active" (Some id)) /\
    now - start_time < timeout /\
    n = requests + Z.of_nat k + 1.
Proof.
  induction trace as [|[now reply] rest IH]; intros requests id n; simpl;
    [discriminate|].
  destruct (Z.ltb_spec (now - start_time) timeout) as [Hlt|Hge]; [|discriminate].
  destruct reply as [state instance|]; [|discriminate].
  destruct (String.eqb_spec state "active") as [->|Hstate].
  - destruct instance as [i|].
    + intros H; inversion H; subst. exists O, now. simpl. repeat split; [assumption|lia].
    + simpl. intros H. apply IH in H as (k & now' & Hnth & Hlt' & Hn).
      exists (S k), now'. simpl. repeat split; [assumption..|lia].
  - destruct (String.eqb state "cancelled" || String.eqb state "failed");
      [discriminate|].
    intros H. apply IH in H as (k & now' & Hnth & Hlt' & Hn).
    exists (S k), now'. simpl. repeat split; [assumption..|lia].
Qed.

(** When every sleep lasts at least ten seconds, the loop ends within the
    trace once the trace is long enough, and the number of requests stays
    below [timeout / 10 + 1]. *)
Lemma wait_loop_bounded (trace : list (Z * AWSManager.SpotReply)) :
  forall requests,
  0 <= requests ->
  (forall k now reply,
      nth_error trace k = Some (now, reply) ->
      start_time + 10 * (requests + Z.of_nat k) <= now) ->
  timeout <= 10 * (requests + Z.of_nat (List.length trace) - 1) ->
  trace <> [] ->
  exists result n,
    AWSManager.wait_loop start_time timeout trace requests = Some (result, n) /\
    requests <= n /\ (n = requests \/ 10 * (n - 1) < timeout).
Proof.
  induction trace as [|[now reply] rest IH]; intros requests Hreq Hclock Hlong Hne;
    [contradiction|].
  cbn [AWSManager.wait_loop].
  pose proof (Hclock O now reply eq_refl) as Hnow. change (Z.of_nat 0) with 0 in Hnow.
  destruct (Z.ltb_spec (now - start_time) timeout) as [Hlt|Hge];
    [|exists None, requests; repeat split; [lia|left; reflexivity]].
  assert (Hcount : 10 * (requests + 1 - 1) < timeout) by lia.
  assert (Hrest : exists result n,
             AWSManager.wait_loop start_time timeout rest (requests + 1)
             = Some (result, n) /\
             requests <= n /\ (n = requests \/ 10 * (n - 1) < timeout)).
  { destruct rest as [|next rest'] eqn:Erest.
    - exfalso. cbn [List.length] in Hlong. lia.
    - rewrite <- Erest in *.
      destruct (IH (requests + 1)) as (result & n & Heq & Hle & Hn).
      + lia.
      + intros k now' reply' Hnth.
        pose proof (Hclock (S k) now' reply' Hnth) as H. lia.
      + cbn [List.length] in Hlong |- *. lia.
      + rewrite Erest. discriminate.
      + exists result, n. split; [exact Heq|]. split; [lia|].
        destruct Hn as [->|Hn]; right; lia. }
  destruct reply as [state instance|];
    [|exists None, (requests + 1); repeat split; [lia|right; exact Hcount]].
  destruct (String.eqb state "active"), instance as [i|];
    try (exists (Some i), (requests + 1); repeat split; [lia|right; exact Hcount]);
    destruct (String.eqb state "cancelled" || String.eqb state "failed");
    try (exists None, (requests + 1); repeat split; [lia|right; exact Hcount]);
    exact Hrest.
Qed.

End SpotWait.

(** X21. Waiting for a spot request.  An instance id is returned only for
    an answer in state [active] that carries an [InstanceId], received on a
    poll made before the deadline.  And when every sleep lasts at least ten
    seconds the wait ends: on a trace that reaches [timeout / 10] sleeps it returns,
    after fewer than [timeout / 10 + 1] requests (at most 30 for the default
    timeout of 300 seconds, none at all for a timeout of zero). *)
Theorem X21_spot_wait_is_bounded
    (start_time timeout : Z) (trace : list (Z * AWSManager.SpotReply)) :
  (forall id n,
      AWSManager._wait_for_spot_fulfillment start_time timeout trace
        = Some (Some id, n) ->
      exists k now,
        nth_error trace k = Some (now, AWSManager.SpotRequest "active" (Some id)) /\
        now - start_time < timeout /\ n = Z.of_nat k + 1) /\
  ((forall k now reply,
       nth_error trace k = Some (now, reply) ->
       start_time + 10 * Z.of_nat k <= now) ->
   timeout <= 10 * (Z.of_nat (List.length trace) - 1) ->
   trace <> [] ->
   exists result n,
     AWSManager._wait_for_spot_fulfillment start_time timeout trace
       = Some (result, n) /\
     0 <= n /\ 10 * n < Z.max timeout 0 + 10).
Proof.
  unfold AWSManager._wait_for_spot_fulfillment. split.
  - intros id n H.
    destruct (wait_loop_fulfilled start_time timeout trace 0 id n H)
      as (k & now & Hnth & Hlt & Hn).
    exists k, now. repeat split; [assumption..|lia].
  - intros Hclock Hlong Hne.
    destruct (wait_loop_bounded start_time timeout trace 0) as (result & n & Heq & Hle & Hn);
      [lia|exact Hclock|exact Hlong|exact Hne|].
    exists result, n. split; [exact Heq|]. split; [exact Hle|].
    destruct Hn as [->|Hn]; lia.
Qed.

Lemma X21_spot_wait_witness :
  exists result n,
    AWSManager._wait_for_spot_fulfillment 100 30 Scenario.spot_trace
      = Some (result, n) /\
    0 <= n /\ 10 * n < Z.max 30 0 + 10.
Proof.
  refine (proj2 (X21_spot_wait_is_bounded 100 30 Scenario.spot_trace) _ _ _).
  - intros k now reply H.
    destruct k as [|[|[|[|k]]]]; simpl in H; inversion H; subst; simpl; try lia.
    destruct k; discriminate.
  - simpl. lia.
  - discriminate.
Defined.
